(** * Screenshot-Analyzer: the analysis pipeline and the model loader

    A shallow embedding of [pdfexpy/utils/image_analysis.py],
    [pdfexpy/models/yolo_model.py] and [pdfexpy/models/model_loader.py],
    and the properties of the specification that are settled on it.

    Python values are modelled as follows.
    - [float] is IEEE binary64: Rocq's primitive [float], whose operations
      are the hardware ones (round to nearest, ties to even).
    - [int] is [Z].
    - [str] is [string], holding the UTF-8 bytes of the text.
    - a [dict] with a fixed set of keys is a record; a key that may be
      absent is an [option] field; a [dict] keyed by names is a [gmap].
    - an exception raised by a library the code calls is a value of [exn];
      a call that may raise returns a sum or an [option].
    - what the code reads from outside (the clock, the installed
      libraries, the files) is a field of the record [world]. *)

From Stdlib Require Import ZArith Floats DecimalString HexadecimalString.
From stdpp Require Import gmap strings list.

Set Warnings "-inexact-float".
Local Open Scope Z_scope.

(** ** Exceptions *)

(** The classes of exception the code tells apart, and the others. *)
Inductive exn_class :=
  | ImportError
  | ModelLoadError
  | ImageAnalysisError
  | IndexError
  | KeyError
  | ValueError
  | OverflowError
  | ZeroDivisionError
  | OtherException.

(** An exception with the text [str(e)] gives for it. *)
Record exn := Exn { exn_class_of : exn_class; str : string }.

(** A computation that returns or raises; [x ← m; k] runs [k] when [m]
    returns and lets the exception of [m] through. *)
Global Instance raises_ret : MRet (sum exn) := fun _ a => inr a.
Global Instance raises_bind : MBind (sum exn) := fun _ _ k m =>
  match m with
  | inl e => inl e
  | inr a => k a
  end.

Definition raise {A} (c : exn_class) (text : string) : exn + A :=
  inl (Exn c text).

(** ** Python's numeric primitives *)

Module Py.

(** [float(n)] for an [int]: the nearest double, OverflowError beyond
    the largest one. *)
Definition float_of_int (n : Z) : exn + float :=
  let f := SF2Prim (binary_normalize prec emax n 0 false) in
  if is_infinity f then raise OverflowError "int too large to convert to float"
  else inr f.

(** [int(x)] for a [float]: truncation toward zero. *)
Definition int_of_float (x : float) : exn + Z :=
  match Prim2SF x with
  | S754_zero _ => inr 0
  | S754_finite s m e => inr (cond_Zopp s (Z.shiftl (Z.pos m) e))
  | S754_infinity _ => raise OverflowError "cannot convert float infinity to integer"
  | S754_nan => raise ValueError "cannot convert float NaN to integer"
  end.

(** [int(n * c)] for an [int] [n] and a [float] [c]. *)
Definition int_of_product (n : Z) (c : float) : exn + Z :=
  f ← float_of_int n; int_of_float (f * c)%float.

(** The double nearest to the rational [n / d] (ties to even), with the
    sign [neg]: what [strtod] returns for a decimal string, and what
    [a / b] returns for two [int]s. *)
Definition nearest_float (neg : bool) (n : Z) (d : positive) : float :=
  match n with
  | Z.pos p =>
      SF2Prim (SFdiv prec emax (S754_finite neg p 0) (S754_finite false d 0))
  | _ => if neg then neg_zero else zero
  end.

(** [n / d] rounded to the nearest integer, ties to even ([0 <= n], [0 < d]). *)
Definition round_half_even (n d : Z) : Z :=
  let q := n / d in
  match 2 * (n mod d) ?= d with
  | Lt => q
  | Gt => q + 1
  | Eq => if Z.even q then q else q + 1
  end.

(** The number of hundredths nearest to the exact value [m * 2^e]: the
    digits [dtoa] produces in mode 3 with two decimals. *)
Definition hundredths (m : positive) (e : Z) : Z :=
  if 0 <=? e then Z.pos m * 2 ^ e * 100
  else round_half_even (Z.pos m * 100) (2 ^ (- e)).

(** [round(x, 2)]: NaN, the infinities and the zeros round to themselves. *)
Definition round2 (x : float) : float :=
  match Prim2SF x with
  | S754_finite s m e => nearest_float s (hundredths m e) 100
  | _ => x
  end.

(** [str(n)] for an [int]. *)
Definition str_of_int (n : Z) : string :=
  DecimalString.NilZero.string_of_int (Z.to_int n).

(** [f"{n:02x}"] for an [int]: hexadecimal, at least two characters. *)
Definition fmt_02x (n : Z) : string :=
  let digits := HexadecimalString.NilZero.string_of_int (Z.to_hex_int n) in
  if (String.length digits <? 2)%nat then "0" +:+ digits else digits.

(** [a / b] for two [int]s: the double nearest to the quotient. *)
Definition truediv (a b : Z) : exn + float :=
  if b =? 0 then raise ZeroDivisionError "division by zero"
  else
    let f :=
      nearest_float (xorb (a <? 0) (b <? 0)) (Z.abs a) (Z.to_pos (Z.abs b)) in
    if is_infinity f
    then raise OverflowError "integer division result too large for a float"
    else inr f.

Definition two_digits (n : Z) : string :=
  (if n <? 10 then "0" else "") +:+ str_of_int n.

(** [f"{x:.2f}"]. *)
Definition fmt_2f (x : float) : string :=
  match Prim2SF x with
  | S754_nan => "nan"
  | S754_infinity s => if s then "-inf" else "inf"
  | S754_zero s => if s then "-0.00" else "0.00"
  | S754_finite s m e =>
      let k := hundredths m e in
      (if s then "-" else "") +:+ str_of_int (k / 100) +:+ "." +:+ two_digits (k mod 100)
  end.

(** [len(s)] counts code points: the bytes of the UTF-8 text that are not
    continuation bytes (10xxxxxx). *)
Fixpoint len (s : string) : Z :=
  match s with
  | EmptyString => 0
  | String c rest =>
      let b := Z.of_N (Ascii.N_of_ascii c) in
      (if Z.land b 192 =? 128 then 0 else 1) + len rest
  end.

(** [sub in s] for two [str]s. *)
Definition contains (sub s : string) : bool :=
  match String.index 0 sub s with
  | Some _ => true
  | None => false
  end.

(** [sep.join(parts)]. *)
Fixpoint join (sep : string) (parts : list string) : string :=
  match parts with
  | [] => ""
  | [p] => p
  | p :: rest => p +:+ sep +:+ join sep rest
  end.

(** [sum(xs)] over floats, from the [int] 0, added from left to right
    (CPython 3.8 to 3.11; later versions also compensate the rounding of
    the additions, which can change the last bit of the result). *)
Definition sum (xs : list float) : float :=
  fold_left PrimFloat.add xs 0%float.

(** [list(set(xs))]: the distinct elements. Python fixes no order for them;
    the properties below speak of the result up to permutation. *)
Definition list_of_set (xs : list string) : list string := remove_dups xs.

End Py.

(** ** Effects and the outside world *)

(** What a run does to the outside, in order. *)
Inductive draw_cmd :=
  | Rectangle (x0 y0 x1 y1 : Z) (outline fill : option (Z * Z * Z * Z)) (line_width : Z)
  | Text (x y : Z) (content : string) (fill : Z * Z * Z * Z) (title_font : bool).

Inductive event :=
  | EvModelLoader
  | EvImportModule (name : string)
  | EvBackend (call : string)
  (** [open(path, "w")] returned: the file is there, and empty until
      something is written to it *)
  | EvOpen (path : string)
  | EvJsonDump (path : string)
  | EvImageSave (path : string) (drawing : list draw_cmd).

(** The state threaded through a run: how many times the clock was read,
    and the effects so far (latest first). *)
Record runtime := Runtime { clock_reads : nat; trace : list event }.

Definition M (A : Type) : Type := runtime -> A * runtime.

Definition ret {A} (a : A) : M A := fun rt => (a, rt).

Definition bind {A B} (m : M A) (k : A -> M B) : M B :=
  fun rt => let (a, rt') := m rt in k a rt'.

Notation "'do' x <- m ; k" := (bind m (fun x => k))
  (at level 10, x pattern, m at level 100, k at level 200).
Notation "m ;; k" := (bind m (fun _ => k))
  (at level 100, k at level 200, right associativity).

Definition emit (ev : event) : M unit :=
  fun rt => (tt, Runtime (clock_reads rt) (ev :: trace rt)).

Definition tick : M nat :=
  fun rt => (clock_reads rt, Runtime (S (clock_reads rt)) (trace rt)).

(** ** The data of the analysis ([image_analysis.py]) *)

Record bbox := BBox { bbox_x : Z; bbox_y : Z; bbox_width : Z; bbox_height : Z }.

Record detected_object := DetectedObject {
  label : string;
  obj_confidence : float;
  obj_bbox : bbox }.

Record ocr_region := OcrRegion {
  region_text : string;
  region_bbox : bbox;
  region_confidence : float }.

Record ocr_results := OcrResults {
  detected : bool;
  ocr_confidence : option float;
  ocr_text : string;
  regions : list ocr_region }.

Record analysis_results := AnalysisResults {
  objects : list detected_object;
  ocr : ocr_results;
  description : string;
  tags : list string;
  confidence : float }.

(** The dict [YOLOModel.detect] returns; [build_analysis_results] reads
    ["objects"] with a default, so the key may be absent. *)
Record detection_results := DetectionResults {
  det_error : option string;
  det_objects : option (list detected_object);
  det_count : option Z;
  det_image_path : option string;
  det_model : option string }.

Record color_info := ColorInfo {
  mode : string;
  has_alpha : bool;
  is_grayscale : bool;
  is_rgb : bool;
  avg_color_rgb : option (list Z);
  avg_color_hex : option string;
  brightness : option float;
  brightness_percent : option float;
  color_variance : option float }.

Record image_info := ImageInfo {
  width : Z;
  height : Z;
  resolution : string;
  aspect_ratio : float;
  format : string;
  orientation : string;
  is_portrait : bool;
  is_landscape : bool;
  info_color : color_info;
  aspect_ratio_name : string }.

Record file_info := FileInfo {
  filename : string;
  filepath : string;
  filesize_bytes : Z;
  filesize_kb : float;
  filesize_mb : float;
  created_at : string;
  modified_at : string;
  extension : string }.

Record image_details := ImageDetails {
  details_file : file_info;
  details_image : image_info }.

Record metadata := Metadata {
  version : string;
  meta_mode : string;
  meta_image_path : string }.

Record color_analysis := ColorAnalysis {
  estimated_brightness : string;
  dominant_colors : list string;
  variance_class : string }.

Record debug_info := DebugInfo {
  mock_data : bool;
  model_used : option string;
  debug_colors : color_analysis }.

Record performance := Performance {
  analysis_time_seconds : float;
  analysis_time_ms : float }.

Record full_results := FullResults {
  res_metadata : metadata;
  res_image_details : image_details;
  analysis : analysis_results;
  res_debug_info : debug_info;
  res_performance : performance;
  timestamp : string }.

(** What [analyze_image] returns: the report, or the structured failure. *)
Inductive analyze_outcome :=
  | AnalyzeOk (results : full_results) (result_file : string)
      (visual_feedback : option string)
  | AnalyzeFailed (error : string).

(** ** The detection backend ([yolo_model.py]) as the code sees it *)

(** One box of the backend's native output: corner coordinates, score, class. *)
Record yolo_box := YoloBox {
  xyxy : float * float * float * float;
  conf : float;
  cls : float }.

Record yolo_result := YoloResult {
  boxes : list yolo_box;
  names : gmap Z string }.

Record YOLOModel := MkYOLOModel {
  model_handle : bool;
  is_loaded : bool;
  yolo_confidence : float;
  model_path : string }.

(** What [Image.open] gives: the size, the format and the mode. *)
Record opened_image := OpenedImage {
  img_width : Z;
  img_height : Z;
  img_format : string;
  img_mode : string }.

(** What [Path.stat] gives: the size and the two times, as timestamps. *)
Record file_stat := FileStat {
  st_size : Z;
  st_ctime : float;
  st_mtime : float }.

(** What NumPy computes on the RGB channels: the mean of each channel as
    an [int], the mean of all values and their standard deviation. *)
Record pixel_stats := PixelStats {
  channel_means : Z * Z * Z;
  pixel_mean : float;
  pixel_std : float }.

Record world := World {
  PIL_AVAILABLE : bool;
  NUMPY_AVAILABLE : bool;
  TF_AVAILABLE : bool;
  TESSERACT_AVAILABLE : bool;
  YOLO_AVAILABLE : bool;
  (** the n-th reading of [time.time()] *)
  time_time : nat -> float;
  (** the n-th reading of the clock, printed in the given format *)
  strftime : string -> nat -> string;
  (** [traceback.format_exc()] while the exception is handled *)
  format_exc : exn -> string;
  (** [importlib.import_module(name)]: [None] when the import succeeds *)
  import_module : string -> option exn;
  MobileNetV2 : option exn;
  mobilenet_self_test : option exn;
  get_tesseract_version : exn + string;
  get_languages : exn + list string;
  (** [YOLO(model_path)] *)
  YOLO : string -> option exn;
  (** [self.model(image_path, conf=..., verbose=False)] *)
  yolo_predict : string -> float -> exn + list yolo_result;
  (** [ensure_output_dir(directory)]: [None] when the directory is there
      or can be made *)
  ensure_output_dir : string -> option exn;
  (** [Path(p).name], [Path(p).stem] and [Path(p).suffix.lower()] *)
  path_name : string -> string;
  path_stem : string -> string;
  path_suffix : string -> string;
  (** [str(Path(p).absolute())], which asks for the working directory *)
  path_absolute : string -> exn + string;
  stat_file : string -> exn + file_stat;
  (** [datetime.datetime.fromtimestamp(t).isoformat()] *)
  fromtimestamp : float -> exn + string;
  image_open : string -> exn + opened_image;
  (** [np.array(img)] and the statistics of its RGB channels *)
  pixel_statistics : string -> exn + pixel_stats;
  (** [open(path, "w", encoding="utf-8")]: [None] when the file is opened,
      which creates it or empties it *)
  open_write : string -> option exn;
  (** [json.dump(results, f, ensure_ascii=False, indent=2)] into the file
      opened at the path *)
  json_dump : string -> full_results -> option exn;
  image_save : string -> option exn }.

(** ** [image_analysis.py] *)

(** [get_aspect_ratio_name(ratio)]. *)
Definition get_aspect_ratio_name (ratio : float) : string :=
  let rounded := Py.round2 ratio in
  if (abs (rounded - 1.33) <=? 0.03)%float then "4:3（標準）"
  else if (abs (rounded - 1.78) <=? 0.03)%float then "16:9（ワイド）"
  else if (abs (rounded - 1.6) <=? 0.03)%float then "16:10"
  else if (abs (rounded - 1.85) <=? 0.03)%float then "1.85:1（映画）"
  else if (abs (rounded - 2.35) <=? 0.03)%float then "2.35:1（シネマスコープ）"
  else if (abs (rounded - 1.0) <=? 0.03)%float then "1:1（正方形）"
  else if (abs (rounded - 0.75) <=? 0.03)%float then "3:4（縦向き標準）"
  else if (abs (rounded - 0.56) <=? 0.03)%float then "9:16（縦向きワイド）"
  else Py.fmt_2f rounded +:+ ":1".

(** The colour facts [get_image_details] reads from the mode alone. *)
Definition mode_colors (mode : string) : color_info :=
  {| mode := mode;
     has_alpha := Py.contains "A" mode;
     is_grayscale := existsb (String.eqb mode) ["L"; "LA"];
     is_rgb := existsb (String.eqb mode) ["RGB"; "RGBA"];
     avg_color_rgb := None; avg_color_hex := None; brightness := None;
     brightness_percent := None; color_variance := None |}.

(** [color_info.update(...)] with the statistics of the pixels. *)
Definition with_pixel_stats (c : color_info) (stats : pixel_stats) : color_info :=
  let '(r, g, b) := channel_means stats in
  {| mode := mode c;
     has_alpha := has_alpha c;
     is_grayscale := is_grayscale c;
     is_rgb := is_rgb c;
     avg_color_rgb := Some [r; g; b];
     avg_color_hex := Some ("#" +:+ Py.fmt_02x r +:+ Py.fmt_02x g +:+ Py.fmt_02x b);
     brightness := Some (pixel_mean stats);
     brightness_percent := Some (pixel_mean stats / 255 * 100)%float;
     color_variance := Some (pixel_std stats) |}.

(** [get_image_details(image_path)]. *)
Definition get_image_details (w : world) (image_path : string)
  : exn + image_details :=
  if negb (PIL_AVAILABLE w) then
    raise ImageAnalysisError
      "PIL (Pillow) ライブラリがインストールされていません。'pip install pillow' を実行してください。"
  else
    let attempt : exn + image_details :=
      file_stat ← stat_file w image_path;
      img ← image_open w image_path;
      let width := img_width img in
      let height := img_height img in
      let colors := mode_colors (img_mode img) in
      let colors :=
        if NUMPY_AVAILABLE w && is_rgb colors then
          match pixel_statistics w image_path with
          | inr stats => with_pixel_stats colors stats
          | inl _ => colors
          end
        else colors in
      absolute ← path_absolute w image_path;
      kb ← Py.truediv (st_size file_stat) 1024;
      mb ← Py.truediv (st_size file_stat) (1024 * 1024);
      created ← fromtimestamp w (st_ctime file_stat);
      modified ← fromtimestamp w (st_mtime file_stat);
      ratio ← (if height >? 0 then Py.truediv width height else inr 0%float);
      mret {| details_file :=
                {| filename := path_name w image_path;
                   filepath := absolute;
                   filesize_bytes := st_size file_stat;
                   filesize_kb := kb;
                   filesize_mb := mb;
                   created_at := created;
                   modified_at := modified;
                   extension := path_suffix w image_path |};
              details_image :=
                {| width := width;
                   height := height;
                   resolution :=
                     Py.str_of_int width +:+ "x" +:+ Py.str_of_int height;
                   aspect_ratio := ratio;
                   format := img_format img;
                   orientation :=
                     if height >? width then "portrait"
                     else if width >? height then "landscape"
                     else "square";
                   is_portrait := height >? width;
                   is_landscape := width >=? height;
                   info_color := colors;
                   aspect_ratio_name := get_aspect_ratio_name ratio |} |} in
    match attempt with
    | inr details => inr details
    | inl e =>
        raise ImageAnalysisError ("画像の詳細情報取得に失敗しました: " +:+ str e)
    end.

(** [object_counts[label] = object_counts.get(label, 0) + 1] on a dict
    that keeps its keys in the order they were first set. *)
Fixpoint count_label (object_counts : list (string * Z)) (l : string)
  : list (string * Z) :=
  match object_counts with
  | [] => [(l, 0 + 1)]
  | (l', count) :: rest =>
      if String.eqb l' l then (l', count + 1) :: rest
      else (l', count) :: count_label rest l
  end.

Definition description_part (entry : string * Z) : string :=
  let (l, count) := entry in
  if count =? 1 then "1つの" +:+ l
  else Py.str_of_int count +:+ "個の" +:+ l.

(** [len(objects)] as the divisor of a float: a length always converts. *)
Definition float_of_len {A} (l : list A) : float :=
  SF2Prim (binary_normalize prec emax (Z.of_nat (length l)) 0 false).

(** [build_analysis_results(image_path, image_details, detection_results)]. *)
Definition build_analysis_results (image_path : string)
    (details : image_details) (detection : detection_results)
  : analysis_results :=
  let objects := default [] (det_objects detection) in
  let tags := Py.list_of_set (map label objects) in
  let object_counts :=
    fold_left (fun counts obj => count_label counts (label obj)) objects [] in
  let description_parts := map description_part object_counts in
  let description :=
    match description_parts with
    | _ :: _ =>
        "この画像には" +:+ Py.join "、" description_parts +:+ "が含まれています。"
    | [] => "この画像には特定のオブジェクトが検出されませんでした。"
    end in
  let avg_confidence :=
    match objects with
    | _ :: _ => (Py.sum (map obj_confidence objects) / float_of_len objects)%float
    | [] => 0.0%float
    end in
  let ocr_results :=
    {| detected := false; ocr_confidence := None; ocr_text := ""; regions := [] |} in
  {| objects := objects;
     description := description;
     tags := tags;
     confidence := avg_confidence;
     ocr := ocr_results |}.

(** [generate_mock_analysis_results(image_path, image_details)]. *)
Definition generate_mock_analysis_results (image_path : string)
    (details : image_details) : exn + analysis_results :=
  let width := width (details_image details) in
  let height := height (details_image details) in
  x1 ← Py.int_of_product width 0.1;
  y1 ← Py.int_of_product height 0.1;
  w1 ← Py.int_of_product width 0.8;
  h1 ← Py.int_of_product height 0.7;
  x2 ← Py.int_of_product width 0.05;
  y2 ← Py.int_of_product height 0.1;
  w2 ← Py.int_of_product width 0.05;
  h2 ← Py.int_of_product height 0.067;
  x3 ← Py.int_of_product width 0.2;
  y3 ← Py.int_of_product height 0.15;
  w3 ← Py.int_of_product width 0.6;
  h3 ← Py.int_of_product height 0.05;
  let objects :=
    [ {| label := "window"; obj_confidence := 0.92;
         obj_bbox := BBox x1 y1 w1 h1 |};
      {| label := "icon"; obj_confidence := 0.85;
         obj_bbox := BBox x2 y2 w2 h2 |};
      {| label := "text"; obj_confidence := 0.76;
         obj_bbox := BBox x3 y3 w3 h3 |} ] in
  rx1 ← Py.int_of_product width 0.2;
  ry1 ← Py.int_of_product height 0.15;
  rw1 ← Py.int_of_product width 0.3;
  rh1 ← Py.int_of_product height 0.05;
  rx2 ← Py.int_of_product width 0.2;
  ry2 ← Py.int_of_product height 0.2;
  rw2 ← Py.int_of_product width 0.4;
  rh2 ← Py.int_of_product height 0.05;
  let ocr :=
    {| detected := true;
       ocr_confidence := Some 0.72%float;
       ocr_text := "サンプルテキスト - デバッグ用のモックデータです。";
       regions :=
         [ {| region_text := "サンプルテキスト";
              region_bbox := BBox rx1 ry1 rw1 rh1;
              region_confidence := 0.78 |};
           {| region_text := "デバッグ用のモックデータです。";
              region_bbox := BBox rx2 ry2 rw2 rh2;
              region_confidence := 0.65 |} ] |} in
  mret {| objects := objects;
          ocr := ocr;
          description := "これはデスクトップのスクリーンショットです。ウィンドウ、アイコン、およびテキストが表示されています。";
          tags := ["スクリーンショット"; "デスクトップ"; "ウィンドウ"; "UI"];
          confidence := 0.87 |}.

(** The overlays of [generate_visual_feedback], step by step. *)

Definition draw_object (obj : detected_object) : list draw_cmd :=
  let '(BBox x y w h) := obj_bbox obj in
  let label_text :=
    label obj +:+ " (" +:+ Py.fmt_2f (obj_confidence obj) +:+ ")" in
  [ Rectangle x y (x + w) (y + h) (Some (0, 255, 0, 220)) None 2;
    Rectangle x (y - 25) (x + Py.len label_text * 7) y None (Some (0, 255, 0, 180)) 1;
    Text (x + 5) (y - 20) label_text (0, 0, 0, 255) false ].

Definition draw_region (region : ocr_region) : list draw_cmd :=
  let '(BBox x y w h) := region_bbox region in
  let text_confidence := " (" +:+ Py.fmt_2f (region_confidence region) +:+ ")" in
  [ Rectangle x y (x + w) (y + h) (Some (255, 0, 0, 220)) None 2;
    Rectangle x (y - 25) (x + Py.len (region_text region) * 7) y None
      (Some (255, 0, 0, 180)) 1;
    Text (x + 5) (y - 20) (region_text region +:+ text_confidence)
      (255, 255, 255, 255) false ].

(** Step 1: one box and tag per detected object. *)
Definition draw_objects (a : analysis_results) : list draw_cmd :=
  concat (map draw_object (objects a)).

(** Step 2: the OCR regions, only when the OCR block is marked detected. *)
Definition draw_ocr (a : analysis_results) : list draw_cmd :=
  if detected (ocr a) then concat (map draw_region (regions (ocr a))) else [].

Fixpoint draw_lines (x y : Z) (i : Z) (first_is_title : bool)
    (lines : list string) : list draw_cmd :=
  match lines with
  | [] => []
  | text :: rest =>
      (if first_is_title && (i =? 0)
       then Text x (y + i * 25) text (255, 255, 0, 255) true
       else Text x (y + i * 25) text (255, 255, 255, 255) false)
      :: draw_lines x y (i + 1) first_is_title rest
  end.

(** Step 3: the panel with the facts about the image. *)
Definition draw_info (now name : string) (img : opened_image) (r : full_results)
  : list draw_cmd :=
  let info := details_image (res_image_details r) in
  let info_text :=
    [ "解析タイムスタンプ: " +:+ now;
      "元画像: " +:+ name;
      "解像度: " +:+ Py.str_of_int (img_width img) +:+ "x"
        +:+ Py.str_of_int (img_height img) +:+ " (" +:+ orientation info +:+ ")";
      "アスペクト比: " +:+ aspect_ratio_name info ] in
  let info_x := 10 in
  let info_y := 10 in
  let text_height := Z.of_nat (length info_text) * 25 + 10 in
  Rectangle (info_x - 5) (info_y - 5) (info_x + 350) (info_y + text_height)
    None (Some (0, 0, 0, 180)) 1
  :: draw_lines info_x info_y 0 false info_text.

(** Step 4: the panel with the summary of the analysis. *)
Definition draw_summary (img : opened_image) (r : full_results) : list draw_cmd :=
  let a := analysis r in
  let analysis_info :=
    [ "【解析結果サマリー】";
      "検出オブジェクト: " +:+ Py.str_of_int (Z.of_nat (length (objects a))) +:+ "個";
      "テキスト検出: " +:+ (if detected (ocr a) then "あり" else "なし");
      "説明: " +:+ description a ] in
  let analysis_x := 10 in
  let analysis_y := img_height img - Z.of_nat (length analysis_info) * 25 - 15 in
  let analysis_height := Z.of_nat (length analysis_info) * 25 + 10 in
  Rectangle (analysis_x - 5) (analysis_y - 5) (analysis_x + 500)
    (analysis_y + analysis_height) None (Some (0, 0, 0, 180)) 1
  :: draw_lines analysis_x analysis_y 0 true analysis_info.

(** [generate_visual_feedback(image_path, analysis_results, output_file)]:
    the drawing is what reaches [save]. *)
Definition generate_visual_feedback (w : world) (image_path : string)
    (r : full_results) (output_file : string) : M (exn + string) :=
  if negb (PIL_AVAILABLE w) then
    ret (raise ImageAnalysisError
      "PIL (Pillow) ライブラリがインストールされていません。'pip install pillow' を実行してください。")
  else
    let failed (e : exn) : exn + string :=
      raise ImageAnalysisError
        ("視覚的フィードバックの生成に失敗しました: " +:+ str e) in
    match image_open w image_path with
    | inl e => ret (failed e)
    | inr img =>
        do n <- tick;
        let drawing :=
          draw_objects (analysis r) ++ draw_ocr (analysis r)
          ++ draw_info (strftime w "%Y-%m-%d %H:%M:%S" n)
               (path_name w image_path) img r
          ++ draw_summary img r in
        match image_save w output_file with
        | Some e => ret (failed e)
        | None => emit (EvImageSave output_file drawing);; ret (inr output_file)
        end
    end.

(** ** [yolo_model.py] *)

(** [YOLOModel(model_path, confidence)]. *)
Definition YOLOModel_init (path : option string) (confidence : float) : YOLOModel :=
  {| model_handle := false;
     is_loaded := false;
     yolo_confidence := confidence;
     model_path :=
       match path with
       | Some p => if String.eqb p "" then "yolov8n.pt" else p
       | None => "yolov8n.pt"
       end |}.

(** [YOLOModel.load()]. *)
Definition YOLOModel_load (w : world) (self : YOLOModel) : M (bool * YOLOModel) :=
  if negb (YOLO_AVAILABLE w) then ret (false, self)
  else
    emit (EvBackend "YOLO");;
    match YOLO w (model_path self) with
    | None =>
        ret (true,
             {| model_handle := true; is_loaded := true;
                yolo_confidence := yolo_confidence self;
                model_path := model_path self |})
    | Some e =>
        ret (false,
             {| model_handle := model_handle self; is_loaded := false;
                yolo_confidence := yolo_confidence self;
                model_path := model_path self |})
    end.

(** The body of the loop over [result.boxes]. *)
Definition convert_box (names : gmap Z string) (box : yolo_box)
  : exn + detected_object :=
  let '(x1, y1, x2, y2) := xyxy box in
  let confidence := conf box in
  class_id ← Py.int_of_float (cls box);
  l ← match names !! class_id with
      | Some l => inr l
      | None => raise KeyError (Py.str_of_int class_id)
      end;
  x ← Py.int_of_float x1;
  y ← Py.int_of_float y1;
  bw ← Py.int_of_float (x2 - x1)%float;
  bh ← Py.int_of_float (y2 - y1)%float;
  mret {| label := l; obj_confidence := confidence; obj_bbox := BBox x y bw bh |}.

Fixpoint convert_boxes (names : gmap Z string) (bs : list yolo_box)
  : exn + list detected_object :=
  match bs with
  | [] => inr []
  | box :: rest =>
      obj ← convert_box names box;
      objs ← convert_boxes names rest;
      mret (obj :: objs)
  end.

(** What the [try] block of [detect] computes from the backend's answer. *)
Definition detected_objects (answer : exn + list yolo_result)
  : exn + list detected_object :=
  results ← answer;
  result ← match results with
           | result :: _ => inr result
           | [] => raise IndexError "list index out of range"
           end;
  convert_boxes (names result) (boxes result).

(** [YOLOModel.detect(image_path)]. *)
Definition YOLOModel_detect (w : world) (self : YOLOModel) (image_path : string)
  : M (detection_results * YOLOModel) :=
  do (ready, self) <-
    (if is_loaded self then ret (true, self) else YOLOModel_load w self);
  if negb ready then
    ret ({| det_error := Some "モデルがロードされていません";
            det_objects := Some [];
            det_count := None; det_image_path := None; det_model := None |},
         self)
  else
    emit (EvBackend "predict");;
    match detected_objects (yolo_predict w image_path (yolo_confidence self)) with
    | inr objs =>
        ret ({| det_error := None;
                det_objects := Some objs;
                det_count := Some (Z.of_nat (length objs));
                det_image_path := Some image_path;
                det_model := Some "yolov8" |},
             self)
    | inl e =>
        ret ({| det_error := Some (str e);
                det_objects := Some [];
                det_count := None;
                det_image_path := Some image_path;
                det_model := None |},
             self)
    end.

(** ** [analyze_image] *)

Definition classify_brightness (c : color_info) : string :=
  let percent := default 50%float (brightness_percent c) in
  if (70 <? percent)%float then "bright"
  else if (30 <? percent)%float then "medium"
  else "dark".

Definition classify_variance (c : color_info) : string :=
  let variance := default 50%float (color_variance c) in
  if (80 <? variance)%float then "high"
  else if (40 <? variance)%float then "medium"
  else "low".

(** The [debug_info] block of the report. *)
Definition make_debug_info (mock : bool) (used : string) (details : image_details)
  : debug_info :=
  let c := info_color (details_image details) in
  {| mock_data := mock;
     model_used := if mock then None else Some used;
     debug_colors :=
       {| estimated_brightness := classify_brightness c;
          dominant_colors := [default "#ffffff" (avg_color_hex c)];
          variance_class := classify_variance c |} |}.

(** The branch of [analyze_image] that chooses the analysis and names the
    model that produced it. *)
Definition run_analysis (w : world) (image_path : string) (mock : bool)
    (path : option string) (details : image_details)
  : M (exn + analysis_results * string) :=
  if mock then
    ret (a ← generate_mock_analysis_results image_path details; mret (a, "mock"))
  else if YOLO_AVAILABLE w then
    let yolo_model := YOLOModel_init path 0.25 in
    do (detection, _) <- YOLOModel_detect w yolo_model image_path;
    ret (inr (build_analysis_results image_path details detection, "yolov8"))
  else
    ret (a ← generate_mock_analysis_results image_path details;
         mret (a, "mock (YOLO unavailable)")).

(** [analyze_image(image_path, output_dir, generate_visual, mock, model_path)]. *)
Definition analyze_image (w : world) (image_path output_dir : string)
    (generate_visual mock : bool) (path : option string) : M analyze_outcome :=
  do t0 <- tick;
  let start_time := time_time w t0 in
  match ensure_output_dir w output_dir with
  | Some e => ret (AnalyzeFailed (str e))
  | None =>
  match get_image_details w image_path with
  | inl e => ret (AnalyzeFailed (str e))
  | inr details =>
  do chosen <- run_analysis w image_path mock path details;
  match chosen with
  | inl e => ret (AnalyzeFailed (str e))
  | inr (analysis_results, used) =>
  let meta :=
    {| version := "1.0.0";
       meta_mode := if mock then "mock_analysis" else "yolo_analysis";
       meta_image_path := image_path |} in
  let debug := make_debug_info mock used details in
  do t1 <- tick;
  let elapsed_time := (time_time w t1 - start_time)%float in
  do t2 <- tick;
  let results :=
    {| res_metadata := meta;
       res_image_details := details;
       analysis := analysis_results;
       res_debug_info := debug;
       res_performance :=
         {| analysis_time_seconds := elapsed_time;
            analysis_time_ms := (elapsed_time * 1000)%float |};
       timestamp := strftime w "isoformat" t2 |} in
  let name := path_stem w image_path in
  do t3 <- tick;
  let stamp := strftime w "%Y%m%d_%H%M%S" t3 in
  let result_file := output_dir +:+ "/analysis_" +:+ name +:+ "_" +:+ stamp +:+ ".json" in
  match open_write w result_file with
  | Some e => ret (AnalyzeFailed (str e))
  | None =>
  emit (EvOpen result_file);;
  match json_dump w result_file results with
  | Some e => ret (AnalyzeFailed (str e))
  | None =>
  emit (EvJsonDump result_file);;
  if generate_visual then
    do drawn <- generate_visual_feedback w image_path results
      (output_dir +:+ "/" +:+ name +:+ "_feedback_" +:+ stamp +:+ ".png");
    match drawn with
    | inl e => ret (AnalyzeFailed (str e))
    | inr visual => ret (AnalyzeOk results result_file (Some visual))
    end
  else ret (AnalyzeOk results result_file None)
  end end end end end.

(** ** [model_loader.py] *)

(** The configuration dict, as far as the loader reads it. *)
Record app_config := AppConfig { headless_mode : option bool }.
Record analysis_config := AnalysisConfig { mock_in_headless : option bool }.
Record model_config := ModelConfig {
  enabled : option bool;
  language : option string;
  tesseract_options : option string }.
Record config := Config {
  cfg_app : option app_config;
  cfg_analysis : option analysis_config;
  cfg_models : option (gmap string model_config) }.

(** [{}]. *)
Definition empty_config : config := Config None None None.
Definition empty_model_config : model_config := ModelConfig None None None.

(** One entry of [model_status]. *)
Record status := Status {
  loaded : bool;
  status_error : option string;
  status_time : option float }.

(** What [self.models] holds for a loaded backend. *)
Inductive loaded_model :=
  | MobileNetModel
  | DummyCocoSSD
  | TesseractInfo (tesseract_version : string) (languages : list string)
      (options : string).

Record ModelLoader := MkModelLoader {
  loader_config : config;
  models : gmap string loaded_model;
  model_status : gmap string status }.

(** The dict a load returns. *)
Record load_result := LoadResult {
  success : bool;
  res_model : option string;
  elapsed : option float;
  res_error : option string;
  stack_trace : option string;
  message : string;
  res_timestamp : option string;
  res_version : option string;
  res_languages : option (list string) }.

(** What [test_model_loading] returns: the dict of one backend, or the
    dict with a ["models"] entry for all of them. *)
Inductive test_outcome :=
  | TestOne (r : load_result)
  | TestAll (all_success : bool) (results : gmap string load_result)
      (all_message all_timestamp : string).

(** [ModelLoader(config)]. *)
Definition ModelLoader_init (w : world) (cfg : option config) : M ModelLoader :=
  emit EvModelLoader;;
  ret {| loader_config := default empty_config cfg;
         models := ∅;
         model_status :=
           <["mobilenet" := Status false None None]>
           (<["cocossd" := Status false None None]>
           (<["tesseract" := Status false None None]> ∅)) |}.

(** [self.config.get("models", {}).get(model_name, {})]. *)
Definition model_config_of (self : ModelLoader) (model_name : string) : model_config :=
  default empty_model_config
    (default ∅ (cfg_models (loader_config self)) !! model_name).

Definition disabled_result : load_result :=
  {| success := false; res_model := None; elapsed := None; res_error := None;
     stack_trace := None; message := "モデルは無効化されています";
     res_timestamp := None; res_version := None; res_languages := None |}.

(** The end of the [try] block of a load: the model is kept, the clock is
    read, the status is set and the result returned. *)
Definition load_succeeded (w : world) (self : ModelLoader) (model_name : string)
    (model : loaded_model) (t0 : nat) (ver : option string)
    (langs : option (list string)) : M (load_result * ModelLoader) :=
  do t1 <- tick;
  let elapsed_time := (time_time w t1 - time_time w t0)%float in
  ret ({| success := true;
          res_model := Some model_name;
          elapsed := Some elapsed_time;
          res_error := None;
          stack_trace := None;
          message :=
            "モデルのロードが完了しました (" +:+ Py.fmt_2f elapsed_time +:+ "秒)";
          res_timestamp := None;
          res_version := ver;
          res_languages := langs |},
       {| loader_config := loader_config self;
          models := <[model_name := model]> (models self);
          model_status :=
            <[model_name := Status true None (Some elapsed_time)]>
              (model_status self) |}).

(** The handler [except Exception as e] of a load. *)
Definition load_failed (w : world) (self : ModelLoader) (model_name : string)
    (e : exn) (t0 : nat) : M (load_result * ModelLoader) :=
  do t1 <- tick;
  let elapsed_time := (time_time w t1 - time_time w t0)%float in
  let error_msg := str e in
  ret ({| success := false;
          res_model := Some model_name;
          elapsed := Some elapsed_time;
          res_error := Some error_msg;
          stack_trace := Some (format_exc w e);
          message := "モデルのロードに失敗しました: " +:+ error_msg;
          res_timestamp := None;
          res_version := None;
          res_languages := None |},
       {| loader_config := loader_config self;
          models := models self;
          model_status :=
            <[model_name := Status false (Some error_msg) (Some elapsed_time)]>
              (model_status self) |}).

(** [except ImportError as e: raise ModelLoadError(prefix + str(e))]; any
    other exception goes on as it is. *)
Definition reraise_import_error (prefix : string) (e : exn) : exn :=
  match exn_class_of e with
  | ImportError => Exn ModelLoadError (prefix +:+ str e)
  | _ => e
  end.

(** [ModelLoader.load_mobilenet_model()]. *)
Definition load_mobilenet_model (w : world) (self : ModelLoader)
  : M (load_result * ModelLoader) :=
  let model_name := "mobilenet" in
  let model_config := model_config_of self model_name in
  if negb (default true (enabled model_config)) then ret (disabled_result, self)
  else
    do t0 <- tick;
    if negb (TF_AVAILABLE w) then
      load_failed w self model_name
        (Exn ModelLoadError "TensorFlow/TensorFlow.jsがインストールされていません") t0
    else
      let import_failed := reraise_import_error "MobileNetモデルをインポートできません: " in
      emit (EvImportModule "tensorflow.keras.applications.mobilenet_v2");;
      match import_module w "tensorflow.keras.applications.mobilenet_v2" with
      | Some e => load_failed w self model_name (import_failed e) t0
      | None =>
          emit (EvBackend "MobileNetV2");;
          match MobileNetV2 w with
          | Some e => load_failed w self model_name (import_failed e) t0
          | None =>
              emit (EvBackend "mobilenet self-test");;
              match mobilenet_self_test w with
              | Some e => load_failed w self model_name (import_failed e) t0
              | None => load_succeeded w self model_name MobileNetModel t0 None None
              end
          end
      end.

(** [ModelLoader.load_cocossd_model()]. *)
Definition load_cocossd_model (w : world) (self : ModelLoader)
  : M (load_result * ModelLoader) :=
  let model_name := "cocossd" in
  let model_config := model_config_of self model_name in
  if negb (default true (enabled model_config)) then ret (disabled_result, self)
  else
    do t0 <- tick;
    if negb (TF_AVAILABLE w) then
      load_failed w self model_name
        (Exn ModelLoadError "TensorFlow/TensorFlow.jsがインストールされていません") t0
    else
      let import_failed := reraise_import_error "COCO-SSDモデルをインポートできません: " in
      emit (EvImportModule "object_detection.utils.visualization_utils");;
      match import_module w "object_detection.utils.visualization_utils" with
      | Some e => load_failed w self model_name (import_failed e) t0
      | None => load_succeeded w self model_name DummyCocoSSD t0 None None
      end.

(** [ModelLoader.load_tesseract_model()]. *)
Definition load_tesseract_model (w : world) (self : ModelLoader)
  : M (load_result * ModelLoader) :=
  let model_name := "tesseract" in
  let model_config := model_config_of self model_name in
  if negb (default true (enabled model_config)) then ret (disabled_result, self)
  else
    do t0 <- tick;
    if negb (TESSERACT_AVAILABLE w) then
      load_failed w self model_name
        (Exn ModelLoadError "pytesseractがインストールされていません") t0
    else
      let query_failed (e : exn) :=
        Exn ModelLoadError
          ("Tesseractのバージョン・言語情報を取得できません: " +:+ str e) in
      emit (EvBackend "pytesseract.get_tesseract_version");;
      match get_tesseract_version w with
      | inl e => load_failed w self model_name (query_failed e) t0
      | inr tesseract_version =>
          emit (EvBackend "pytesseract.get_languages");;
          match get_languages w with
          | inl e => load_failed w self model_name (query_failed e) t0
          | inr languages =>
              load_succeeded w self model_name
                (TesseractInfo tesseract_version languages
                   (default "--psm 3" (tesseract_options model_config)))
                t0 (Some tesseract_version) (Some languages)
          end
      end.

Definition unknown_model_result (model_name : string) : load_result :=
  {| success := false;
     res_model := Some model_name;
     elapsed := None;
     res_error := Some "未知のモデル名";
     stack_trace := None;
     message := "モデル '" +:+ model_name +:+ "' は認識されません";
     res_timestamp := None; res_version := None; res_languages := None |}.

(** One turn of the loop of [load_models]. *)
Definition load_by_name (w : world) (self : ModelLoader) (model_name : string)
  : M (load_result * ModelLoader) :=
  if String.eqb model_name "mobilenet" then load_mobilenet_model w self
  else if String.eqb model_name "cocossd" then load_cocossd_model w self
  else if String.eqb model_name "tesseract" then load_tesseract_model w self
  else ret (unknown_model_result model_name, self).

Fixpoint load_each (w : world) (self : ModelLoader) (todo : list string)
    (results : gmap string load_result)
  : M (gmap string load_result * ModelLoader) :=
  match todo with
  | [] => ret (results, self)
  | model_name :: rest =>
      do (r, self) <- load_by_name w self model_name;
      load_each w self rest (<[model_name := r]> results)
  end.

(** [ModelLoader.load_models(models_to_load)]. *)
Definition load_models (w : world) (self : ModelLoader)
    (models_to_load : option (list string))
  : M (gmap string load_result * ModelLoader) :=
  let available_models := ["mobilenet"; "cocossd"; "tesseract"] in
  load_each w self (default available_models models_to_load) ∅.

Definition skipped_result (model_name message_text stamp : string) : load_result :=
  {| success := true;
     res_model := Some model_name;
     elapsed := None; res_error := None; stack_trace := None;
     message := message_text;
     res_timestamp := Some stamp;
     res_version := None; res_languages := None |}.

(** [test_model_loading(model_name, force_load, config)]. *)
Definition test_model_loading (w : world) (model_name : string)
    (force_load : bool) (cfg : option config) : M test_outcome :=
  if negb (existsb (String.eqb model_name) ["mobilenet"; "cocossd"; "tesseract"; "all"])
  then ret (TestOne (unknown_model_result model_name))
  else
    let headless :=
      match cfg with
      | Some c => default false (headless_mode (default (AppConfig None) (cfg_app c)))
      | None => false
      end in
    let mock :=
      match cfg with
      | Some c =>
          default true
            (mock_in_headless (default (AnalysisConfig None) (cfg_analysis c)))
      | None => false
      end in
    if headless && mock && negb force_load then
      do t <- tick;
      let stamp := strftime w "%Y-%m-%d %H:%M:%S" t in
      if String.eqb model_name "all" then
        let skipped name :=
          skipped_result name "ヘッドレスモードでスキップされました" stamp in
        ret (TestAll true
               (<["mobilenet" := skipped "mobilenet"]>
               (<["cocossd" := skipped "cocossd"]>
               (<["tesseract" := skipped "tesseract"]> ∅)))
               "全てのモデルテストがヘッドレスモードでスキップされました" stamp)
      else
        ret (TestOne (skipped_result model_name
               ("モデル '" +:+ model_name +:+ "' のロードはヘッドレスモードでスキップされました")
               stamp))
    else
      do loader <- ModelLoader_init w cfg;
      if String.eqb model_name "all" then
        do (results, _) <- load_models w loader None;
        let all_success :=
          forallb (fun entry => success (snd entry)) (map_to_list results) in
        do t <- tick;
        ret (TestAll all_success results "全てのモデルテストが完了しました"
               (strftime w "%Y-%m-%d %H:%M:%S" t))
      else
        do (r, _) <- load_by_name w loader model_name;
        ret (TestOne r).

(** ** The properties, in the words of the specification *)

(** The arithmetic mean of a list of floats. *)
Definition arithmetic_mean (xs : list float) : float :=
  (Py.sum xs / float_of_len xs)%float.

(** The box at the given proportions of a [w] by [h] canvas. *)
Definition scaled_box (w h : Z) (cx cy cw ch : float) : exn + bbox :=
  x ← Py.int_of_product w cx;
  y ← Py.int_of_product h cy;
  bw ← Py.int_of_product w cw;
  bh ← Py.int_of_product h ch;
  mret (BBox x y bw bh).

(** The tags of every mock analysis. *)
Definition mock_tags : list string :=
  ["スクリーンショット"; "デスクトップ"; "ウィンドウ"; "UI"].

(** The ordered table of the canonical ratios, with the reference values
    the code compares with. *)
Definition canonical_ratios : list (float * string) :=
  [ (1.33, "4:3（標準）"); (1.78, "16:9（ワイド）"); (1.6, "16:10");
    (1.85, "1.85:1（映画）"); (2.35, "2.35:1（シネマスコープ）");
    (1.0, "1:1（正方形）"); (0.75, "3:4（縦向き標準）");
    (0.56, "9:16（縦向きワイド）") ]%float.

Definition within_tolerance (x reference : float) : bool :=
  (abs (x - reference) <=? 0.03)%float.

(** The name of the first entry of the table within the tolerance of [x]. *)
Definition first_match (x : float) : option string :=
  snd <$> List.find (fun entry => within_tolerance x (fst entry)) canonical_ratios.

Definition fallback_name (r : float) : string :=
  Py.fmt_2f (Py.round2 r) +:+ ":1".

(** The name when the tolerance is applied to the ratio itself. *)
Definition name_by_ratio (r : float) : string :=
  default (fallback_name r) (first_match r).

(** The name when the tolerance is applied to the ratio rounded to two
    decimals. *)
Definition name_by_rounded_ratio (r : float) : string :=
  default (fallback_name r) (first_match (Py.round2 r)).

(** The configuration of a headless run that mocks the models. *)
Definition headless_config (models_cfg : option (gmap string model_config))
  : config :=
  {| cfg_app := Some (AppConfig (Some true));
     cfg_analysis := Some (AnalysisConfig (Some true));
     cfg_models := models_cfg |}.

Definition backends : list string := ["mobilenet"; "cocossd"; "tesseract"].


(** The OCR block of a report built from a detection. *)
Definition no_ocr : ocr_results :=
  {| detected := false; ocr_confidence := None; ocr_text := ""; regions := [] |}.



Definition nonneg (x : float) : Prop := (0 <=? x)%float = true.

(** The outcome of a load as the specification words it: a failure with a
    non-empty error, or a success without one, an elapsed time that is not
    negative, and the status of the backend set to match. *)
Definition load_outcome (model_name : string) (out : load_result * ModelLoader)
  : Prop :=
  exists seconds_taken,
    elapsed (fst out) = Some seconds_taken
    /\ nonneg seconds_taken
    /\ ((success (fst out) = false
         /\ exists text,
              res_error (fst out) = Some text /\ text <> ""
              /\ model_status (snd out) !! model_name
                 = Some (Status false (Some text) (Some seconds_taken)))
        \/ (success (fst out) = true
            /\ res_error (fst out) = None
            /\ model_status (snd out) !! model_name
               = Some (Status true None (Some seconds_taken)))).

(** The outcome of a load as the code gives it, for a load that starts
    after the readings of the clock counted in [rt]: a failure with an
    error text or a success without one, an elapsed time that is the
    difference of the next two readings of [time.time()], and the status
    of the backend set to match. *)
Definition load_measured (w : world) (rt : runtime) (model_name : string)
    (out : load_result * ModelLoader) : Prop :=
  let seconds_taken :=
    (time_time w (S (clock_reads rt)) - time_time w (clock_reads rt))%float in
  elapsed (fst out) = Some seconds_taken
  /\ ((success (fst out) = false
       /\ exists text,
            res_error (fst out) = Some text
            /\ model_status (snd out) !! model_name
               = Some (Status false (Some text) (Some seconds_taken)))
      \/ (success (fst out) = true
          /\ res_error (fst out) = None
          /\ model_status (snd out) !! model_name
             = Some (Status true None (Some seconds_taken)))).

(** The backend is enabled in the configuration of the loader. *)
Definition is_enabled (self : ModelLoader) (model_name : string) : Prop :=
  default true (enabled (model_config_of self model_name)) = true.

(** An exception that a library of the backends raises during a load. *)
Definition raised_in_load (w : world) (e : exn) : Prop :=
  (exists name, import_module w name = Some e)
  \/ MobileNetV2 w = Some e
  \/ mobilenet_self_test w = Some e.

(** A load reads the clock twice; the readings are finite and the second
    is not before the first. *)
Definition clock_advances (w : world) (rt : runtime) : Prop :=
  is_finite (time_time w (clock_reads rt)) = true
  /\ is_finite (time_time w (S (clock_reads rt))) = true
  /\ (time_time w (clock_reads rt) <=? time_time w (S (clock_reads rt)))%float = true.

(** The buckets with thresholds that count: "at least". *)
Definition bucket_at_least (high low : float) (top middle bottom : string)
    (x : float) : string :=
  if (high <=? x)%float then top
  else if (low <=? x)%float then middle
  else bottom.

(** The buckets with strict thresholds: "above". *)
Definition bucket_above (high low : float) (top middle bottom : string)
    (x : float) : string :=
  if (high <? x)%float then top
  else if (low <? x)%float then middle
  else bottom.

(** ** Sample inputs *)

(** A clock that shows the number of the reading, in seconds. *)
Definition seconds (n : nat) : float :=
  SF2Prim (binary_normalize prec emax (Z.of_nat n) 0 false).

(** A clock that is set back after its first reading. *)
Definition clock_back (n : nat) : float :=
  match n with
  | O => 10
  | S _ => 5
  end.

(** The statistics of a white image, and of an image of brightness 178.5
    (70 percent of 255) and variance 80. *)
Definition white_pixels : pixel_stats :=
  {| channel_means := (255, 255, 255); pixel_mean := 255; pixel_std := 0 |}.

Definition grey_pixels : pixel_stats :=
  {| channel_means := (178, 178, 178); pixel_mean := 178.5; pixel_std := 80 |}.

Definition sample_colors : color_info :=
  with_pixel_stats (mode_colors "RGB") white_pixels.

(** The details of a [w] by [h] image, for the functions that take them. *)
Definition sample_details (name : string) (w h : Z) (colors : color_info)
  : image_details :=
  {| details_file :=
       {| filename := name; filepath := "/tmp/" +:+ name;
          filesize_bytes := 2048; filesize_kb := 2; filesize_mb := 0.001953125;
          created_at := "2025-01-01T08:59:00";
          modified_at := "2025-01-01T08:59:00";
          extension := ".png" |};
     details_image :=
       {| width := w; height := h;
          resolution := Py.str_of_int w +:+ "x" +:+ Py.str_of_int h;
          aspect_ratio := Py.nearest_float false w (Z.to_pos h);
          format := "PNG";
          orientation := "landscape";
          is_portrait := false; is_landscape := true;
          info_color := colors;
          aspect_ratio_name :=
            get_aspect_ratio_name (Py.nearest_float false w (Z.to_pos h)) |} |}.

(** A world in which every library is installed and the files can be read
    and written; the image is a 640 by 480 PNG; the arguments choose the
    statistics of its pixels, what building MobileNet does, what the
    detector answers and what the clock shows. *)
Definition sample_world (pixels : pixel_stats) (mobilenet : option exn)
    (prediction : exn + list yolo_result) (clock : nat -> float) : world :=
  {| PIL_AVAILABLE := true;
     NUMPY_AVAILABLE := true;
     TF_AVAILABLE := true;
     TESSERACT_AVAILABLE := true;
     YOLO_AVAILABLE := true;
     time_time := clock;
     strftime := fun _ _ => "2025-01-01 09:00:00";
     format_exc := fun e => "Traceback (most recent call last): " +:+ str e;
     import_module := fun _ => None;
     MobileNetV2 := mobilenet;
     mobilenet_self_test := None;
     get_tesseract_version := inr "5.3.0";
     get_languages := inr ["eng"; "jpn"];
     YOLO := fun _ => None;
     yolo_predict := fun _ _ => prediction;
     ensure_output_dir := fun _ => None;
     path_name := fun _ => "shot.png";
     path_stem := fun _ => "shot";
     path_suffix := fun _ => ".png";
     path_absolute := fun p => inr ("/tmp/" +:+ p);
     stat_file := fun _ => inr (FileStat 2048 1735689540 1735689540);
     fromtimestamp := fun _ => inr "2025-01-01T08:59:00";
     image_open := fun _ => inr (OpenedImage 640 480 "PNG" "RGB");
     pixel_statistics := fun _ => inr pixels;
     open_write := fun _ => None;
     json_dump := fun _ _ => None;
     image_save := fun _ => None |}.

(** The answer of the detector for one image: a person. *)
Definition one_person : list yolo_result :=
  [ {| boxes := [ {| xyxy := (10.5, 20.25, 110.75, 220.5)%float;
                     conf := 0.9; cls := 0 |} ];
       names := {[ 0 := "person" ]} |} ].

Definition calm_world : world :=
  sample_world white_pixels None (inr one_person) seconds.

Definition start : runtime := Runtime 0 [].

(** An exception without a message, as [raise RuntimeError()] gives. *)
Definition silent_failure : exn := Exn OtherException "".


Definition new_loader : ModelLoader :=
  fst (ModelLoader_init calm_world None start).

(** ** Floats that stay finite *)

(** [x] is a zero or a finite number of sign [s], below [2^K], with an
    exponent of at most [E]. *)
Definition finite_with (s : bool) (K E : Z) (x : spec_float) : Prop :=
  match x with
  | S754_zero s' => s' = s
  | S754_finite s' m e => s' = s /\ Z.pos (digits2_pos m) + e <= K /\ e <= E
  | S754_infinity _ | S754_nan => False
  end.

Definition SF_finite (x : spec_float) : Prop :=
  match x with
  | S754_zero _ | S754_finite _ _ _ => True
  | S754_infinity _ | S754_nan => False
  end.

(** A positive constant below one: the product of an image dimension with
    it stays in range. *)
Definition proportion (c : float) : bool :=
  match Prim2SF c with
  | S754_finite false m e => (Z.pos (digits2_pos m) + e <=? 0) && (e <=? 0)
  | _ => false
  end.

(** One step through a chain of calls that may raise, in a hypothesis that
    says the chain returned. *)
Ltac step_raises :=
  match goal with
  | H : context [mbind _ ?m] |- _ =>
      let E := fresh "E" in destruct m eqn:E; simpl in H; [discriminate H|]
  end.

(** * More of the program *)

(** ** More of Python's built-ins *)

Module Builtins.

(** A number that is an [int] or a [float], as a delay is. *)
Inductive number :=
  | Int (n : Z)
  | Float (x : float).

(** [x > 0]. *)
Definition positive (x : number) : bool :=
  match x with
  | Int n => 0 <? n
  | Float f => (0 <? f)%float
  end.

(** The truth value of a string that may be [None]: [None] and [""] are
    false. *)
Definition truthy (s : option string) : bool :=
  match s with
  | Some text => negb (String.eqb text "")
  | None => false
  end.

(** [a or b] for a string [a] that may be [None]. *)
Definition or_else (a : option string) (b : string) : string :=
  match a with
  | Some text => if String.eqb text "" then b else text
  | None => b
  end.

(** [s.endswith(suffix)]: [suffix] is [s] or the end of a tail of [s]. *)
Fixpoint endswith (s suffix : string) : bool :=
  String.eqb s suffix
  || match s with
     | EmptyString => false
     | String _ rest => endswith rest suffix
     end.

(** [s.replace(old, new)] for two one-byte strings, given by their bytes. *)
Fixpoint replace (old new : Ascii.ascii) (s : string) : string :=
  match s with
  | EmptyString => EmptyString
  | String c rest =>
      String (if Ascii.eqb c old then new else c) (replace old new rest)
  end.

Definition space : Ascii.ascii := Ascii.ascii_of_nat 32.
Definition underscore : Ascii.ascii := Ascii.ascii_of_nat 95.

Fixpoint is_ascii (s : string) : bool :=
  match s with
  | EmptyString => true
  | String c rest => (Ascii.N_of_ascii c <? 128)%N && is_ascii rest
  end.

Definition ascii_lower (c : Ascii.ascii) : Ascii.ascii :=
  let n := Ascii.N_of_ascii c in
  if ((65 <=? n) && (n <=? 90))%N then Ascii.ascii_of_N (n + 32) else c.

Fixpoint map_bytes (f : Ascii.ascii -> Ascii.ascii) (s : string) : string :=
  match s with
  | EmptyString => EmptyString
  | String c rest => String (f c) (map_bytes f rest)
  end.

(** [s.lower()]: the letters A to Z of an ASCII text become a to z; for a
    text with other characters the Unicode tables decide. *)
Definition lower (unicode_lower : string -> string) (s : string) : string :=
  if is_ascii s then map_bytes ascii_lower s else unicode_lower s.

End Builtins.

(** ** The desktop: screens, files and the libraries that reach them *)

(** One entry of [sct.monitors]. *)
Record mss_monitor := Monitor {
  mon_left : Z; mon_top : Z; mon_width : Z; mon_height : Z }.

(** The pixels of a screen or of an image file, by their size. *)
Record pixels := Pixels { pixels_width : Z; pixels_height : Z }.

(** One call of an OpenCV drawing function on the annotated image. *)
Inductive cv_call :=
  | CvRectangle (x0 y0 x1 y1 : Z) (color : Z * Z * Z) (thickness : Z)
  | CvPutText (text : string) (x y : Z) (font_scale : float)
      (color : Z * Z * Z) (thickness : Z).

Record desktop := Desktop {
  MSS_AVAILABLE : bool;
  PYAUTOGUI_AVAILABLE : bool;
  (** [s.lower()] for a text that is not ASCII *)
  unicode_lower : string -> string;
  (** [Path(p).exists()] and [os.path.exists(p)] *)
  path_exists : string -> bool;
  (** [Path(p).mkdir(parents=True, exist_ok=True)] and
      [os.makedirs(p, exist_ok=True)]: [None] when the directory is there
      afterwards *)
  mkdir : string -> option exn;
  (** [str(Path(directory) / name)] *)
  path_join : string -> string -> string;
  (** [os.path.join(directory, name)], [os.path.basename(p)] and
      [os.path.splitext(p)[0]] *)
  os_path_join : string -> string -> string;
  os_path_basename : string -> string;
  os_path_splitext : string -> string;
  (** [time.sleep(delay)] *)
  sleep : Builtins.number -> option exn;
  (** [mss.mss()] and [sct.monitors] *)
  mss_monitors : exn + list mss_monitor;
  (** [sct.grab(monitor)] *)
  grab : mss_monitor -> exn + pixels;
  (** [mss.tools.to_png(img.rgb, img.size, output=path)] *)
  to_png : pixels -> string -> option exn;
  (** [pyautogui.screenshot()] and [screenshot.save(path)] *)
  pyautogui_screenshot : exn + pixels;
  save_screenshot : pixels -> string -> option exn;
  (** [cv2.imread(path)]: [None] for a file that cannot be read *)
  imread : string -> exn + option pixels;
  (** [cv2.getTextSize(text, cv2.FONT_HERSHEY_SIMPLEX, font_scale, thickness)[0]] *)
  getTextSize : string -> float -> Z -> Z * Z;
  (** [cv2.imwrite(path, image)] for the image with the drawing on it:
      whether the file was written *)
  imwrite : string -> pixels -> list cv_call -> exn + bool;
  (** [open(path, 'w', encoding='utf-8')]: [None] when the file is
      opened, which creates it or empties it *)
  open_output : string -> option exn;
  (** [json.dump(results, f, ensure_ascii=False, indent=2)] into the file
      opened at the path *)
  dump_detection : string -> detection_results -> option exn;
  (** the order in which a [set] of these labels is iterated *)
  set_order : list string -> list string;
  (** [print(text)] *)
  print : string -> option exn }.

(** ** [screenshot.py] *)

Module Screenshot.

(** What the module raises: its own [ScreenshotError], or what a library
    raised. *)
Inductive raised :=
  | ScreenshotError (text : string)
  | Other (e : exn).

(** [(success, filepath, error)]. *)
Definition shot : Type := bool * option string * option string.

(** [ensure_dir(directory)]. *)
Definition ensure_dir (d : desktop) (directory : string) : M (exn + string) :=
  if negb (path_exists d directory) then
    emit (EvBackend "mkdir");;
    match mkdir d directory with
    | Some e => ret (inl e)
    | None => ret (inr directory)
    end
  else ret (inr directory).

(** The name of the file: the one given, with the format as its extension
    when it does not end with it, or one made of the time. *)
Definition file_name (w : world) (filename : option string)
    (image_format : string) : M string :=
  if negb (Builtins.truthy filename) then
    do t <- tick;
    let timestamp := strftime w "%Y%m%d_%H%M%S" t in
    ret ("screenshot_" +:+ timestamp +:+ "." +:+ image_format)
  else
    let name := default "" filename in
    if negb (Builtins.endswith name ("." +:+ image_format))
    then ret (name +:+ "." +:+ image_format)
    else ret name.

(** [len(xs)]. *)
Definition len {A} (xs : list A) : Z := Z.of_nat (length xs).

(** The monitor that is captured: the one asked for, the first one when
    the number is out of range. *)
Definition chosen_monitor (monitors : list mss_monitor) (monitor : Z)
  : exn + mss_monitor :=
  let monitor :=
    if (monitor <? 0) || (monitor >=? len monitors) then 0 else monitor in
  match monitors !! Z.to_nat monitor with
  | Some monitor_dict => inr monitor_dict
  | None => raise IndexError "list index out of range"
  end.

(** [get_screenshot_mss(output_dir, filename, monitor, image_format)]. *)
Definition get_screenshot_mss (w : world) (d : desktop) (output_dir : string)
    (filename : option string) (monitor : Z) (image_format : string) : M shot :=
  if negb (MSS_AVAILABLE d) then
    ret (false, None,
         Some "MSSライブラリがインストールされていません。'pip install mss' を実行してください。")
  else
    let failed (e : exn) : shot :=
      (false, None,
       Some ("MSSでのスクリーンショット取得中にエラーが発生しました: " +:+ str e)) in
    do made <- ensure_dir d output_dir;
    match made with
    | inl e => ret (failed e)
    | inr output_path =>
    do name <- file_name w filename image_format;
    let output_file := path_join d output_path name in
    do t0 <- tick;
    emit (EvBackend "mss.mss");;
    match mss_monitors d with
    | inl e => ret (failed e)
    | inr monitors =>
    match chosen_monitor monitors monitor with
    | inl e => ret (failed e)
    | inr monitor_dict =>
    emit (EvBackend "sct.grab");;
    match grab d monitor_dict with
    | inl e => ret (failed e)
    | inr img =>
    match to_png d img output_file with
    | Some e => ret (failed e)
    | None =>
    emit (EvImageSave output_file []);;
    do t1 <- tick;
    ret (true, Some output_file, None)
    end end end end end.

(** [get_screenshot_pyautogui(output_dir, filename, image_format)]. *)
Definition get_screenshot_pyautogui (w : world) (d : desktop)
    (output_dir : string) (filename : option string) (image_format : string)
  : M shot :=
  if negb (PYAUTOGUI_AVAILABLE d) then
    ret (false, None,
         Some "PyAutoGUIライブラリがインストールされていません。'pip install pyautogui' を実行してください。")
  else
    let failed (e : exn) : shot :=
      (false, None,
       Some ("PyAutoGUIでのスクリーンショット取得中にエラーが発生しました: " +:+ str e)) in
    do made <- ensure_dir d output_dir;
    match made with
    | inl e => ret (failed e)
    | inr output_path =>
    do name <- file_name w filename image_format;
    let output_file := path_join d output_path name in
    do t0 <- tick;
    emit (EvBackend "pyautogui.screenshot");;
    match pyautogui_screenshot d with
    | inl e => ret (failed e)
    | inr screenshot =>
    match save_screenshot d screenshot output_file with
    | Some e => ret (failed e)
    | None =>
    emit (EvImageSave output_file []);;
    do t1 <- tick;
    ret (true, Some output_file, None)
    end end end.

(** The method, after the choice that ["auto"] asks for. *)
Definition selected_method (d : desktop) (method : string) : raised + string :=
  if String.eqb (Builtins.lower (unicode_lower d) method) "auto" then
    if MSS_AVAILABLE d then inr "mss"
    else if PYAUTOGUI_AVAILABLE d then inr "pyautogui"
    else inl (ScreenshotError
           "スクリーンショット機能が利用できません。'pip install mss pyautogui' を実行してください。")
  else inr method.

(** The capture by the method asked for, when its library is installed. *)
Definition capture (w : world) (d : desktop) (output_dir method : string)
    (filename : option string) (monitor : Z) (image_format : string)
  : M (raised + shot) :=
  let lower := Builtins.lower (unicode_lower d) in
  if String.eqb (lower method) "mss" && MSS_AVAILABLE d then
    do r <- get_screenshot_mss w d output_dir filename monitor image_format;
    ret (inr r)
  else if String.eqb (lower method) "pyautogui" && PYAUTOGUI_AVAILABLE d then
    do r <- get_screenshot_pyautogui w d output_dir filename image_format;
    ret (inr r)
  else
    ret (inl (ScreenshotError
           ("指定されたスクリーンショット方法はサポートされていません: " +:+ method))).

(** The tuple of a capture is returned when it says success, and raised as
    a [ScreenshotError] otherwise. *)
Definition checked (r : shot) : raised + shot :=
  let '(success, filepath, error) := r in
  if negb success then
    inl (ScreenshotError (Builtins.or_else error "不明なエラーが発生しました"))
  else inr (success, filepath, error).

(** [take_screenshot(output_dir, method, filename, monitor, image_format,
    delay)]. *)
Definition take_screenshot (w : world) (d : desktop) (output_dir method : string)
    (filename : option string) (monitor : Z) (image_format : string)
    (delay : Builtins.number) : M (raised + shot) :=
  do slept <-
    (if Builtins.positive delay
     then emit (EvBackend "time.sleep");; ret (sleep d delay)
     else ret None);
  match slept with
  | Some e => ret (inl (Other e))
  | None =>
  match selected_method d method with
  | inl e => ret (inl e)
  | inr method =>
  do taken <- capture w d output_dir method filename monitor image_format;
  match taken with
  | inl e => ret (inl e)
  | inr r => ret (checked r)
  end end end.

End Screenshot.

(** ** [image_processing.py] *)

Module ImageProcessing.

Definition bgr : Type := Z * Z * Z.

(** [colorsys_hsv_to_rgb(h, s, v)]. *)
Definition colorsys_hsv_to_rgb (h s v : float) : exn + float * float * float :=
  if (s =? 0)%float then inr (v, v, v)
  else
    i ← Py.int_of_float (h * 6)%float;
    whole ← Py.float_of_int i;
    let f := (h * 6 - whole)%float in
    let p := (v * (1 - s))%float in
    let q := (v * (1 - s * f))%float in
    let t := (v * (1 - s * (1 - f)))%float in
    let i := i mod 6 in
    if i =? 0 then inr (v, t, p)
    else if i =? 1 then inr (q, v, p)
    else if i =? 2 then inr (p, v, t)
    else if i =? 3 then inr (p, q, v)
    else if i =? 4 then inr (t, p, v)
    else inr (v, p, q).

(** One turn of the loop of [generate_colors]. *)
Definition color_at (n i : Z) : exn + bgr :=
  h ← Py.truediv i n;
  let s := 0.9%float in
  let v := 0.9%float in
  '(r, g, b) ← colorsys_hsv_to_rgb h s v;
  r ← Py.int_of_float (r * 255)%float;
  g ← Py.int_of_float (g * 255)%float;
  b ← Py.int_of_float (b * 255)%float;
  mret (b, g, r).

(** [generate_colors(n)]. *)
Definition generate_colors (n : Z) : exn + list bgr :=
  mapM (color_at n) (seqZ 0 n).

(** [next((i for i, name in class_names.items() if name == label), 0)]. *)
Definition class_id_of (class_names : list (Z * string)) (l : string) : Z :=
  match List.find (fun item => String.eqb (snd item) l) class_names with
  | Some (i, _) => i
  | None => 0
  end.

(** [colors[class_id % len(colors)]]. *)
Definition pick_color (colors : list bgr) (class_id : Z) : exn + bgr :=
  let n := Z.of_nat (length colors) in
  if n =? 0 then raise ZeroDivisionError "integer division or modulo by zero"
  else
    match colors !! Z.to_nat (class_id mod n) with
    | Some color => inr color
    | None => raise IndexError "list index out of range"
    end.

(** The body of the loop of [visualize_annotations]: the box, the
    background of the tag and the tag of one object. *)
Definition annotate (d : desktop) (class_names : list (Z * string))
    (colors : list bgr) (thickness : Z) (font_scale : float)
    (show_confidence : bool) (obj : detected_object) : exn + list cv_call :=
  let '(BBox x y w h) := obj_bbox obj in
  let score := obj_confidence obj in
  let class_id := class_id_of class_names (label obj) in
  color ← pick_color colors class_id;
  let label_text :=
    if show_confidence then label obj +:+ " " +:+ Py.fmt_2f score
    else label obj in
  let text_size := getTextSize d label_text font_scale thickness in
  mret [ CvRectangle x y (x + w) (y + h) color thickness;
         CvRectangle x (y - snd text_size - 5) (x + fst text_size) y color (-1);
         CvPutText label_text x (y - 5) font_scale (255, 255, 255) thickness ].

(** [{i: label for i, label in enumerate(unique_labels)}]. *)
Definition enumerate (labels : list string) : list (Z * string) :=
  imap (fun i l => (Z.of_nat i, l)) labels.

(** [visualize_annotations(image, objects, colors, class_names, thickness,
    font_scale, show_confidence)]: the drawing on the copy of the image. *)
Definition visualize_annotations (d : desktop) (objects : list detected_object)
    (colors : option (list bgr)) (class_names : option (list (Z * string)))
    (thickness : Z) (font_scale : float) (show_confidence : bool)
  : exn + list cv_call :=
  let class_names :=
    match class_names with
    | Some given => given
    | None => enumerate (set_order d (map label objects))
    end in
  colors ← match colors with
           | Some given => inr given
           | None => generate_colors (Z.of_nat (length class_names))
           end;
  drawn ← mapM (annotate d class_names colors thickness font_scale show_confidence)
            objects;
  mret (concat drawn).

(** The dict [save_detection_results] returns. *)
Record result_files := ResultFiles { json : string; image : option string }.

(** [save_detection_results(results, output_path, save_annotated_image,
    image_output_path)]. *)
Definition save_detection_results (d : desktop) (results : detection_results)
    (output_path : string) (save_annotated_image : bool)
    (image_output_path : option string) : M (exn + result_files) :=
  match open_output d output_path with
  | Some e => ret (inl e)
  | None =>
  emit (EvOpen output_path);;
  match dump_detection d output_path results with
  | Some e => ret (inl e)
  | None =>
  emit (EvJsonDump output_path);;
  let objects := default [] (det_objects results) in
  if save_annotated_image && Builtins.truthy (det_image_path results)
     && negb (Nat.eqb (length objects) 0)
  then
    let image_output_path :=
      match image_output_path with
      | Some given => given
      | None => os_path_splitext d output_path +:+ ".png"
      end in
    let image_path := default "" (det_image_path results) in
    emit (EvBackend "cv2.imread");;
    match imread d image_path with
    | inl e => ret (inl e)
    | inr None => ret (inr (ResultFiles output_path None))
    | inr (Some image) =>
        match visualize_annotations d objects None None 2 0.6 true with
        | inl e => ret (inl e)
        | inr drawing =>
            emit (EvBackend "cv2.imwrite");;
            match imwrite d image_output_path image drawing with
            | inl e => ret (inl e)
            | inr _ => ret (inr (ResultFiles output_path (Some image_output_path)))
            end
        end
    end
  else ret (inr (ResultFiles output_path None))
  end end.

End ImageProcessing.

(** ** [screenshot_analyzer.py] *)

Module ScreenshotAnalyzer.

(** [take_screenshot(output_dir, prefix)]: the path of the file, [None]
    after a failure. *)
Definition take_screenshot (w : world) (d : desktop) (output_dir prefix : string)
  : M (option string) :=
  emit (EvBackend "os.makedirs");;
  match mkdir d output_dir with
  | Some e => ret None
  | None =>
  do t <- tick;
  let timestamp := strftime w "%Y-%m-%dT%H-%M-%S" t in
  let filename := prefix +:+ "-" +:+ timestamp +:+ ".png" in
  let filepath := os_path_join d output_dir filename in
  emit (EvBackend "pyautogui.screenshot");;
  match pyautogui_screenshot d with
  | inl e => ret None
  | inr screenshot =>
  match save_screenshot d screenshot filepath with
  | Some e => ret None
  | None => emit (EvImageSave filepath []);; ret (Some filepath)
  end end end.

(** The dict [analyze_screenshot] returns. A failure carries the key
    ["screenshot"] or not. *)
Inductive analysis :=
  | Failed (error : string) (screenshot : option string) (time_taken : float)
  | Analyzed (screenshot : string) (visual_feedback : option string)
      (detection : detection_results) (objects_count : Z) (time_taken : float).

(** [time.time() - start_time]. *)
Definition time_taken (w : world) (start : nat) : M float :=
  do t <- tick;
  ret (time_time w t - time_time w start)%float.

(** [analyze_screenshot(screenshot_path, output_dir, model_path, confidence,
    take_new_screenshot, screenshot_prefix)]. *)
Definition analyze_screenshot (w : world) (d : desktop)
    (screenshot_path : option string) (output_dir : string)
    (model_path : option string) (confidence : float)
    (take_new_screenshot : bool) (screenshot_prefix : string) : M analysis :=
  do start <- tick;
  do taken <-
    (match screenshot_path with
     | Some path =>
         if take_new_screenshot
         then take_screenshot w d "screenshots" screenshot_prefix
         else ret (Some path)
     | None => take_screenshot w d "screenshots" screenshot_prefix
     end);
  match taken with
  | None =>
      do elapsed <- time_taken w start;
      ret (Failed "スクリーンショットの取得に失敗しました" None elapsed)
  | Some screenshot_path =>
  let raised (e : exn) : M analysis :=
    do elapsed <- time_taken w start;
    ret (Failed (str e) (Some screenshot_path) elapsed) in
  emit (EvBackend "os.makedirs");;
  match mkdir d output_dir with
  | Some e => raised e
  | None =>
  let yolo := YOLOModel_init model_path confidence in
  do (loaded, yolo) <- YOLOModel_load w yolo;
  if negb loaded then
    do elapsed <- time_taken w start;
    ret (Failed "YOLOモデルのロードに失敗しました" (Some screenshot_path) elapsed)
  else
  do (detection_results, yolo) <- YOLOModel_detect w yolo screenshot_path;
  match det_error detection_results with
  | Some text =>
      do elapsed <- time_taken w start;
      ret (Failed ("オブジェクト検出中にエラーが発生しました: " +:+ text)
             (Some screenshot_path) elapsed)
  | None =>
  let base_filename := os_path_basename d screenshot_path in
  let filename_without_ext := os_path_splitext d base_filename in
  let json_path :=
    os_path_join d output_dir (filename_without_ext +:+ "-analysis.json") in
  emit (EvBackend "cv2.imread");;
  match imread d screenshot_path with
  | inl e => raised e
  | inr None =>
      do elapsed <- time_taken w start;
      ret (Failed ("画像の読み込みに失敗しました: " +:+ screenshot_path) None elapsed)
  | inr (Some image) =>
  let objects := default [] (det_objects detection_results) in
  match objects with
  | _ :: _ =>
      match ImageProcessing.visualize_annotations d objects None None 2 0.6 true with
      | inl e => raised e
      | inr drawing =>
      let visual_path :=
        os_path_join d output_dir (filename_without_ext +:+ "-visual.png") in
      emit (EvBackend "cv2.imwrite");;
      match imwrite d visual_path image drawing with
      | inl e => raised e
      | inr _ =>
      do elapsed <- time_taken w start;
      ret (Analyzed screenshot_path (Some visual_path) detection_results
             (Z.of_nat (length objects)) elapsed)
      end end
  | [] =>
      do elapsed <- time_taken w start;
      ret (Analyzed screenshot_path None detection_results 0 elapsed)
  end end end end end.

(** [debug_with_screenshot_analysis(action_description, output_dir,
    model_path, confidence)]. *)
Definition debug_with_screenshot_analysis (w : world) (d : desktop)
    (action_description output_dir : string) (model_path : option string)
    (confidence : float) : M analysis :=
  let prefix :=
    if String.eqb action_description "" then "debug"
    else "debug-"
         +:+ Builtins.replace Builtins.space Builtins.underscore action_description in
  analyze_screenshot w d None output_dir model_path confidence true prefix.

End ScreenshotAnalyzer.

(** ** [app.py] *)

Module App.

(** The command line, as far as the two commands read it. *)
Record args := Args {
  output_dir : option string;
  delay : Z;
  no_visual : bool;
  analyze_only : bool;
  mock : bool;
  image : option string }.

(** The configuration, as far as the two commands read it: the sections
    ["output"] and ["screenshot"]. *)
Record settings := Settings {
  screenshots_dir : option string;
  analysis_dir : option string;
  screenshot_delay : option Builtins.number;
  screenshot_method : option string }.

(** The ["analysis"] entry of the result of [process_screenshot]. *)
Inductive analysis_summary :=
  | AnalysisOk (result_file : string) (visual_feedback : option string)
  | AnalysisFailed (error : string).

(** The dict [process_screenshot] returns. *)
Inductive screenshot_result :=
  | ScreenshotOk (screenshot : string) (analysis : option analysis_summary)
  | ScreenshotFailed (error : option string).

(** [str(e)]. *)
Definition text_of (e : Screenshot.raised) : string :=
  match e with
  | Screenshot.ScreenshotError text => text
  | Screenshot.Other e => str e
  end.

(** [args.output_dir or config.get("output", {}).get(key, fallback)]. *)
Definition directory (a : args) (configured : option string) (fallback : string)
  : string :=
  if Builtins.truthy (output_dir a) then default "" (output_dir a)
  else default fallback configured.

(** [process_screenshot(args, config)]. *)
Definition process_screenshot (w : world) (d : desktop) (a : args)
    (config : settings) : M screenshot_result :=
  let screenshots_dir := directory a (screenshots_dir config) "screenshots" in
  let delay :=
    if negb (delay a =? 0) then Builtins.Int (delay a)
    else default (Builtins.Int 0) (screenshot_delay config) in
  do taken <-
    Screenshot.take_screenshot w d screenshots_dir
      (default "auto" (screenshot_method config)) None 0 "png" delay;
  match taken with
  | inl e => ret (ScreenshotFailed (Some (text_of e)))
  | inr (success, filepath, error) =>
      if negb success || negb (Builtins.truthy filepath)
      then ret (ScreenshotFailed error)
      else
        let filepath := default "" filepath in
        if negb (analyze_only a) then
          let analysis_dir := directory a (analysis_dir config) "analysis_results" in
          let generate_visual := negb (no_visual a) in
          do analysis_result <-
            analyze_image w filepath analysis_dir generate_visual (mock a) None;
          match analysis_result with
          | AnalyzeOk _ result_file visual_feedback =>
              ret (ScreenshotOk filepath (Some (AnalysisOk result_file visual_feedback)))
          | AnalyzeFailed error =>
              ret (ScreenshotOk filepath (Some (AnalysisFailed error)))
          end
        else ret (ScreenshotOk filepath None)
  end.

(** The dict [process_image_analysis] returns. *)
Inductive image_result :=
  | ImageOk (image : string) (result_file : string) (visual_feedback : option string)
  | ImageFailed (error : string).

(** The [print] calls one after the other, up to the first that raises. *)
Fixpoint print_all (d : desktop) (texts : list string) : option exn :=
  match texts with
  | [] => None
  | text :: rest =>
      match print d text with
      | Some e => Some e
      | None => print_all d rest
      end
  end.

(** [process_image_analysis(args, config)]. *)
Definition process_image_analysis (w : world) (d : desktop) (a : args)
    (config : settings) : M image_result :=
  if negb (Builtins.truthy (image a)) then
    ret (ImageFailed "解析する画像が指定されていません")
  else
    let image_path := default "" (image a) in
    if negb (path_exists d image_path) then
      ret (ImageFailed ("指定された画像が存在しません: " +:+ image_path))
    else
      let analysis_dir := directory a (analysis_dir config) "analysis_results" in
      let generate_visual := negb (no_visual a) in
      do analysis_result <-
        analyze_image w image_path analysis_dir generate_visual (mock a) None;
      match analysis_result with
      | AnalyzeOk _ result_file visual_feedback =>
          let lines :=
            [ String (Ascii.ascii_of_nat 10) "----------------- デバッグ支援情報 -----------------";
              "解析画像: " +:+ image_path;
              "解析結果: " +:+ result_file ]
            ++ (if Builtins.truthy visual_feedback
                then ["視覚的フィードバック: " +:+ default "" visual_feedback]
                else [])
            ++ [ "--------------------------------------------------"
                 +:+ String (Ascii.ascii_of_nat 10) "" ] in
          match print_all d lines with
          | Some e => ret (ImageFailed (str e))
          | None => ret (ImageOk image_path result_file visual_feedback)
          end
      | AnalyzeFailed error => ret (ImageFailed error)
      end.

End App.

(** ** Notions the properties of the code are stated with *)

(** The effects that write a file in full: a JSON dump and the saving of
    an image. *)
Definition is_write (ev : event) : bool :=
  match ev with
  | EvJsonDump _ | EvImageSave _ _ => true
  | _ => false
  end.

(** The files written so far, latest first. *)
Definition files_written (rt : runtime) : list event :=
  List.filter is_write (trace rt).

(** The effects on the files: besides the two that write a file in full,
    the opening of a file for writing, after which the file is there with
    what was written to it until then. *)
Definition touches_file (ev : event) : bool :=
  match ev with
  | EvOpen _ | EvJsonDump _ | EvImageSave _ _ => true
  | _ => false
  end.

(** What was done to the files so far, latest first. *)
Definition files_touched (rt : runtime) : list event :=
  List.filter touches_file (trace rt).

(** The dict [object_counts] after the loop over the objects. *)
Definition object_counts (objs : list detected_object) : list (string * Z) :=
  fold_left (fun counts obj => count_label counts (label obj)) objs [].

(** The number of objects that carry the label. *)
Definition occurrences (l : string) (objs : list detected_object) : Z :=
  Z.of_nat (length (filter (fun obj => label obj = l) objs)).

(** The distinct labels, each at the place of its first occurrence. *)
Definition first_appearances (labels : list string) : list string :=
  reverse (remove_dups (reverse labels)).

(** The sentence made of the counts. *)
Definition describe (counts : list (string * Z)) : string :=
  match counts with
  | [] => "この画像には特定のオブジェクトが検出されませんでした。"
  | _ :: _ =>
      "この画像には" +:+ Py.join "、" (map description_part counts)
      +:+ "が含まれています。"
  end.

(** [c] is a positive double with an exponent from -60 to 0 and a value of
    at most [per_mille / 1000]. *)
Definition at_most (c : float) (per_mille : Z) : bool :=
  match Prim2SF c with
  | S754_finite false m e =>
      (-60 <=? e) && (e <=? 0) && (Z.pos m * 1000 <=? per_mille * 2 ^ (- e))
  | _ => false
  end.

(** The box lies in the [w] by [h] image, with sides that are not
    negative. *)
Definition inside (w h : Z) (b : bbox) : Prop :=
  0 <= bbox_x b /\ 0 <= bbox_y b
  /\ 0 <= bbox_width b /\ 0 <= bbox_height b
  /\ bbox_x b + bbox_width b <= w
  /\ bbox_y b + bbox_height b <= h.

(** The backend calls a run of [detect] adds to the trace. *)
Definition detect_calls (w : world) (self after : YOLOModel) : list event :=
  (if is_loaded after then [EvBackend "predict"] else [])
  ++ (if negb (is_loaded self) && YOLO_AVAILABLE w then [EvBackend "YOLO"] else []).

(** A box the conversion rejects: its class is no finite number, its class
    has no name, or a coordinate or a size is no finite number. *)
Definition bad_box (names : gmap Z string) (box : yolo_box) : Prop :=
  exists e, convert_box names box = inl e.

(** What a load that ran left in the loader: the status of the backend
    and, after a success, the model. *)
Definition recorded (self self' : ModelLoader) (name : string) (r : load_result)
  : Prop :=
  loader_config self' = loader_config self
  /\ exists seconds_taken,
       elapsed r = Some seconds_taken
       /\ ((success r = true
            /\ model_status self'
               = <[name := Status true None (Some seconds_taken)]> (model_status self)
            /\ exists model, models self' = <[name := model]> (models self))
           \/ (success r = false
               /\ models self' = models self
               /\ exists text,
                    res_error r = Some text
                    /\ model_status self'
                       = <[name := Status false (Some text) (Some seconds_taken)]>
                           (model_status self))).

(** A call of a library: an import or a call of a backend. *)
Definition is_call (ev : event) : Prop :=
  match ev with
  | EvImportModule _ | EvBackend _ => True
  | _ => False
  end.

(** A load of an enabled backend: two readings of the clock, calls of the
    libraries, and the outcome recorded in the loader. *)
Definition ran (self : ModelLoader) (name : string) (rt : runtime)
    (out : load_result * ModelLoader * runtime) : Prop :=
  recorded self (snd (fst out)) name (fst (fst out))
  /\ res_model (fst (fst out)) = Some name
  /\ clock_reads (snd out) = S (S (clock_reads rt))
  /\ exists calls, trace (snd out) = calls ++ trace rt /\ Forall is_call calls.

(** The registry of a loader: one status per backend; a backend marked
    loaded has no error, a load time and a stored model; an error comes
    with a load time. *)
Definition registry_consistent (self : ModelLoader) : Prop :=
  dom (model_status self) = list_to_set backends
  /\ forall name st,
       model_status self !! name = Some st ->
       (loaded st = true ->
        status_error st = None /\ is_Some (status_time st)
        /\ is_Some (models self !! name))
       /\ (is_Some (status_error st) ->
           loaded st = false /\ is_Some (status_time st)).

(** The configuration switches the backend off. *)
Definition disabled (cfg : config) (name : string) : Prop :=
  exists all_models model_cfg,
    cfg_models cfg = Some all_models
    /\ all_models !! name = Some model_cfg
    /\ enabled model_cfg = Some false.

(** The test is skipped: the configuration asks for headless mode, does not
    refuse the mocking of the models, and no load is forced. *)
Definition skipped (force_load : bool) (cfg : option config) : Prop :=
  force_load = false
  /\ exists c app,
       cfg = Some c /\ cfg_app c = Some app /\ headless_mode app = Some true
       /\ forall a, cfg_analysis c = Some a -> mock_in_headless a <> Some false.

(** The names [test_model_loading] knows. *)
Definition testable : list string := ["mobilenet"; "cocossd"; "tesseract"; "all"].

(** The name [file_name] gives: it ends with the extension, and it is the
    name given when that one does. *)
Definition named (filename : option string) (image_format name : string) : Prop :=
  Builtins.endswith name ("." +:+ image_format) = true
  /\ forall given, filename = Some given -> given <> "" ->
       name = if Builtins.endswith given ("." +:+ image_format) then given
              else given +:+ "." +:+ image_format.

(** What a capture that succeeded did: the file has the name [file_name]
    gives in the directory asked for, and saving it is the last effect. *)
Definition captured (d : desktop) (output_dir : string) (filename : option string)
    (image_format : string) (rt rt' : runtime) (r : Screenshot.shot) : Prop :=
  match r with
  | (true, Some path, None) =>
      exists name earlier,
        path = path_join d output_dir name
        /\ named filename image_format name
        /\ trace rt' = EvImageSave path [] :: earlier
        /\ files_written rt' = EvImageSave path [] :: files_written rt
  | (false, None, Some text) =>
      text <> "" /\ files_written rt' = files_written rt
  | _ => False
  end.

(** What [take_screenshot] makes of a capture. *)
Definition taken (d : desktop) (output_dir : string) (filename : option string)
    (image_format : string) (rt rt' : runtime) (r : Screenshot.raised + Screenshot.shot)
  : Prop :=
  match r with
  | inr (success, filepath, error) =>
      success = true /\ error = None
      /\ exists path name earlier,
           filepath = Some path
           /\ path = path_join d output_dir name
           /\ named filename image_format name
           /\ trace rt' = EvImageSave path [] :: earlier
           /\ files_written rt' = EvImageSave path [] :: files_written rt
  | inl (Screenshot.ScreenshotError text) =>
      text <> "" /\ files_written rt' = files_written rt
  | inl (Screenshot.Other e) => False
  end.

(** The three calls that draw one object in a colour. *)
Definition annotation (d : desktop) (color : ImageProcessing.bgr) (thickness : Z)
    (font_scale : float) (show_confidence : bool) (obj : detected_object)
  : list cv_call :=
  let label_text :=
    if show_confidence
    then label obj +:+ " " +:+ Py.fmt_2f (obj_confidence obj)
    else label obj in
  let size := getTextSize d label_text font_scale thickness in
  [ CvRectangle (bbox_x (obj_bbox obj)) (bbox_y (obj_bbox obj))
      (bbox_x (obj_bbox obj) + bbox_width (obj_bbox obj))
      (bbox_y (obj_bbox obj) + bbox_height (obj_bbox obj)) color thickness;
    CvRectangle (bbox_x (obj_bbox obj)) (bbox_y (obj_bbox obj) - snd size - 5)
      (bbox_x (obj_bbox obj) + fst size) (bbox_y (obj_bbox obj)) color (-1);
    CvPutText label_text (bbox_x (obj_bbox obj)) (bbox_y (obj_bbox obj) - 5)
      font_scale (255, 255, 255) thickness ].

(** The effects of [take_screenshot] of the analyzer when it saved the
    file, latest first. *)
Definition screenshot_taken (path : string) : list event :=
  [ EvImageSave path []; EvBackend "pyautogui.screenshot"; EvBackend "os.makedirs" ].

(** The entry ["analysis"] that [process_screenshot] makes of the outcome
    of [analyze_image]. *)
Definition summary_of (outcome : analyze_outcome) : App.analysis_summary :=
  match outcome with
  | AnalyzeOk _ result_file visual_feedback => App.AnalysisOk result_file visual_feedback
  | AnalyzeFailed error => App.AnalysisFailed error
  end.

(** ** More sample inputs *)

(** The calm world, with Pillow, NumPy and the YOLO package installed or
    not. *)
Definition installed (pil numpy yolo : bool) : world :=
  {| PIL_AVAILABLE := pil;
     NUMPY_AVAILABLE := numpy;
     TF_AVAILABLE := TF_AVAILABLE calm_world;
     TESSERACT_AVAILABLE := TESSERACT_AVAILABLE calm_world;
     YOLO_AVAILABLE := yolo;
     time_time := time_time calm_world;
     strftime := strftime calm_world;
     format_exc := format_exc calm_world;
     import_module := import_module calm_world;
     MobileNetV2 := MobileNetV2 calm_world;
     mobilenet_self_test := mobilenet_self_test calm_world;
     get_tesseract_version := get_tesseract_version calm_world;
     get_languages := get_languages calm_world;
     YOLO := YOLO calm_world;
     yolo_predict := yolo_predict calm_world;
     ensure_output_dir := ensure_output_dir calm_world;
     path_name := path_name calm_world;
     path_stem := path_stem calm_world;
     path_suffix := path_suffix calm_world;
     path_absolute := path_absolute calm_world;
     stat_file := stat_file calm_world;
     fromtimestamp := fromtimestamp calm_world;
     image_open := image_open calm_world;
     pixel_statistics := pixel_statistics calm_world;
     open_write := open_write calm_world;
     json_dump := json_dump calm_world;
     image_save := image_save calm_world |}.

(** The calm world with a file whose time of modification is the first
    second of the year 10000, which [datetime] cannot hold. *)
Definition far_future : world :=
  {| PIL_AVAILABLE := true;
     NUMPY_AVAILABLE := true;
     TF_AVAILABLE := TF_AVAILABLE calm_world;
     TESSERACT_AVAILABLE := TESSERACT_AVAILABLE calm_world;
     YOLO_AVAILABLE := true;
     time_time := time_time calm_world;
     strftime := strftime calm_world;
     format_exc := format_exc calm_world;
     import_module := import_module calm_world;
     MobileNetV2 := MobileNetV2 calm_world;
     mobilenet_self_test := mobilenet_self_test calm_world;
     get_tesseract_version := get_tesseract_version calm_world;
     get_languages := get_languages calm_world;
     YOLO := YOLO calm_world;
     yolo_predict := yolo_predict calm_world;
     ensure_output_dir := ensure_output_dir calm_world;
     path_name := path_name calm_world;
     path_stem := path_stem calm_world;
     path_suffix := path_suffix calm_world;
     path_absolute := path_absolute calm_world;
     stat_file := fun _ => inr (FileStat 2048 1735689540 253402300800);
     fromtimestamp := fun t =>
       if (t <? 253402300800)%float then inr "2025-01-01T08:59:00"
       else raise ValueError "year 10000 is out of range";
     image_open := image_open calm_world;
     pixel_statistics := pixel_statistics calm_world;
     open_write := open_write calm_world;
     json_dump := json_dump calm_world;
     image_save := image_save calm_world |}.

(** An answer of the detector with a person and a box of a class that has
    no name. *)
Definition unnamed_class : yolo_result :=
  {| boxes := [ {| xyxy := (10.5, 20.25, 110.75, 220.5)%float;
                   conf := 0.9; cls := 0 |};
                {| xyxy := (1, 2, 3, 4)%float; conf := 0.5; cls := 7 |} ];
     names := {[ 0 := "person" ]} |}.

(** A detector whose model is loaded. *)
Definition ready_yolo : YOLOModel :=
  {| model_handle := true; is_loaded := true;
     yolo_confidence := 0.25; model_path := "yolov8n.pt" |}.

(** A configuration that switches the COCO-SSD backend off. *)
Definition without_cocossd : config :=
  {| cfg_app := None; cfg_analysis := None;
     cfg_models := Some {[ "cocossd" := ModelConfig (Some false) None None ]} |}.

(** A desktop with one 1920 by 1080 screen, both screenshot libraries, and
    files that can be read and written. *)
Definition sample_desktop : desktop :=
  {| MSS_AVAILABLE := true;
     PYAUTOGUI_AVAILABLE := true;
     unicode_lower := fun s => s;
     path_exists := fun _ => true;
     mkdir := fun _ => None;
     path_join := fun directory name => directory +:+ "/" +:+ name;
     os_path_join := fun directory name => directory +:+ "/" +:+ name;
     os_path_basename := fun _ => "shot.png";
     os_path_splitext := fun _ => "shot";
     sleep := fun _ => None;
     mss_monitors := inr [Monitor 0 0 1920 1080];
     grab := fun m => inr (Pixels (mon_width m) (mon_height m));
     to_png := fun _ _ => None;
     pyautogui_screenshot := inr (Pixels 1920 1080);
     save_screenshot := fun _ _ => None;
     imread := fun _ => inr (Some (Pixels 640 480));
     getTextSize := fun text _ _ => (10 * Py.len text, 12);
     imwrite := fun _ _ _ => inr true;
     open_output := fun _ => None;
     dump_detection := fun _ _ => None;
     set_order := remove_dups;
     print := fun _ => None |}.

(** Two people and a dog. *)
Definition people_and_dog : list detected_object :=
  [ {| label := "person"; obj_confidence := 0.9; obj_bbox := BBox 10 20 100 200 |};
    {| label := "dog"; obj_confidence := 0.8; obj_bbox := BBox 150 120 60 40 |};
    {| label := "person"; obj_confidence := 0.7; obj_bbox := BBox 300 20 90 210 |} ].

(** * Proofs *)

(** ** Binary digits and the rounding of [SpecFloat] *)

Lemma digits2_pos_size p : digits2_pos p = Pos.size p.
Proof. induction p as [p IH|p IH|]; simpl; now rewrite ?IH. Qed.

Lemma Zdigits2_log2 m : 0 < m -> Zdigits2 m = Z.log2 m + 1.
Proof.
  destruct m as [|p|p]; try lia. intros _.
  destruct p as [p|p|]; simpl; rewrite ?digits2_pos_size; lia.
Qed.

Lemma Zdigits2_nonneg m : 0 <= Zdigits2 m.
Proof. destruct m; simpl; lia. Qed.

Lemma Zdigits2_le a b : 0 <= a <= b -> Zdigits2 a <= Zdigits2 b.
Proof.
  intros [Ha Hab]. destruct (Z.eq_dec a 0) as [->|Hne].
  - apply Zdigits2_nonneg.
  - rewrite !Zdigits2_log2 by lia. apply Z.add_le_mono_r, Z.log2_le_mono, Hab.
Qed.

Lemma Zdigits2_succ a : 0 <= a -> Zdigits2 (a + 1) <= Zdigits2 a + 1.
Proof.
  intros Ha. destruct (Z.eq_dec a 0) as [->|Hne]; [simpl; lia|].
  rewrite !Zdigits2_log2 by lia. pose proof (Z.log2_succ_le a). 
  unfold Z.succ in *. lia.
Qed.

Lemma Zdigits2_mul a b : 0 < a -> 0 < b -> Zdigits2 (a * b) <= Zdigits2 a + Zdigits2 b.
Proof.
  intros Ha Hb. rewrite !Zdigits2_log2 by nia.
  pose proof (Z.log2_mul_above a b). lia.
Qed.

Lemma Zdigits2_shiftr a n :
  0 <= a -> 0 <= n -> Zdigits2 (a / 2 ^ n) <= Z.max 0 (Zdigits2 a - n).
Proof.
  intros Ha Hn. destruct (Z.eq_dec a 0) as [->|Hne].
  - rewrite Z.div_0_l by (apply Z.pow_nonzero; lia). simpl. lia.
  - rewrite <- Z.shiftr_div_pow2 by lia.
    destruct (Z.eq_dec (Z.shiftr a n) 0) as [->|Hs]; [simpl; lia|].
    assert (0 <= Z.shiftr a n) by (apply Z.shiftr_nonneg; lia).
    assert (n <= Z.log2 a).
    { destruct (Z.le_gt_cases n (Z.log2 a)) as [Hle|Hgt]; [exact Hle|].
      exfalso. apply Hs. apply Z.shiftr_eq_0; lia. }
    rewrite !Zdigits2_log2 by lia. rewrite Z.log2_shiftr by lia. lia.
Qed.

Lemma Zdigits2_lt_pow2 a k : 0 <= a < 2 ^ k -> 0 <= k -> Zdigits2 a <= k.
Proof.
  intros [Ha Hk] Hk0. destruct (Z.eq_dec a 0) as [->|Hne]; [simpl; lia|].
  rewrite Zdigits2_log2 by lia.
  assert (Z.log2 a < k) by (apply Z.log2_lt_pow2; lia). lia.
Qed.

(** The right shifts of the rounding: [shr_1] halves the mantissa. *)
Lemma shr_1_m mrs : 0 <= shr_m mrs -> shr_m (shr_1 mrs) = shr_m mrs / 2.
Proof.
  destruct mrs as [m r s]. simpl. intros Hm.
  destruct m as [|p|p]; try lia; [reflexivity|].
  destruct p as [p|p|]; simpl shr_m.
  - rewrite Pos2Z.inj_xI. apply Z.div_unique with 1; lia.
  - rewrite Pos2Z.inj_xO. apply Z.div_unique with 0; lia.
  - reflexivity.
Qed.

Lemma iter_pos_shr_1 p : forall mrs,
  0 <= shr_m mrs -> shr_m (SpecFloat.iter_pos shr_1 p mrs) = shr_m mrs / 2 ^ Z.pos p.
Proof.
  assert (Hnn : forall mrs, 0 <= shr_m mrs -> 0 <= shr_m (shr_1 mrs)).
  { intros mrs H. rewrite shr_1_m by exact H. apply Z.div_pos; lia. }
  induction p as [p IH|p IH|]; intros mrs Hm; simpl SpecFloat.iter_pos.
  - rewrite IH, IH, shr_1_m; auto.
    + rewrite !Z.div_div by (try apply Z.pow_pos_nonneg; lia).
      f_equal. rewrite Pos2Z.inj_xI. rewrite <- !Z.pow_add_r, <- Z.pow_succ_r by lia.
      f_equal. lia.
    + rewrite IH by auto. apply Z.div_pos; [auto|]. apply Z.pow_pos_nonneg; lia.
  - rewrite IH, IH; auto.
    + rewrite !Z.div_div by (try apply Z.pow_pos_nonneg; lia).
      f_equal. rewrite Pos2Z.inj_xO. rewrite <- !Z.pow_add_r by lia. f_equal. lia.
    + rewrite IH by auto. apply Z.div_pos; [auto|]. apply Z.pow_pos_nonneg; lia.
  - rewrite shr_1_m by auto. reflexivity.
Qed.

Lemma shr_fexp_spec m e l mrs e' :
  0 <= m ->
  shr_fexp prec emax m e l = (mrs, e') ->
  e' = Z.max e (fexp prec emax (Zdigits2 m + e)) /\
  shr_m mrs = m / 2 ^ (e' - e).
Proof.
  intros Hm. unfold shr_fexp, shr.
  assert (Hrec : shr_m (shr_record_of_loc m l) = m) by (destruct l as [|[]]; reflexivity).
  destruct (fexp prec emax (Zdigits2 m + e) - e) as [|p|p] eqn:Hn;
    intros [= <- <-].
  - replace (e - e) with 0 by lia. rewrite Z.div_1_r. split; [lia|auto].
  - split; [lia|]. rewrite iter_pos_shr_1 by lia. rewrite Hrec. f_equal. f_equal. lia.
  - replace (e - e) with 0 by lia. rewrite Z.div_1_r. split; [lia|auto].
Qed.

Lemma finite_with_weaken s K E K' E' x :
  finite_with s K E x -> K <= K' -> E <= E' -> finite_with s K' E' x.
Proof. destruct x; simpl; intuition lia. Qed.

Lemma round_nearest_even_bounds m l :
  0 <= m -> m <= round_nearest_even m l <= m + 1.
Proof.
  intros Hm. destruct l as [|[]]; simpl; try lia. destruct (Z.even m); lia.
Qed.

Lemma binary_round_aux_finite s m e l :
  0 <= m -> Zdigits2 m + e < 1024 -> e <= 971 ->
  finite_with s (Z.max (Zdigits2 m + e) (Z.max e (-1074)) + 1)
    (Z.max e (Z.max (Zdigits2 m + e - 52) (-1074)))
    (binary_round_aux prec emax s m e l).
Proof.
  intros Hm HK He. unfold binary_round_aux.
  destruct (shr_fexp prec emax m e l) as [mrs1 e1] eqn:Hs1.
  destruct (shr_fexp_spec _ _ _ _ _ Hm Hs1) as [He1 Hm1].
  set (m' := round_nearest_even (shr_m mrs1) (loc_of_shr_record mrs1)).
  assert (Hpow : 0 < 2 ^ (e1 - e)) by (apply Z.pow_pos_nonneg; lia).
  assert (Hm1' : 0 <= shr_m mrs1) by (rewrite Hm1; apply Z.div_pos; lia).
  pose proof (round_nearest_even_bounds (shr_m mrs1) (loc_of_shr_record mrs1) Hm1') as Hr.
  fold m' in Hr.
  assert (Hd1 : Zdigits2 (shr_m mrs1) <= Z.max 0 (Zdigits2 m - (e1 - e))).
  { rewrite Hm1. apply Zdigits2_shiftr; lia. }
  assert (Hd' : Zdigits2 m' <= Zdigits2 (shr_m mrs1) + 1).
  { etransitivity; [apply (Zdigits2_le m' (shr_m mrs1 + 1)); lia|].
    apply Zdigits2_succ; lia. }
  assert (Hm'0 : 0 <= m') by lia.
  destruct (shr_fexp prec emax m' e1 loc_Exact) as [mrs2 e2] eqn:Hs2.
  destruct (shr_fexp_spec _ _ _ _ _ Hm'0 Hs2) as [He2 Hm2].
  assert (Hpow2 : 0 < 2 ^ (e2 - e1)) by (apply Z.pow_pos_nonneg; lia).
  assert (Hd2 : Zdigits2 (shr_m mrs2) <= Z.max 0 (Zdigits2 m' - (e2 - e1))).
  { rewrite Hm2. apply Zdigits2_shiftr; lia. }
  unfold fexp, SpecFloat.emin, prec, emax in *.
  destruct (shr_m mrs2) as [|p|p] eqn:Hp.
  - reflexivity.
  - simpl in Hd2.
    assert (0 < Z.pos (digits2_pos p)) by lia.
    destruct (Z.leb_spec e2 (1024 - 53)) as [Hle|Hgt]; simpl; [split; [reflexivity|lia]|lia].
  - exfalso. assert (0 <= m' / 2 ^ (e2 - e1)) by (apply Z.div_pos; lia). lia.
Qed.

Lemma binary_round_aux_sign s m e l :
  0 <= m ->
  match binary_round_aux prec emax s m e l with
  | S754_zero s' | S754_infinity s' | S754_finite s' _ _ => s' = s
  | S754_nan => False
  end.
Proof.
  intros Hm. unfold binary_round_aux.
  destruct (shr_fexp prec emax m e l) as [mrs1 e1] eqn:Hs1.
  destruct (shr_fexp_spec _ _ _ _ _ Hm Hs1) as [He1 Hm1].
  set (m' := round_nearest_even (shr_m mrs1) (loc_of_shr_record mrs1)).
  assert (Hpow : 0 < 2 ^ (e1 - e)) by (apply Z.pow_pos_nonneg; lia).
  assert (Hm1' : 0 <= shr_m mrs1) by (rewrite Hm1; apply Z.div_pos; lia).
  pose proof (round_nearest_even_bounds (shr_m mrs1) (loc_of_shr_record mrs1) Hm1') as Hr.
  fold m' in Hr.
  assert (Hm'0 : 0 <= m') by lia.
  destruct (shr_fexp prec emax m' e1 loc_Exact) as [mrs2 e2] eqn:Hs2.
  destruct (shr_fexp_spec _ _ _ _ _ Hm'0 Hs2) as [He2 Hm2].
  assert (Hpow2 : 0 < 2 ^ (e2 - e1)) by (apply Z.pow_pos_nonneg; lia).
  destruct (shr_m mrs2) as [|p|p] eqn:Hp.
  - reflexivity.
  - destruct (Z.leb e2 (emax - prec)); reflexivity.
  - assert (0 <= m' / 2 ^ (e2 - e1)) by (apply Z.div_pos; lia). lia.
Qed.

Lemma shl_align_spec mx ex ex' :
  let '(mz, ez) := shl_align mx ex ex' in
  ez = Z.min ex ex' /\ Z.pos mz = Z.pos mx * 2 ^ (ex - ez).
Proof.
  unfold shl_align. destruct (ex' - ex) as [|d|d] eqn:Hd.
  - split; [lia|]. replace (ex - ex) with 0 by lia. lia.
  - split; [lia|]. replace (ex - ex) with 0 by lia. lia.
  - split; [lia|]. replace (ex - ex') with (Z.pos d) by lia.
    change (Pos.iter xO mx d) with (shift_pos d mx).
    rewrite shift_pos_correct. change (Z.pow_pos 2 d) with (2 ^ Z.pos d). lia.
Qed.

Lemma Zdigits2_mul_pow2 a n : 0 < a -> 0 <= n -> Zdigits2 (a * 2 ^ n) = Zdigits2 a + n.
Proof.
  intros Ha Hn. assert (0 < 2 ^ n) by (apply Z.pow_pos_nonneg; lia).
  rewrite !Zdigits2_log2 by nia. rewrite Z.log2_mul_pow2 by lia. lia.
Qed.

Lemma binary_round_finite s mx ex :
  Z.pos (digits2_pos mx) + ex < 1024 ->
  finite_with s (Z.max (Z.pos (digits2_pos mx) + ex) (-1074) + 1)
    (Z.max (Z.pos (digits2_pos mx) + ex - 52) (-1074))
    (binary_round prec emax s mx ex).
Proof.
  intros HK. unfold binary_round.
  pose proof (shl_align_spec mx ex (fexp prec emax (Z.pos (digits2_pos mx) + ex))) as Hal.
  destruct (shl_align mx ex _) as [mz ez]. destruct Hal as [Hez Hmz].
  assert (HKz : Zdigits2 (Z.pos mz) + ez = Z.pos (digits2_pos mx) + ex).
  { rewrite Hmz, Zdigits2_mul_pow2 by lia. simpl. lia. }
  unfold fexp, SpecFloat.emin, prec, emax in Hez.
  eapply finite_with_weaken.
  - apply binary_round_aux_finite; lia.
  - lia.
  - lia.
Qed.

Lemma binary_normalize_finite w :
  0 <= w < 2 ^ 63 -> finite_with false 64 11 (binary_normalize prec emax w 0 false).
Proof.
  intros [Hw0 Hw]. destruct w as [|p|p]; try lia; [reflexivity|].
  simpl binary_normalize.
  assert (Hd : Zdigits2 (Z.pos p) <= 63) by (apply Zdigits2_lt_pow2; lia).
  simpl in Hd.
  eapply finite_with_weaken; [apply binary_round_finite| |]; lia.
Qed.

Lemma Prim2SF_float_of_int w :
  0 <= w < 2 ^ 63 ->
  exists f, Py.float_of_int w = inr f /\
            Prim2SF f = binary_normalize prec emax w 0 false.
Proof.
  intros Hw. unfold Py.float_of_int.
  assert (Hspec : binary_normalize prec emax w 0 false
                  = Prim2SF (of_uint63 (Uint63.of_Z w))).
  { rewrite of_uint63_spec. f_equal.
    rewrite Uint63.of_Z_spec. symmetry. apply Z.mod_small.
    change Uint63.wB with (2 ^ 63). lia. }
  set (f := SF2Prim (binary_normalize prec emax w 0 false)).
  assert (Hf : Prim2SF f = binary_normalize prec emax w 0 false).
  { unfold f. rewrite Hspec, SF2Prim_Prim2SF. reflexivity. }
  exists f. split; [|exact Hf].
  assert (Hinf : is_infinity f = false).
  { unfold is_infinity. rewrite FloatAxioms.eqb_spec, abs_spec, Hf.
    pose proof (binary_normalize_finite w Hw) as Hfin.
    destruct (binary_normalize prec emax w 0 false); simpl in Hfin; try contradiction;
      reflexivity. }
  rewrite Hinf. reflexivity.
Qed.

Lemma SFmul_finite sx mx ex sy my ey :
  Z.pos (digits2_pos mx) + ex + (Z.pos (digits2_pos my) + ey) < 1024 ->
  ex + ey <= 971 ->
  finite_with (xorb sx sy) 1025 971
    (SFmul prec emax (S754_finite sx mx ex) (S754_finite sy my ey)).
Proof.
  intros HK He. simpl SFmul.
  pose proof (Zdigits2_mul (Z.pos mx) (Z.pos my) ltac:(lia) ltac:(lia)) as Hd.
  rewrite <- Pos2Z.inj_mul in Hd. 
  simpl Zdigits2 in Hd.
  eapply finite_with_weaken; [apply binary_round_aux_finite| |]; simpl Zdigits2; try lia.
Qed.

Lemma int_of_product_total w c :
  0 <= w < 2 ^ 63 -> proportion c = true ->
  exists z, 0 <= z /\ Py.int_of_product w c = inr z.
Proof.
  intros Hw Hc. unfold Py.int_of_product.
  destruct (Prim2SF_float_of_int w Hw) as (f & -> & Hf). simpl.
  unfold Py.int_of_float. rewrite mul_spec, Hf. unfold SF64mul.
  pose proof (binary_normalize_finite w Hw) as Hfin.
  unfold proportion in Hc.
  destruct (Prim2SF c) as [| | |[] mc ec]; try discriminate.
  apply andb_prop in Hc as [Hc1 Hc2]. apply Z.leb_le in Hc1, Hc2.
  destruct (binary_normalize prec emax w 0 false) as [sw| | |sw mw ew];
    simpl in Hfin; try contradiction.
  - exists 0. split; [lia|reflexivity].
  - destruct Hfin as (-> & Hk & He).
    pose proof (SFmul_finite false mw ew false mc ec ltac:(lia) ltac:(lia)) as Hm.
    destruct (SFmul prec emax _ _) as [s| | |s m e]; simpl in Hm; try contradiction.
    + exists 0. split; [lia|reflexivity].
    + destruct Hm as (-> & _). simpl. eexists. split; [|reflexivity].
      apply Z.shiftl_nonneg. lia.
Qed.

Example proportions :
  forallb proportion [0.1; 0.8; 0.7; 0.05; 0.067; 0.2; 0.15; 0.6; 0.3; 0.4]%float = true.
Proof. vm_compute. reflexivity. Qed.

Lemma Prim2SF_infinity : Prim2SF infinity = S754_infinity false.
Proof. reflexivity. Qed.

Lemma Prim2SF_zero : Prim2SF 0%float = S754_zero false.
Proof. reflexivity. Qed.

Lemma is_finite_SF x : is_finite x = true -> SF_finite (Prim2SF x).
Proof.
  unfold is_finite, is_nan, is_infinity.
  rewrite !FloatAxioms.eqb_spec, abs_spec, Prim2SF_infinity.
  destruct (Prim2SF x) as [s|s| |s m e]; simpl SF_finite; try easy.
  destruct s; vm_compute; discriminate.
Qed.

Lemma bounded_canonical m e :
  bounded prec emax m e = true ->
  -1074 <= e /\ Z.pos m < 2 ^ 53 /\ (-1074 < e -> 2 ^ 52 <= Z.pos m).
Proof.
  unfold bounded, canonical_mantissa, fexp, SpecFloat.emin, prec, emax.
  intros H. apply andb_prop in H as [H _]. apply Z.eqb_eq in H.
  assert (Hd : Zdigits2 (Z.pos m) = Z.log2 (Z.pos m) + 1) by (apply Zdigits2_log2; lia).
  simpl Zdigits2 in Hd.
  pose proof (Z.log2_spec (Z.pos m) ltac:(lia)) as [Hlo Hhi].
  split; [lia|]. split.
  - eapply Z.lt_le_trans; [exact Hhi|]. apply Z.pow_le_mono_r; lia.
  - intros He. etransitivity; [|exact Hlo]. apply Z.pow_le_mono_r; lia.
Qed.

Lemma aligned_le s0 m0 e0 s1 m1 e1 :
  bounded prec emax m0 e0 = true ->
  bounded prec emax m1 e1 = true ->
  SFleb (S754_finite s0 m0 e0) (S754_finite s1 m1 e1) = true ->
  cond_Zopp s0 (Z.pos (fst (shl_align m0 e0 (Z.min e1 e0))))
  <= cond_Zopp s1 (Z.pos (fst (shl_align m1 e1 (Z.min e1 e0)))).
Proof.
  intros Hb0 Hb1 Hle.
  apply bounded_canonical in Hb0 as (He0 & Hm0 & Hn0).
  apply bounded_canonical in Hb1 as (He1 & Hm1 & Hn1).
  pose proof (shl_align_spec m0 e0 (Z.min e1 e0)) as H0.
  pose proof (shl_align_spec m1 e1 (Z.min e1 e0)) as H1.
  destruct (shl_align m0 e0 _) as [z0 ez0], (shl_align m1 e1 _) as [z1 ez1].
  destruct H0 as [-> H0], H1 as [-> H1]. simpl fst. rewrite H0, H1. clear H0 H1.
  unfold SFleb, SFcompare in Hle.
  destruct s0, s1; simpl cond_Zopp; try discriminate.
  - (* both negative *)
    destruct (Z.compare_spec e0 e1) as [Heq|Hlt|Hgt]; try discriminate.
    + subst e1. replace (e0 - Z.min e0 (Z.min e0 e0)) with 0 by lia.
      rewrite Pos.compare_cont_spec in Hle. simpl in Hle.
      destruct (Pos.compare_spec m0 m1); simpl in Hle; try discriminate; lia.
    + replace (e1 - Z.min e1 (Z.min e1 e0)) with 0 by lia.
      replace (e0 - Z.min e0 (Z.min e1 e0)) with (e0 - e1) by lia.
      assert (2 ^ 1 <= 2 ^ (e0 - e1)) by (apply Z.pow_le_mono_r; lia).
      specialize (Hn0 ltac:(lia)). nia.
  - (* negative below positive *)
    assert (0 < 2 ^ (e0 - Z.min e0 (Z.min e1 e0))) by (apply Z.pow_pos_nonneg; lia).
    assert (0 < 2 ^ (e1 - Z.min e1 (Z.min e1 e0))) by (apply Z.pow_pos_nonneg; lia).
    nia.
  - (* both positive *)
    destruct (Z.compare_spec e0 e1) as [Heq|Hlt|Hgt]; try discriminate.
    + subst e1. replace (e0 - Z.min e0 (Z.min e0 e0)) with 0 by lia.
      rewrite Pos.compare_cont_spec in Hle. simpl in Hle.
      destruct (Pos.compare_spec m0 m1); simpl in Hle; try discriminate; lia.
    + replace (e0 - Z.min e0 (Z.min e1 e0)) with 0 by lia.
      replace (e1 - Z.min e1 (Z.min e1 e0)) with (e1 - e0) by lia.
      assert (2 ^ 1 <= 2 ^ (e1 - e0)) by (apply Z.pow_le_mono_r; lia).
      specialize (Hn1 ltac:(lia)). nia.
Qed.

Lemma binary_normalize_nonneg z e :
  0 <= z ->
  SFleb (S754_zero false) (binary_normalize prec emax z e false) = true.
Proof.
  intros Hz. destruct z as [|p|p]; try lia; [reflexivity|].
  simpl binary_normalize. unfold binary_round.
  destruct (shl_align p e _) as [mz ez].
  pose proof (binary_round_aux_sign false (Z.pos mz) ez loc_Exact ltac:(lia)) as Hs.
  destruct (binary_round_aux prec emax false (Z.pos mz) ez loc_Exact);
    try contradiction; subst; reflexivity.
Qed.

(** The difference of two finite readings of a clock that did not go
    backwards is not negative. *)
Lemma sub_nonneg (t0 t1 : float) :
  is_finite t0 = true -> is_finite t1 = true ->
  (t0 <=? t1)%float = true -> (0 <=? t1 - t0)%float = true.
Proof.
  intros H0 H1 Hle. apply is_finite_SF in H0, H1.
  rewrite leb_spec in Hle. rewrite leb_spec, sub_spec, Prim2SF_zero.
  pose proof (Prim2SF_valid t0) as V0. pose proof (Prim2SF_valid t1) as V1.
  unfold SF64sub.
  destruct (Prim2SF t0) as [s0| | |s0 m0 e0], (Prim2SF t1) as [s1| | |s1 m1 e1];
    simpl in H0, H1; try contradiction.
  - destruct s0, s1; reflexivity.
  - destruct s1; [discriminate|reflexivity].
  - destruct s0; [reflexivity|discriminate].
  - simpl in V0, V1. unfold SFsub.
    apply binary_normalize_nonneg.
    pose proof (aligned_le _ _ _ _ _ _ V0 V1 Hle). lia.
Qed.

(** ** The runs of the state monad *)

Lemma bind_tick {A} (k : nat -> M A) rt :
  bind tick k rt = k (clock_reads rt) (Runtime (S (clock_reads rt)) (trace rt)).
Proof. reflexivity. Qed.

Lemma bind_emit {A} ev (k : M A) rt :
  bind (emit ev) (fun _ => k) rt = k (Runtime (clock_reads rt) (ev :: trace rt)).
Proof. reflexivity. Qed.

(** ** What a successful [analyze_image] went through *)

Lemma analyze_image_ok w p out gv mock mp rt results file vis :
  fst (analyze_image w p out gv mock mp rt) = AnalyzeOk results file vis ->
  exists details a used rt1,
    get_image_details w p = inr details
    /\ fst (run_analysis w p mock mp details rt1) = inr (a, used)
    /\ res_image_details results = details
    /\ analysis results = a
    /\ res_debug_info results = make_debug_info mock used details.
Proof.
  unfold analyze_image, bind, tick, ret, emit. simpl.
  destruct (ensure_output_dir w out); [discriminate|].
  destruct (get_image_details w p) as [e|details]; [discriminate|].
  destruct (run_analysis w p mock mp details _) as [[e|[a used]] rt2] eqn:Hrun;
    [discriminate|].
  simpl. destruct (open_write w _); [discriminate|].
  destruct (json_dump w _ _); [discriminate|].
  destruct gv.
  - destruct (generate_visual_feedback w p _ _ _) as [[e|v] rt3]; [discriminate|].
    simpl. intros [= <- _ _]. exists details, a, used. eexists.
    split; [reflexivity|]. rewrite Hrun. repeat split.
  - simpl. intros [= <- _ _]. exists details, a, used. eexists.
    split; [reflexivity|]. rewrite Hrun. repeat split.
Qed.

Lemma run_analysis_mock w p mp details rt a used :
  fst (run_analysis w p true mp details rt) = inr (a, used) ->
  generate_mock_analysis_results p details = inr a.
Proof.
  unfold run_analysis, ret. simpl.
  destruct (generate_mock_analysis_results p details); simpl; [discriminate|].
  now intros [= -> _].
Qed.

Lemma run_analysis_real w p mp details rt a used :
  YOLO_AVAILABLE w = true ->
  fst (run_analysis w p false mp details rt) = inr (a, used) ->
  exists detection, a = build_analysis_results p details detection.
Proof.
  unfold run_analysis, bind, ret. intros ->.
  destruct (YOLOModel_detect w _ p rt) as [[detection self] rt'].
  simpl. intros [= <- _]. now exists detection.
Qed.

Lemma run_analysis_fallback w p mp details rt a used :
  YOLO_AVAILABLE w = false ->
  fst (run_analysis w p false mp details rt) = inr (a, used) ->
  generate_mock_analysis_results p details = inr a.
Proof.
  unfold run_analysis, ret. intros ->. simpl.
  destruct (generate_mock_analysis_results p details); simpl; [discriminate|].
  now intros [= -> _].
Qed.

(** ** The details of an image *)

(** The aspect ratio of the details is the quotient of the width by the
    height (0 for a height of 0), and its name is the one
    [get_aspect_ratio_name] gives for it. *)
Lemma image_details_ratio w p d :
  get_image_details w p = inr d ->
  let info := details_image d in
  aspect_ratio_name info = get_aspect_ratio_name (aspect_ratio info)
  /\ (if height info >? 0 then Py.truediv (width info) (height info)
      else inr 0%float) = inr (aspect_ratio info).
Proof.
  unfold get_image_details. destruct (PIL_AVAILABLE w); [|discriminate].
  cbn [negb]. intros H. simpl in H.
  destruct (stat_file w p) as [e|st]; simpl in H; [discriminate|].
  destruct (image_open w p) as [e|img]; simpl in H; [discriminate|].
  destruct (path_absolute w p) as [e|absolute]; simpl in H; [discriminate|].
  destruct (Py.truediv (st_size st) 1024) as [e|kb]; simpl in H; [discriminate|].
  destruct (Py.truediv (st_size st) (1024 * 1024)) as [e|mb]; simpl in H;
    [discriminate|].
  destruct (fromtimestamp w (st_ctime st)) as [e|created]; simpl in H;
    [discriminate|].
  destruct (fromtimestamp w (st_mtime st)) as [e|modified]; simpl in H;
    [discriminate|].
  destruct (if img_height img >? 0 then _ else _) as [e|ratio] eqn:Hratio;
    simpl in H; [discriminate|].
  injection H as <-. simpl. split; [reflexivity|exact Hratio].
Qed.

(** ** The mock analysis *)

Lemma mock_results_inv path d a :
  generate_mock_analysis_results path d = inr a ->
  let w := width (details_image d) in
  let h := height (details_image d) in
  map label (objects a) = ["window"; "icon"; "text"]
  /\ map (fun o => inr (obj_bbox o)) (objects a)
     = [ scaled_box w h 0.1 0.1 0.8 0.7;
         scaled_box w h 0.05 0.1 0.05 0.067;
         scaled_box w h 0.2 0.15 0.6 0.05 ]
  /\ detected (ocr a) = true
  /\ map region_text (regions (ocr a))
     = ["サンプルテキスト"; "デバッグ用のモックデータです。"]
  /\ map (fun r => inr (region_bbox r)) (regions (ocr a))
     = [ scaled_box w h 0.2 0.15 0.3 0.05;
         scaled_box w h 0.2 0.2 0.4 0.05 ].
Proof.
  unfold generate_mock_analysis_results. intros H. simpl in H.
  repeat step_raises.
  injection H as <-. simpl. unfold scaled_box.
  repeat match goal with E : _ = inr _ |- _ => rewrite E; clear E end.
  simpl. repeat split; reflexivity.
Qed.

Lemma mock_results_total path d :
  0 <= width (details_image d) < 2 ^ 63 ->
  0 <= height (details_image d) < 2 ^ 63 ->
  exists a, generate_mock_analysis_results path d = inr a.
Proof.
  intros Hw Hh. unfold generate_mock_analysis_results.
  repeat match goal with
  | |- context [mbind _ (Py.int_of_product ?n ?c)] =>
      let z := fresh "z" in let Hz := fresh "Hz" in
      destruct (int_of_product_total n c) as (z & _ & Hz);
      [assumption|vm_compute; reflexivity|rewrite Hz; simpl]
  end.
  eexists. reflexivity.
Qed.

(** ** The model at work *)

(** The names of common screen shapes; 2560 by 1080 and 21 by 9 fall to
    the nearest cinema format. *)
Example common_aspect_ratios :
  map (fun size : positive * positive =>
         get_aspect_ratio_name
           (Py.nearest_float false (Z.pos (fst size)) (snd size)))
    [ (640, 480); (1920, 1080); (1280, 800); (1080, 1920); (500, 500);
      (768, 1024); (2560, 1080); (21, 9) ]%positive
  = [ "4:3（標準）"; "16:9（ワイド）"; "16:10"; "9:16（縦向きワイド）";
      "1:1（正方形）"; "3:4（縦向き標準）"; "2.35:1（シネマスコープ）";
      "2.35:1（シネマスコープ）" ].
Proof. vm_compute. reflexivity. Qed.

(** The tolerance is tested in binary64: 1.36 - 1.33 is computed a little
    above 0.03, so a 1360 by 1000 image is not 4:3, while 0.59 - 0.56 is
    computed a little below 0.03, so a 590 by 1000 image is 9:16. *)
Example tolerance_in_binary64 :
  get_aspect_ratio_name (Py.nearest_float false 1360 1000) = "1.36:1"
  /\ get_aspect_ratio_name (Py.nearest_float false 590 1000) = "9:16（縦向きワイド）".
Proof. vm_compute. split; reflexivity. Qed.

(** Two persons and a dog: the description counts the labels in the order
    they first appear. *)
Example description_counts :
  description
    (build_analysis_results "shot.png"
       (sample_details "shot.png" 640 480 sample_colors)
       {| det_error := None;
          det_objects :=
            Some [ DetectedObject "person" 0.9 (BBox 1 2 3 4);
                   DetectedObject "dog" 0.8 (BBox 5 6 7 8);
                   DetectedObject "person" 0.7 (BBox 0 0 1 1) ];
          det_count := Some 3; det_image_path := Some "shot.png";
          det_model := Some "yolov8" |})
  = "この画像には2個のperson、1つのdogが含まれています。".
Proof. vm_compute. reflexivity. Qed.

(** ** The claims of the specification *)

(** C1. The aggregate confidence of the report built from a detection is
    the arithmetic mean of the confidences of its objects (the sum, added
    from left to right in binary64, divided by their number), and exactly
    0.0 when there is no object; for the confidences 0.9, 0.8 and 0.7 it
    is within 1e-6 of 0.8. *)
Theorem C1_aggregate_confidence :
  (forall path details detection,
     confidence (build_analysis_results path details detection)
     = match default [] (det_objects detection) with
       | [] => 0%float
       | objs => arithmetic_mean (map obj_confidence objs)
       end)
  /\ (forall path details err l1 l2 l3 b1 b2 b3 n p m,
        let objs := [ DetectedObject l1 0.9 b1; DetectedObject l2 0.8 b2;
                      DetectedObject l3 0.7 b3 ] in
        let c := confidence (build_analysis_results path details
                   (DetectionResults err (Some objs) n p m)) in
        (abs (c - 0.8) <=? 1e-6)%float = true).
Proof.
  split.
  - intros path details detection. unfold build_analysis_results. simpl.
    destruct (default [] (det_objects detection)) as [|obj objs]; [reflexivity|].
    unfold arithmetic_mean, float_of_len. simpl length. rewrite length_map.
    reflexivity.
  - intros. vm_compute. reflexivity.
Qed.

(** C2. For an image of [w] by [h] pixels (any size an image can have:
    below [2^63]), the mock analysis returns: it has exactly the three
    objects "window", "icon" and "text", whose boxes are the truncated
    products of [w] and [h] with fixed proportions (the window at a tenth
    from the corner with 0.8 of the width and 0.7 of the height, the icon
    at the top left, the text as a strip), and an OCR block marked
    detected with exactly two regions of placeholder text. *)
Theorem C2_mock_detection (path : string) (d : image_details) :
  let w := width (details_image d) in
  let h := height (details_image d) in
  0 <= w < 2 ^ 63 -> 0 <= h < 2 ^ 63 ->
  exists a,
    generate_mock_analysis_results path d = inr a
    /\ map label (objects a) = ["window"; "icon"; "text"]
    /\ map (fun o => inr (obj_bbox o)) (objects a)
       = [ scaled_box w h 0.1 0.1 0.8 0.7;
           scaled_box w h 0.05 0.1 0.05 0.067;
           scaled_box w h 0.2 0.15 0.6 0.05 ]
    /\ detected (ocr a) = true
    /\ map region_text (regions (ocr a))
       = ["サンプルテキスト"; "デバッグ用のモックデータです。"]
    /\ map (fun r => inr (region_bbox r)) (regions (ocr a))
       = [ scaled_box w h 0.2 0.15 0.3 0.05;
           scaled_box w h 0.2 0.2 0.4 0.05 ].
Proof.
  intros w h Hw Hh.
  destruct (mock_results_total path d Hw Hh) as [a Ha].
  exists a. split; [exact Ha|]. exact (mock_results_inv path d a Ha).
Qed.

Lemma C2_mock_detection_witness :
  (0 <= 640 < 2 ^ 63 /\ 0 <= 480 < 2 ^ 63)
  /\ exists a,
    generate_mock_analysis_results "shot.png"
      (sample_details "shot.png" 640 480 sample_colors) = inr a
    /\ map label (objects a) = ["window"; "icon"; "text"]
    /\ map (fun o => inr (obj_bbox o)) (objects a)
       = [ inr (BBox 64 48 512 336); inr (BBox 32 48 32 32);
           inr (BBox 128 72 384 24) ] :> list (exn + bbox)
    /\ detected (ocr a) = true
    /\ map region_text (regions (ocr a))
       = ["サンプルテキスト"; "デバッグ用のモックデータです。"]
    /\ map (fun r => inr (region_bbox r)) (regions (ocr a))
       = [ inr (BBox 128 72 192 24); inr (BBox 128 96 256 24) ]
         :> list (exn + bbox).
Proof.
  split; [lia|].
  apply (C2_mock_detection "shot.png"
           (sample_details "shot.png" 640 480 sample_colors)); simpl; lia.
Defined.

(** C3, as the specification states it, fails: a 640 by 480 image
    analysed in mock mode has the objects "window", "icon" and "text", and
    the tag "UI", which is the label of none of them. *)
Lemma C3_counterexample :
  exists results file vis,
    fst (analyze_image calm_world "shot.png" "out" true true None start)
    = AnalyzeOk results file vis
    /\ map label (objects (analysis results)) = ["window"; "icon"; "text"]
    /\ "UI" ∈ tags (analysis results)
    /\ ("UI" ∉ map label (objects (analysis results)))
    /\ ~ (forall t, t ∈ tags (analysis results)
                    <-> t ∈ map label (objects (analysis results))).
Proof.
  eexists _, _, _. split; [vm_compute; reflexivity|]. simpl.
  assert (Hin : "UI" ∈ mock_tags)
    by (apply list_elem_of_In; simpl; tauto).
  assert (Hout : "UI" ∉ ["window"; "icon"; "text"])
    by (rewrite list_elem_of_In; simpl; intros [H|[H|[H|[]]]]; discriminate).
  repeat split; try assumption.
  intros Hall. apply Hout, Hall, Hin.
Qed.

(** C3, amended. Every report of an analysis in mock mode has the fixed
    tags of the mock, whatever its objects "window", "icon" and "text";
    the tags are the distinct labels of the detected objects in the
    analysis built from a detection result. *)
Theorem C3_tags :
  (forall w p out gv mp rt results file vis,
     fst (analyze_image w p out gv true mp rt) = AnalyzeOk results file vis ->
     tags (analysis results) = mock_tags
     /\ map label (objects (analysis results)) = ["window"; "icon"; "text"])
  /\ (forall path details detection,
        let a := build_analysis_results path details detection in
        NoDup (tags a)
        /\ forall t, t ∈ tags a <-> t ∈ map label (objects a)).
Proof.
  split.
  - intros w p out gv mp rt results file vis Hok.
    apply analyze_image_ok in Hok as (details & a & used & rt1 & _ & Hrun & _ & -> & _).
    apply run_analysis_mock in Hrun.
    unfold generate_mock_analysis_results in Hrun. simpl in Hrun.
    repeat step_raises. injection Hrun as <-. split; reflexivity.
  - intros path details detection a. subst a. simpl. split.
    + apply NoDup_remove_dups.
    + intros t. apply elem_of_remove_dups.
Qed.

Lemma C3_tags_witness :
  exists results file vis,
    fst (analyze_image calm_world "shot.png" "out" true true None start)
    = AnalyzeOk results file vis
    /\ tags (analysis results) = mock_tags
    /\ map label (objects (analysis results)) = ["window"; "icon"; "text"].
Proof.
  eexists _, _, _. split; [vm_compute; reflexivity|].
  eapply (proj1 C3_tags calm_world "shot.png" "out" true None start).
  vm_compute. reflexivity.
Defined.

(** C4, as the specification states it, fails: the ratio 0.594 is further
    than 0.03 from every reference value, so its name would be "0.59:1";
    the code rounds it to 0.59 first, which is within 0.03 of 0.56, and
    names it 9:16. *)
Lemma C4_counterexample :
  get_aspect_ratio_name 0.594 = "9:16（縦向きワイド）"
  /\ name_by_ratio 0.594 = "0.59:1"
  /\ get_aspect_ratio_name 0.594 <> name_by_ratio 0.594.
Proof. vm_compute. repeat split; discriminate. Qed.

(** C4, amended. The name of a ratio [r] is that of the first entry of the
    ordered table (1.33, 1.78, 1.6, 1.85, 2.35, 1.0, 0.75, 0.56) whose
    reference value is within 0.03 of [r] rounded to two decimals, the
    difference being computed in binary64; without such an entry it is
    the rounded ratio printed with two decimals, followed by ":1". *)
Theorem C4_aspect_ratio_name (r : float) :
  get_aspect_ratio_name r = name_by_rounded_ratio r.
Proof.
  unfold get_aspect_ratio_name, name_by_rounded_ratio, first_match, fallback_name.
  simpl List.find. unfold within_tolerance. simpl fst.
  repeat (destruct (_ <=? _)%float; [reflexivity|]). reflexivity.
Qed.

(** C5. With headless mode on, the mocking of models in headless mode on
    and no forced load, testing all the backends returns the overall
    success true with one result per backend (mobilenet, cocossd,
    tesseract), each a success with the message that it was skipped in
    headless mode; the run reads the clock once for the time stamp and
    leaves the trace as it was: no loader is built, nothing is imported
    and no backend is called. *)
Theorem C5_headless_skip (w : world)
    (models_cfg : option (gmap string model_config)) (rt : runtime) :
  exists results text stamp,
    test_model_loading w "all" false (Some (headless_config models_cfg)) rt
    = (TestAll true results text stamp, Runtime (S (clock_reads rt)) (trace rt))
    /\ dom results = list_to_set backends
    /\ forall name, name ∈ backends ->
         exists r, results !! name = Some r
                   /\ success r = true
                   /\ res_model r = Some name
                   /\ message r = "ヘッドレスモードでスキップされました".
Proof.
  unfold test_model_loading, bind, tick, ret. simpl.
  eexists _, _, _. split; [reflexivity|]. split.
  - apply leibniz_equiv. rewrite !dom_insert, dom_empty. unfold backends. simpl.
    set_solver.
  - intros name Hin. unfold backends in Hin.
    repeat (apply elem_of_cons in Hin as [->|Hin]);
      [| | |apply elem_of_nil in Hin; contradiction].
    all: eexists; split; [vm_compute; reflexivity|]; repeat split; reflexivity.
Qed.

(** ** Failed detections *)




(** Without the detection package the pipeline in real mode does not call
    [detect]: what it reports is the mock analysis of the image. *)
Lemma analyze_image_fallback w p out gv mp rt results file vis :
  YOLO_AVAILABLE w = false ->
  fst (analyze_image w p out gv false mp rt) = AnalyzeOk results file vis ->
  generate_mock_analysis_results p (res_image_details results)
  = inr (analysis results).
Proof.
  intros Hyolo Hok.
  apply analyze_image_ok in Hok as (details & a & used & rt1 & _ & Hrun & -> & -> & _).
  eapply run_analysis_fallback; eassumption.
Qed.




(** ** The outcome of a load *)

Section LoadOutcome.

Variable w : world.
Variable self : ModelLoader.
Variable rt : runtime.

Lemma load_succeeded_measured model_name model ver langs rt' :
  clock_reads rt' = S (clock_reads rt) ->
  load_measured w rt model_name
    (fst (load_succeeded w self model_name model (clock_reads rt) ver langs rt'))
  /\ res_error
       (fst (fst (load_succeeded w self model_name model (clock_reads rt) ver langs rt')))
     = None.
Proof.
  intros Hrt. unfold load_measured, load_succeeded, bind, tick, ret. simpl. rewrite Hrt.
  split; [|reflexivity]. split; [reflexivity|].
  right. repeat split. apply lookup_insert_eq.
Qed.

Lemma load_failed_measured model_name e rt' :
  clock_reads rt' = S (clock_reads rt) ->
  load_measured w rt model_name
    (fst (load_failed w self model_name e (clock_reads rt) rt'))
  /\ res_error (fst (fst (load_failed w self model_name e (clock_reads rt) rt')))
     = Some (str e).
Proof.
  intros Hrt. unfold load_measured, load_failed, bind, tick, ret. simpl. rewrite Hrt.
  split; [|reflexivity]. split; [reflexivity|].
  left. split; [reflexivity|]. exists (str e). split; [reflexivity|].
  apply lookup_insert_eq.
Qed.

(** A load whose error, if any, is the text of [e]. *)
Lemma load_mobilenet_model_measured :
  is_enabled self "mobilenet" ->
  load_measured w rt "mobilenet" (fst (load_mobilenet_model w self rt))
  /\ forall text,
       res_error (fst (fst (load_mobilenet_model w self rt))) = Some text ->
       text = "TensorFlow/TensorFlow.jsがインストールされていません"
       \/ exists e,
            raised_in_load w e
            /\ text = str (reraise_import_error "MobileNetモデルをインポートできません: " e).
Proof.
  intros Hen. unfold is_enabled in Hen.
  unfold load_mobilenet_model. rewrite Hen. cbn [negb]. rewrite bind_tick.
  destruct (TF_AVAILABLE w); cbn [negb].
  2:{ destruct (load_failed_measured "mobilenet"
                  (Exn ModelLoadError "TensorFlow/TensorFlow.jsがインストールされていません")
                  (Runtime (S (clock_reads rt)) (trace rt)) eq_refl) as [Hrec Herr].
      split; [exact Hrec|]. intros text Ht. rewrite Herr in Ht.
      injection Ht as <-. left. reflexivity. }
  rewrite bind_emit.
  destruct (import_module w _) as [e|] eqn:Hi.
  { match goal with |- context [load_failed w self ?n ?x _ ?r] =>
      destruct (load_failed_measured n x r eq_refl) as [Hrec Herr] end.
    split; [exact Hrec|]. intros text Ht. rewrite Herr in Ht. injection Ht as <-.
    right. exists e. split; [left; eauto|reflexivity]. }
  rewrite bind_emit.
  destruct (MobileNetV2 w) as [e|] eqn:Hm.
  { match goal with |- context [load_failed w self ?n ?x _ ?r] =>
      destruct (load_failed_measured n x r eq_refl) as [Hrec Herr] end.
    split; [exact Hrec|]. intros text Ht. rewrite Herr in Ht. injection Ht as <-.
    right. exists e. split; [right; left; exact Hm|reflexivity]. }
  rewrite bind_emit.
  destruct (mobilenet_self_test w) as [e|] eqn:Ht.
  { match goal with |- context [load_failed w self ?n ?x _ ?r] =>
      destruct (load_failed_measured n x r eq_refl) as [Hrec Herr] end.
    split; [exact Hrec|]. intros text Htext. rewrite Herr in Htext.
    injection Htext as <-.
    right. exists e. split; [right; right; exact Ht|reflexivity]. }
  match goal with |- context [load_succeeded w self ?n ?m _ ?v ?l ?r] =>
    destruct (load_succeeded_measured n m v l r eq_refl) as [Hrec Herr] end.
  split; [exact Hrec|]. intros text Htext. rewrite Herr in Htext. discriminate.
Qed.

Lemma load_cocossd_model_measured :
  is_enabled self "cocossd" ->
  load_measured w rt "cocossd" (fst (load_cocossd_model w self rt))
  /\ forall text,
       res_error (fst (fst (load_cocossd_model w self rt))) = Some text ->
       text = "TensorFlow/TensorFlow.jsがインストールされていません"
       \/ exists e,
            raised_in_load w e
            /\ text = str (reraise_import_error "COCO-SSDモデルをインポートできません: " e).
Proof.
  intros Hen. unfold is_enabled in Hen.
  unfold load_cocossd_model. rewrite Hen. cbn [negb]. rewrite bind_tick.
  destruct (TF_AVAILABLE w); cbn [negb].
  2:{ destruct (load_failed_measured "cocossd"
                  (Exn ModelLoadError "TensorFlow/TensorFlow.jsがインストールされていません")
                  (Runtime (S (clock_reads rt)) (trace rt)) eq_refl) as [Hrec Herr].
      split; [exact Hrec|]. intros text Ht. rewrite Herr in Ht.
      injection Ht as <-. left. reflexivity. }
  rewrite bind_emit.
  destruct (import_module w _) as [e|] eqn:Hi.
  { match goal with |- context [load_failed w self ?n ?x _ ?r] =>
      destruct (load_failed_measured n x r eq_refl) as [Hrec Herr] end.
    split; [exact Hrec|]. intros text Ht. rewrite Herr in Ht. injection Ht as <-.
    right. exists e. split; [left; eauto|reflexivity]. }
  match goal with |- context [load_succeeded w self ?n ?m _ ?v ?l ?r] =>
    destruct (load_succeeded_measured n m v l r eq_refl) as [Hrec Herr] end.
  split; [exact Hrec|]. intros text Htext. rewrite Herr in Htext. discriminate.
Qed.

Lemma load_tesseract_model_measured :
  is_enabled self "tesseract" ->
  load_measured w rt "tesseract" (fst (load_tesseract_model w self rt))
  /\ forall text,
       res_error (fst (fst (load_tesseract_model w self rt))) = Some text ->
       text <> "".
Proof.
  intros Hen. unfold is_enabled in Hen.
  unfold load_tesseract_model. rewrite Hen. cbn [negb]. rewrite bind_tick.
  destruct (TESSERACT_AVAILABLE w); cbn [negb].
  2:{ destruct (load_failed_measured "tesseract"
                  (Exn ModelLoadError "pytesseractがインストールされていません")
                  (Runtime (S (clock_reads rt)) (trace rt)) eq_refl) as [Hrec Herr].
      split; [exact Hrec|]. intros text Ht. rewrite Herr in Ht.
      injection Ht as <-. discriminate. }
  rewrite bind_emit.
  destruct (get_tesseract_version w) as [e|v].
  { match goal with |- context [load_failed w self ?n ?x _ ?r] =>
      destruct (load_failed_measured n x r eq_refl) as [Hrec Herr] end.
    split; [exact Hrec|]. intros text Ht. rewrite Herr in Ht. injection Ht as <-.
    discriminate. }
  rewrite bind_emit.
  destruct (get_languages w) as [e|l].
  { match goal with |- context [load_failed w self ?n ?x _ ?r] =>
      destruct (load_failed_measured n x r eq_refl) as [Hrec Herr] end.
    split; [exact Hrec|]. intros text Ht. rewrite Herr in Ht. injection Ht as <-.
    discriminate. }
  match goal with |- context [load_succeeded w self ?n ?m _ ?v ?l ?r] =>
    destruct (load_succeeded_measured n m v l r eq_refl) as [Hrec Herr] end.
  split; [exact Hrec|]. intros text Htext. rewrite Herr in Htext. discriminate.
Qed.

(** What the code records is what the specification words, once the
    elapsed time is not negative and the error text is not empty. *)
Lemma load_measured_outcome model_name out :
  load_measured w rt model_name out ->
  nonneg (time_time w (S (clock_reads rt)) - time_time w (clock_reads rt)) ->
  (forall text, res_error (fst out) = Some text -> text <> "") ->
  load_outcome model_name out.
Proof.
  intros [Hel Hshape] Hnn Htext. eexists. split; [exact Hel|]. split; [exact Hnn|].
  destruct Hshape as [(Hs & text & Herr & Hst)|Hok]; [left|right; exact Hok].
  split; [exact Hs|]. exists text. split; [exact Herr|]. split; [|exact Hst].
  apply Htext, Herr.
Qed.

End LoadOutcome.

Lemma reraise_import_error_text prefix e :
  prefix <> "" ->
  (exn_class_of e = ImportError \/ str e <> "") ->
  str (reraise_import_error prefix e) <> "".
Proof.
  intros Hp He. unfold reraise_import_error.
  destruct (exn_class_of e) eqn:Hc; simpl;
    try (destruct He as [He|He]; [discriminate He|exact He]).
  destruct prefix; [contradiction|discriminate].
Qed.

(** C7, as the specification states it, fails twice on an enabled
    backend: when building MobileNet raises an exception without a
    message, the load fails with the empty string as its error; and when
    the clock is set back during a load that succeeds, the elapsed time
    is negative. *)
Lemma C7_counterexample :
  is_enabled new_loader "mobilenet"
  /\ ~ load_outcome "mobilenet"
         (fst (load_mobilenet_model
                 (sample_world white_pixels (Some silent_failure) (inr []) seconds)
                 new_loader start))
  /\ ~ load_outcome "mobilenet"
         (fst (load_mobilenet_model
                 (sample_world white_pixels None (inr []) clock_back)
                 new_loader start)).
Proof.
  split; [reflexivity|]. split.
  - intros (el & _ & _ & [(_ & text & Herr & Hne & _)|(Hs & _)]).
    + vm_compute in Herr. injection Herr as <-. now apply Hne.
    + vm_compute in Hs. discriminate.
  - intros (el & Hel & Hnn & _).
    vm_compute in Hel. injection Hel as <-. vm_compute in Hnn. discriminate.
Qed.

(** C7, amended. The load of each enabled backend returns a failure with
    an error string or a success without an error, with an elapsed time
    that is the difference of the two readings of [time.time()] the load
    makes, and the status of that backend in the registry holds the same
    loaded flag, error text and elapsed time. The elapsed time is not
    negative when the two readings are finite and the second is not
    before the first. The error string is not empty when every exception
    the libraries of the backends raise is an ImportError or has a
    message. Under both conditions the outcome is the one the
    specification words. *)
Theorem C7_load_outcome (w : world) (self : ModelLoader) (rt : runtime) :
  let mobilenet := fst (load_mobilenet_model w self rt) in
  let cocossd := fst (load_cocossd_model w self rt) in
  let tesseract := fst (load_tesseract_model w self rt) in
  let texts :=
    forall e, raised_in_load w e -> exn_class_of e = ImportError \/ str e <> "" in
  ((is_enabled self "mobilenet" -> load_measured w rt "mobilenet" mobilenet)
   /\ (is_enabled self "cocossd" -> load_measured w rt "cocossd" cocossd)
   /\ (is_enabled self "tesseract" -> load_measured w rt "tesseract" tesseract))
  /\ (clock_advances w rt ->
      nonneg (time_time w (S (clock_reads rt)) - time_time w (clock_reads rt)))
  /\ (texts ->
      (is_enabled self "mobilenet" ->
       forall text, res_error (fst mobilenet) = Some text -> text <> "")
      /\ (is_enabled self "cocossd" ->
          forall text, res_error (fst cocossd) = Some text -> text <> "")
      /\ (is_enabled self "tesseract" ->
          forall text, res_error (fst tesseract) = Some text -> text <> ""))
  /\ (clock_advances w rt -> texts ->
      (is_enabled self "mobilenet" -> load_outcome "mobilenet" mobilenet)
      /\ (is_enabled self "cocossd" -> load_outcome "cocossd" cocossd)
      /\ (is_enabled self "tesseract" -> load_outcome "tesseract" tesseract)).
Proof.
  intros mobilenet cocossd tesseract texts. subst mobilenet cocossd tesseract texts.
  assert (Hnn : clock_advances w rt ->
                nonneg (time_time w (S (clock_reads rt)) - time_time w (clock_reads rt))).
  { intros (F0 & F1 & Hle). apply sub_nonneg; assumption. }
  assert (Hm : (forall e, raised_in_load w e -> exn_class_of e = ImportError \/ str e <> "") ->
               is_enabled self "mobilenet" ->
               forall text,
                 res_error (fst (fst (load_mobilenet_model w self rt))) = Some text ->
                 text <> "").
  { intros Htexts Hen text Herr.
    destruct (proj2 (load_mobilenet_model_measured w self rt Hen) text Herr)
      as [->|(e & He & ->)]; [discriminate|].
    apply reraise_import_error_text; [discriminate|]. apply Htexts, He. }
  assert (Hc : (forall e, raised_in_load w e -> exn_class_of e = ImportError \/ str e <> "") ->
               is_enabled self "cocossd" ->
               forall text,
                 res_error (fst (fst (load_cocossd_model w self rt))) = Some text ->
                 text <> "").
  { intros Htexts Hen text Herr.
    destruct (proj2 (load_cocossd_model_measured w self rt Hen) text Herr)
      as [->|(e & He & ->)]; [discriminate|].
    apply reraise_import_error_text; [discriminate|]. apply Htexts, He. }
  assert (Ht : is_enabled self "tesseract" ->
               forall text,
                 res_error (fst (fst (load_tesseract_model w self rt))) = Some text ->
                 text <> "").
  { intros Hen. apply (load_tesseract_model_measured w self rt Hen). }
  split; [|split; [exact Hnn|split]].
  - split; [|split]; intros Hen.
    + apply (load_mobilenet_model_measured w self rt Hen).
    + apply (load_cocossd_model_measured w self rt Hen).
    + apply (load_tesseract_model_measured w self rt Hen).
  - intros Htexts. split; [|split].
    + apply Hm, Htexts.
    + apply Hc, Htexts.
    + exact Ht.
  - intros Hclock Htexts. split; [|split]; intros Hen.
    + apply (load_measured_outcome w rt);
        [apply (load_mobilenet_model_measured w self rt Hen)|apply Hnn, Hclock|].
      apply Hm; assumption.
    + apply (load_measured_outcome w rt);
        [apply (load_cocossd_model_measured w self rt Hen)|apply Hnn, Hclock|].
      apply Hc; assumption.
    + apply (load_measured_outcome w rt);
        [apply (load_tesseract_model_measured w self rt Hen)|apply Hnn, Hclock|].
      apply Ht; assumption.
Qed.

(** Building MobileNet raises an exception with a message while the clock
    shows 0 then 1: the load fails with that message after one second,
    and the registry says so. *)
Lemma C7_load_outcome_witness :
  (is_enabled new_loader "mobilenet"
   /\ clock_advances
        (sample_world white_pixels (Some (Exn OtherException "out of memory"))
           (inr []) seconds) start)
  /\ success
       (fst (fst (load_mobilenet_model
                    (sample_world white_pixels
                       (Some (Exn OtherException "out of memory")) (inr []) seconds)
                    new_loader start)))
     = false
  /\ load_measured
       (sample_world white_pixels (Some (Exn OtherException "out of memory"))
          (inr []) seconds) start "mobilenet"
       (fst (load_mobilenet_model
               (sample_world white_pixels
                  (Some (Exn OtherException "out of memory")) (inr []) seconds)
               new_loader start))
  /\ load_outcome "mobilenet"
       (fst (load_mobilenet_model
               (sample_world white_pixels
                  (Some (Exn OtherException "out of memory")) (inr []) seconds)
               new_loader start))
  /\ model_status
       (snd (fst (load_mobilenet_model
                    (sample_world white_pixels
                       (Some (Exn OtherException "out of memory")) (inr []) seconds)
                    new_loader start)))
     !! "mobilenet"
     = Some (Status false (Some "out of memory") (Some 1%float)).
Proof.
  assert (Hen : is_enabled new_loader "mobilenet") by reflexivity.
  assert (Hclock : clock_advances
                     (sample_world white_pixels
                        (Some (Exn OtherException "out of memory")) (inr []) seconds)
                     start)
    by (repeat split; vm_compute; reflexivity).
  destruct (C7_load_outcome
              (sample_world white_pixels (Some (Exn OtherException "out of memory"))
                 (inr []) seconds) new_loader start)
    as ((Hrecorded & _) & _ & _ & Houtcome).
  split; [split; assumption|]. split; [vm_compute; reflexivity|].
  split; [exact (Hrecorded Hen)|]. split.
  - apply Houtcome; [exact Hclock| |exact Hen].
    intros e [(name & H)|[H|H]]; [discriminate H| |discriminate H].
    injection H as <-. right. discriminate.
  - vm_compute. reflexivity.
Defined.

(** C8, as the specification states it, fails: for an image whose pixels
    have the mean 178.5, which is exactly 70 percent of 255, and the
    standard deviation 80, the debug block of the report says "medium"
    twice, where "at least 70" and "at least 80" give "bright" and
    "high". *)
Lemma C8_counterexample :
  exists results file vis,
    fst (analyze_image
           (sample_world grey_pixels None (inr one_person) seconds)
           "shot.png" "out" true true None start)
    = AnalyzeOk results file vis
    /\ brightness_percent (info_color (details_image (res_image_details results)))
       = Some 70%float
    /\ color_variance (info_color (details_image (res_image_details results)))
       = Some 80%float
    /\ estimated_brightness (debug_colors (res_debug_info results)) = "medium"
    /\ bucket_at_least 70 30 "bright" "medium" "dark" 70 = "bright"
    /\ variance_class (debug_colors (res_debug_info results)) = "medium"
    /\ bucket_at_least 80 40 "high" "medium" "low" 80 = "high".
Proof.
  eexists _, _, _. split; [vm_compute; reflexivity|]. vm_compute. repeat split.
Qed.

(** C8, amended. In every report the debug block classifies the
    brightness as "bright" when the brightness percent is above 70,
    "medium" when it is above 30 and not above 70, and "dark" otherwise;
    and the colour variance as "high" when above 80, "medium" when above
    40 and not above 80, and "low" otherwise; a metric the image details
    lack counts as 50. *)
Theorem C8_debug_buckets w p out gv mock mp rt results file vis :
  fst (analyze_image w p out gv mock mp rt) = AnalyzeOk results file vis ->
  let colors := info_color (details_image (res_image_details results)) in
  let debug := debug_colors (res_debug_info results) in
  estimated_brightness debug
  = bucket_above 70 30 "bright" "medium" "dark"
      (default 50%float (brightness_percent colors))
  /\ variance_class debug
     = bucket_above 80 40 "high" "medium" "low"
         (default 50%float (color_variance colors)).
Proof.
  intros Hok.
  apply analyze_image_ok in Hok as (details & a & used & rt1 & _ & _ & -> & _ & ->).
  split; reflexivity.
Qed.

(** A white image: brightness 100 percent, no variance. *)
Lemma C8_debug_buckets_witness :
  exists results file vis,
    fst (analyze_image calm_world "shot.png" "out" true true None start)
    = AnalyzeOk results file vis
    /\ estimated_brightness (debug_colors (res_debug_info results)) = "bright"
    /\ variance_class (debug_colors (res_debug_info results)) = "low".
Proof.
  eexists _, _, _. split; [vm_compute; reflexivity|].
  eapply (C8_debug_buckets calm_world "shot.png" "out" true true None start).
  vm_compute. reflexivity.
Defined.

(** C9. The mock analysis is a function of the width and the height
    alone: two calls whose image details have the same width and the same
    height return the same result (objects, boxes, confidences, OCR block,
    description and tags), or raise the same exception. *)
Theorem C9_mock_deterministic (path1 path2 : string) (d1 d2 : image_details) :
  width (details_image d1) = width (details_image d2) ->
  height (details_image d1) = height (details_image d2) ->
  generate_mock_analysis_results path1 d1 = generate_mock_analysis_results path2 d2.
Proof.
  intros Hw Hh. unfold generate_mock_analysis_results. rewrite Hw, Hh. reflexivity.
Qed.

(** Two files of 640 by 480 pixels, one in colour and one in grey. *)
Lemma C9_mock_deterministic_witness :
  generate_mock_analysis_results "a.png" (sample_details "a.png" 640 480 sample_colors)
  = generate_mock_analysis_results "b.png"
      (sample_details "b.png" 640 480
         (ColorInfo "L" false true false None None None None None)).
Proof. apply C9_mock_deterministic; reflexivity. Defined.

(** C10, as the specification states it, fails: without the detection
    package, an analysis asked for in real mode returns a report that is
    labelled "yolo_analysis", with [mock_data] false, and whose OCR block
    is marked as detected, with two regions that the renderer draws. *)
Lemma C10_counterexample :
  exists results file vis,
    fst (analyze_image (installed true true false) "shot.png" "out" true false None
           start)
    = AnalyzeOk results file vis
    /\ meta_mode (res_metadata results) = "yolo_analysis"
    /\ mock_data (res_debug_info results) = false
    /\ detected (ocr (analysis results)) = true
    /\ length (regions (ocr (analysis results))) = 2%nat
    /\ ocr (analysis results) <> no_ocr
    /\ draw_ocr (analysis results) <> [].
Proof.
  eexists _, _, _. split; [vm_compute; reflexivity|].
  repeat split; try reflexivity; vm_compute; discriminate.
Qed.

(** C10, amended. The analysis built from any detection result has the
    OCR block [{detected: false, text: "", regions: []}]; so has every
    report of an analysis in real mode when the detection package is
    installed; and the renderer, given a report with such an analysis,
    saves a drawing made of the boxes of the objects and the two panels
    only, or saves nothing. When the detection package is not installed,
    a report of an analysis in real mode carries the mock analysis, which
    is not built from a detection result: its OCR block is marked as
    detected and has two regions, and the renderer has OCR overlays to
    draw. *)
Theorem C10_real_mode_ocr :
  (forall path details detection,
     let a := build_analysis_results path details detection in
     ocr a = no_ocr /\ draw_ocr a = [])
  /\ (forall w p out gv mp rt results file vis,
        YOLO_AVAILABLE w = true ->
        fst (analyze_image w p out gv false mp rt) = AnalyzeOk results file vis ->
        ocr (analysis results) = no_ocr
        /\ detected (ocr (analysis results)) = false
        /\ draw_ocr (analysis results) = [])
  /\ (forall w image_path out rt meta about debug perf stamp path details detection,
        let r :=
          FullResults meta about
            (build_analysis_results path details detection) debug perf stamp in
        let after := trace (snd (generate_visual_feedback w image_path r out rt)) in
        after = trace rt
        \/ exists now name img,
             after
             = EvImageSave out
                 (draw_objects (analysis r) ++ draw_info now name img r
                  ++ draw_summary img r)
               :: trace rt)
  /\ (forall w p out gv mp rt results file vis,
        YOLO_AVAILABLE w = false ->
        fst (analyze_image w p out gv false mp rt) = AnalyzeOk results file vis ->
        generate_mock_analysis_results p (res_image_details results)
        = inr (analysis results)
        /\ detected (ocr (analysis results)) = true
        /\ length (regions (ocr (analysis results))) = 2%nat
        /\ draw_ocr (analysis results) <> []).
Proof.
  split; [|split; [|split]].
  - intros path details detection a. split; reflexivity.
  - intros w p out gv mp rt results file vis Hyolo Hok.
    apply analyze_image_ok in Hok as (details & a & used & rt1 & _ & Hrun & _ & -> & _).
    apply run_analysis_real in Hrun as [detection ->]; [|exact Hyolo].
    repeat split.
  - intros w image_path out rt meta about debug perf stamp path details detection r after.
    subst after. unfold generate_visual_feedback.
    destruct (PIL_AVAILABLE w); cbn [negb]; [|left; reflexivity].
    destruct (image_open w image_path) as [e|img]; [left; reflexivity|].
    rewrite bind_tick.
    destruct (image_save w out) as [e|]; [left; reflexivity|].
    right. eexists _, _, img. reflexivity.
  - intros w p out gv mp rt results file vis Hyolo Hok.
    pose proof (analyze_image_fallback _ _ _ _ _ _ _ _ _ Hyolo Hok) as Hmock.
    split; [exact Hmock|].
    apply mock_results_inv in Hmock as (_ & _ & Hdetected & Htexts & _).
    split; [exact Hdetected|].
    assert (Hlen : length (regions (ocr (analysis results))) = 2%nat).
    { rewrite <- (length_map region_text), Htexts. reflexivity. }
    split; [exact Hlen|].
    unfold draw_ocr. rewrite Hdetected.
    destruct (regions (ocr (analysis results))) as [|region others];
      [discriminate Hlen|].
    cbn [map concat]. unfold draw_region at 1. destruct (region_bbox region).
    discriminate.
Qed.

(** A real-mode analysis that detects one person. *)
Lemma C10_real_mode_ocr_witness :
  exists results file vis,
    (YOLO_AVAILABLE calm_world = true
     /\ fst (analyze_image calm_world "shot.png" "out" true false None start)
        = AnalyzeOk results file vis)
    /\ map label (objects (analysis results)) = ["person"]
    /\ ocr (analysis results) = no_ocr
    /\ detected (ocr (analysis results)) = false
    /\ draw_ocr (analysis results) = [].
Proof.
  eexists _, _, _. split; [split; [reflexivity|vm_compute; reflexivity]|].
  split; [reflexivity|].
  eapply (proj1 (proj2 C10_real_mode_ocr) calm_world "shot.png" "out" true None start);
    [reflexivity|vm_compute; reflexivity].
Defined.

(** * More properties of the code *)

(** ** The files a run writes *)

Lemma generate_visual_feedback_outcome w p r file rt :
  match fst (generate_visual_feedback w p r file rt) with
  | inr png =>
      png = file
      /\ exists drawing,
           trace (snd (generate_visual_feedback w p r file rt))
           = EvImageSave file drawing :: trace rt
  | inl e =>
      trace (snd (generate_visual_feedback w p r file rt)) = trace rt
      /\ exn_class_of e = ImageAnalysisError
      /\ (PIL_AVAILABLE w = false
          \/ exists cause,
               str e = "視覚的フィードバックの生成に失敗しました: " +:+ str cause)
  end.
Proof.
  unfold generate_visual_feedback.
  destruct (PIL_AVAILABLE w); cbn [negb]; [|repeat split; left; reflexivity].
  destruct (image_open w p) as [e|img];
    [repeat split; right; exists e; reflexivity|].
  rewrite bind_tick. destruct (image_save w file) as [e|].
  - repeat split. right. exists e. reflexivity.
  - split; [reflexivity|]. eexists. reflexivity.
Qed.

Lemma get_image_details_needs_PIL w p d :
  get_image_details w p = inr d -> PIL_AVAILABLE w = true.
Proof.
  unfold get_image_details. destruct (PIL_AVAILABLE w); [reflexivity|discriminate].
Qed.

Lemma run_analysis_touched w p mock mp details rt :
  files_touched (snd (run_analysis w p mock mp details rt)) = files_touched rt.
Proof.
  unfold run_analysis. destruct mock; [reflexivity|].
  destruct (YOLO_AVAILABLE w) eqn:Hyolo; [|reflexivity].
  unfold bind, YOLOModel_detect, YOLOModel_load, YOLOModel_init, bind, ret, emit.
  cbn [is_loaded negb fst snd]. rewrite Hyolo. cbn [negb fst snd].
  destruct (YOLO w _); cbn [fst snd negb is_loaded]; [reflexivity|].
  destruct (detected_objects _); reflexivity.
Qed.

(** X1. What a run of [analyze_image] does to the files. A successful run
    opened the JSON report it names, wrote it and then, when the visual
    feedback was asked for, saved the image it names, and opened or saved
    no other file; without the visual feedback it wrote the report alone.
    A failed run is one of three: it opened no file for writing and saved
    none; or it opened the report, which creates the file or empties it,
    and the dump raised, so that the file stays behind with what was
    written of it; or, the visual feedback being asked for, the report
    was written in full and the generation of the feedback failed, and
    the error returned is the one of the feedback. *)
Theorem X1_analyze_image_files w p out gv mock mp rt :
  let run := analyze_image w p out gv mock mp rt in
  match fst run with
  | AnalyzeOk results file visual =>
      open_write w file = None
      /\ json_dump w file results = None
      /\ match visual with
         | None =>
             gv = false
             /\ files_touched (snd run)
                = EvJsonDump file :: EvOpen file :: files_touched rt
         | Some png =>
             gv = true
             /\ exists drawing,
                  files_touched (snd run)
                  = EvImageSave png drawing :: EvJsonDump file :: EvOpen file
                    :: files_touched rt
         end
  | AnalyzeFailed error =>
      files_touched (snd run) = files_touched rt
      \/ (exists file results cause,
            open_write w file = None
            /\ json_dump w file results = Some cause
            /\ error = str cause
            /\ files_touched (snd run) = EvOpen file :: files_touched rt)
      \/ (gv = true
          /\ exists file cause,
               files_touched (snd run)
               = EvJsonDump file :: EvOpen file :: files_touched rt
               /\ error = "視覚的フィードバックの生成に失敗しました: " +:+ str cause)
  end.
Proof.
  intros run. subst run.
  destruct (analyze_image w p out gv mock mp rt) as [outcome rt'] eqn:Hrun.
  cbn [fst snd]. unfold analyze_image in Hrun. rewrite bind_tick in Hrun.
  destruct (ensure_output_dir w out); [injection Hrun as <- <-; left; reflexivity|].
  destruct (get_image_details w p) as [e|details] eqn:Hdetails;
    [injection Hrun as <- <-; left; reflexivity|].
  apply get_image_details_needs_PIL in Hdetails.
  unfold bind at 1 in Hrun.
  pose proof (run_analysis_touched w p mock mp details
                (Runtime (S (clock_reads rt)) (trace rt))) as Hf.
  destruct (run_analysis w p mock mp details _) as [[e|[a used]] rt1];
    cbn [snd] in Hf; [injection Hrun as <- <-; left; exact Hf|].
  rewrite !bind_tick in Hrun.
  destruct (open_write w _) as [e|] eqn:Hopen;
    [injection Hrun as <- <-; left; exact Hf|].
  rewrite bind_emit in Hrun.
  destruct (json_dump w _ _) as [e|] eqn:Hdump.
  { injection Hrun as <- <-. right. left. eexists _, _, e.
    split; [exact Hopen|]. split; [exact Hdump|]. split; [reflexivity|].
    unfold files_touched. cbn [trace List.filter touches_file]. f_equal. exact Hf. }
  rewrite bind_emit in Hrun. destruct gv.
  - unfold bind at 1 in Hrun.
    match type of Hrun with context [generate_visual_feedback w p ?r ?f ?rt2] =>
      pose proof (generate_visual_feedback_outcome w p r f rt2) as Hv;
      destruct (generate_visual_feedback w p r f rt2) as [[e|png] rt3] end;
      cbn [fst snd] in Hv; injection Hrun as <- <-.
    + right. right. split; [reflexivity|].
      destruct Hv as (Ht & _ & [Hpil|(cause & Hcause)]); [congruence|].
      eexists _, cause. split; [|exact Hcause].
      unfold files_touched. rewrite Ht. cbn [trace List.filter touches_file].
      f_equal. f_equal. exact Hf.
    + destruct Hv as [-> [drawing Ht]].
      split; [exact Hopen|]. split; [exact Hdump|]. split; [reflexivity|].
      exists drawing. unfold files_touched. rewrite Ht.
      cbn [trace List.filter touches_file]. f_equal. f_equal. f_equal. exact Hf.
  - injection Hrun as <- <-.
    split; [exact Hopen|]. split; [exact Hdump|]. split; [reflexivity|].
    unfold files_touched. cbn [trace List.filter touches_file]. f_equal. f_equal.
    exact Hf.
Qed.

Lemma ensure_dir_frame d dir rt :
  files_written (snd (Screenshot.ensure_dir d dir rt)) = files_written rt
  /\ match fst (Screenshot.ensure_dir d dir rt) with
     | inr path => path = dir
     | inl _ => True
     end.
Proof.
  unfold Screenshot.ensure_dir. destruct (path_exists d dir); cbn [negb].
  - split; reflexivity.
  - rewrite bind_emit. destruct (mkdir d dir); split; reflexivity.
Qed.

(** ** The details of an image and the report made of them *)

Lemma truediv_raises a b e :
  Py.truediv a b = inl e ->
  (b = 0 /\ exn_class_of e = ZeroDivisionError)
  \/ (b <> 0 /\ exn_class_of e = OverflowError).
Proof.
  unfold Py.truediv. destruct (Z.eqb_spec b 0) as [->|Hb].
  - intros [= <-]. left. split; reflexivity.
  - destruct (is_infinity _); [|discriminate]. intros [= <-]. right. split; [exact Hb|reflexivity].
Qed.

(** The exception wraps a cause that comes after the file was read and
    the image opened. *)
Local Ltac late_cause st img :=
  split; [reflexivity|]; right; eexists;
  split; [reflexivity|]; split; [reflexivity|];
  right; right; exists st, img;
  split; [reflexivity|]; split; [reflexivity|].

(** X2. What [get_image_details] raises. Every exception that leaves it
    is an [ImageAnalysisError]: the one that asks for Pillow when Pillow
    is missing, or, with Pillow, one that carries the text of its cause
    behind a fixed prefix. The cause is what reading the status of the
    file raised; or, the status read, what opening the image raised; or,
    both done, what one of these raised: making the path absolute,
    turning the time of creation or the time of modification of the file
    into a date, or one of the three divisions, which raise nothing but
    an [OverflowError]: the size by 1024, the size by 1024 * 1024, the
    width by the height. *)
Theorem X2_get_image_details_raises w p e :
  get_image_details w p = inl e ->
  exn_class_of e = ImageAnalysisError
  /\ ((PIL_AVAILABLE w = false
       /\ str e = "PIL (Pillow) ライブラリがインストールされていません。'pip install pillow' を実行してください。")
      \/ exists cause,
           PIL_AVAILABLE w = true
           /\ str e = "画像の詳細情報取得に失敗しました: " +:+ str cause
           /\ (stat_file w p = inl cause
               \/ (exists st, stat_file w p = inr st /\ image_open w p = inl cause)
               \/ exists st img,
                    stat_file w p = inr st /\ image_open w p = inr img
                    /\ (path_absolute w p = inl cause
                        \/ fromtimestamp w (st_ctime st) = inl cause
                        \/ fromtimestamp w (st_mtime st) = inl cause
                        \/ (exn_class_of cause = OverflowError
                            /\ (Py.truediv (st_size st) 1024 = inl cause
                                \/ Py.truediv (st_size st) (1024 * 1024) = inl cause
                                \/ Py.truediv (img_width img) (img_height img)
                                   = inl cause))))).
Proof.
  unfold get_image_details. destruct (PIL_AVAILABLE w); cbn [negb].
  2:{ intros [= <-]. split; [reflexivity|]. left. split; reflexivity. }
  intros H. simpl in H.
  destruct (stat_file w p) as [c|st]; simpl in H.
  { injection H as <-. split; [reflexivity|]. right. exists c.
    split; [reflexivity|]. split; [reflexivity|]. now left. }
  destruct (image_open w p) as [c|img]; simpl in H.
  { injection H as <-. split; [reflexivity|]. right. exists c.
    split; [reflexivity|]. split; [reflexivity|]. right. left. exists st.
    split; reflexivity. }
  destruct (path_absolute w p) as [c|absolute] eqn:Habs; simpl in H.
  { injection H as <-. late_cause st img. now left. }
  destruct (Py.truediv (st_size st) 1024) as [c|kb] eqn:Hkb; simpl in H.
  { injection H as <-. late_cause st img. right. right. right. split; [|now left].
    apply truediv_raises in Hkb as [[? _]|[_ ?]]; [discriminate|assumption]. }
  destruct (Py.truediv (st_size st) (1024 * 1024)) as [c|mb] eqn:Hmb; simpl in H.
  { injection H as <-. late_cause st img. right. right. right.
    split; [|right; now left].
    apply truediv_raises in Hmb as [[? _]|[_ ?]]; [discriminate|assumption]. }
  destruct (fromtimestamp w (st_ctime st)) as [c|created] eqn:Hct; simpl in H.
  { injection H as <-. late_cause st img. right. now left. }
  destruct (fromtimestamp w (st_mtime st)) as [c|modified] eqn:Hmt; simpl in H.
  { injection H as <-. late_cause st img. right. right. now left. }
  destruct (if img_height img >? 0 then _ else _) as [c|ratio] eqn:Hr; simpl in H;
    [|discriminate].
  injection H as <-. late_cause st img. right. right. right.
  destruct (Z.gtb_spec (img_height img) 0) as [Hpos|_]; [|discriminate].
  split; [|right; right; exact Hr].
  apply truediv_raises in Hr as [[? _]|[_ ?]]; [lia|assumption].
Qed.

(** A file whose time of modification is in the year 10000: the date
    cannot be made, and the error carries the text of the [ValueError]. *)
Lemma X2_get_image_details_raises_witness :
  exists e,
    get_image_details far_future "shot.png" = inl e
    /\ exn_class_of e = ImageAnalysisError
    /\ str e = "画像の詳細情報取得に失敗しました: year 10000 is out of range".
Proof.
  eexists. split; [vm_compute; reflexivity|]. split; [|reflexivity].
  apply (X2_get_image_details_raises far_future "shot.png").
  vm_compute. reflexivity.
Defined.

Lemma get_image_details_inv w p d :
  get_image_details w p = inr d ->
  exists st img,
    stat_file w p = inr st /\ image_open w p = inr img
    /\ width (details_image d) = img_width img
    /\ height (details_image d) = img_height img
    /\ resolution (details_image d)
       = Py.str_of_int (img_width img) +:+ "x" +:+ Py.str_of_int (img_height img)
    /\ orientation (details_image d)
       = (if img_height img >? img_width img then "portrait"
          else if img_width img >? img_height img then "landscape" else "square")
    /\ is_portrait (details_image d) = (img_height img >? img_width img)
    /\ is_landscape (details_image d) = (img_width img >=? img_height img)
    /\ info_color (details_image d)
       = (if NUMPY_AVAILABLE w && is_rgb (mode_colors (img_mode img)) then
            match pixel_statistics w p with
            | inr stats => with_pixel_stats (mode_colors (img_mode img)) stats
            | inl _ => mode_colors (img_mode img)
            end
          else mode_colors (img_mode img)).
Proof.
  unfold get_image_details. destruct (PIL_AVAILABLE w); [|discriminate].
  cbn [negb]. intros H. simpl in H.
  destruct (stat_file w p) as [e|st]; simpl in H; [discriminate|].
  destruct (image_open w p) as [e|img]; simpl in H; [discriminate|].
  destruct (path_absolute w p) as [e|absolute]; simpl in H; [discriminate|].
  destruct (Py.truediv (st_size st) 1024) as [e|kb]; simpl in H; [discriminate|].
  destruct (Py.truediv (st_size st) (1024 * 1024)) as [e|mb]; simpl in H;
    [discriminate|].
  destruct (fromtimestamp w (st_ctime st)) as [e|created]; simpl in H;
    [discriminate|].
  destruct (fromtimestamp w (st_mtime st)) as [e|modified]; simpl in H;
    [discriminate|].
  destruct (if img_height img >? 0 then _ else _) as [e|ratio] eqn:Hratio;
    simpl in H; [discriminate|].
  injection H as <-. exists st, img. simpl. repeat split; reflexivity.
Qed.

(** X3. The orientation fields of the image details. [is_portrait] is the
    negation of [is_landscape]; the orientation is "portrait",
    "landscape" or "square" as the width is below, above or equal to the
    height; a square image has [is_landscape] true although its
    orientation is not "landscape"; an image whose height is 0 or less
    has the aspect ratio 0 and the aspect-ratio name "0.00:1". *)
Theorem X3_image_orientation w p d :
  get_image_details w p = inr d ->
  let info := details_image d in
  is_portrait info = negb (is_landscape info)
  /\ (orientation info = "portrait" <-> width info < height info)
  /\ (orientation info = "landscape" <-> height info < width info)
  /\ (orientation info = "square" <-> width info = height info)
  /\ (width info = height info ->
      is_landscape info = true /\ is_portrait info = false)
  /\ (height info <= 0 ->
      aspect_ratio info = 0%float /\ aspect_ratio_name info = "0.00:1").
Proof.
  intros H info.
  pose proof (image_details_ratio w p d H) as [Hname Hratio].
  apply get_image_details_inv in H as (st & img & _ & _ & Hw & Hh & _ & Ho & Hp & Hl & _).
  subst info. cbv zeta in Hname, Hratio. rewrite Hw, Hh in *. rewrite Ho, Hp, Hl, Hname.
  clear Ho Hp Hl Hname Hw Hh.
  assert (Hzero : img_height img <= 0 ->
                  aspect_ratio (details_image d) = 0%float
                  /\ get_aspect_ratio_name (aspect_ratio (details_image d)) = "0.00:1").
  { intros Hle. destruct (Z.gtb_spec (img_height img) 0); [lia|].
    injection Hratio as <-. split; [reflexivity|vm_compute; reflexivity]. }
  destruct (Z.gtb_spec (img_height img) (img_width img)),
           (Z.gtb_spec (img_width img) (img_height img)),
           (Z.geb_spec (img_width img) (img_height img)); try lia.
  all: repeat split; try discriminate; try reflexivity; try lia; try apply Hzero; try assumption.
Qed.

(** The 640 by 480 image of the calm world. *)
Lemma X3_image_orientation_witness :
  exists d,
    get_image_details calm_world "shot.png" = inr d
    /\ is_portrait (details_image d) = negb (is_landscape (details_image d)).
Proof.
  eexists. split; [vm_compute; reflexivity|].
  destruct (X3_image_orientation calm_world "shot.png" _ ltac:(vm_compute; reflexivity))
    as [Hportrait _].
  exact Hportrait.
Defined.

(** X4. The debug block of an image without pixel statistics. When NumPy
    is missing, when the statistics fail, or when the mode of the image
    is neither RGB nor RGBA, a successful [analyze_image] reports details
    without brightness, variance and average colour, and its debug block
    says brightness "medium", dominant colour "#ffffff" and variance
    "medium". *)
Theorem X4_debug_defaults_without_statistics w p out gv mock mp rt results file vis :
  fst (analyze_image w p out gv mock mp rt) = AnalyzeOk results file vis ->
  (NUMPY_AVAILABLE w = false
   \/ (exists e, pixel_statistics w p = inl e)
   \/ (exists img, image_open w p = inr img
                   /\ img_mode img <> "RGB" /\ img_mode img <> "RGBA")) ->
  let colors := info_color (details_image (res_image_details results)) in
  brightness_percent colors = None
  /\ color_variance colors = None
  /\ avg_color_hex colors = None
  /\ debug_colors (res_debug_info results)
     = {| estimated_brightness := "medium";
          dominant_colors := ["#ffffff"];
          variance_class := "medium" |}.
Proof.
  intros Hok Hwhy colors. subst colors.
  apply analyze_image_ok in Hok as (details & a & used & rt1 & Hd & _ & -> & _ & ->).
  apply get_image_details_inv in Hd
    as (st & img & _ & Himg & _ & _ & _ & _ & _ & _ & Hc).
  assert (Hplain : info_color (details_image details) = mode_colors (img_mode img)).
  { rewrite Hc. destruct Hwhy as [-> | [[e ->] | (img' & Himg' & Hrgb & Hrgba)]].
    - reflexivity.
    - destruct (_ && _); reflexivity.
    - rewrite Himg in Himg'. injection Himg' as <-.
      replace (is_rgb (mode_colors (img_mode img))) with false.
      + rewrite andb_false_r. reflexivity.
      + simpl. destruct (String.eqb_spec (img_mode img) "RGB"); [contradiction|].
        destruct (String.eqb_spec (img_mode img) "RGBA"); [contradiction|]. reflexivity. }
  unfold make_debug_info, classify_brightness, classify_variance.
  rewrite Hplain. repeat split.
Qed.

(** NumPy is not installed. *)
Lemma X4_debug_defaults_without_statistics_witness :
  exists results file vis,
    fst (analyze_image (installed true false true) "shot.png" "out" true true None start)
    = AnalyzeOk results file vis
    /\ brightness_percent (info_color (details_image (res_image_details results)))
       = None.
Proof.
  eexists _, _, _. split; [vm_compute; reflexivity|].
  eapply (X4_debug_defaults_without_statistics (installed true false true)
            "shot.png" "out" true true None start).
  - vm_compute. reflexivity.
  - left. reflexivity.
Defined.

(** X5. What a report says about the origin of its analysis. The mode of
    the metadata is "mock_analysis" in mock mode and "yolo_analysis"
    otherwise, [mock_data] repeats the flag, and [model_used] is absent
    in mock mode, "yolov8" in real mode with the YOLO package and "mock
    (YOLO unavailable)" in real mode without it. In mock mode and in real
    mode without the package the analysis is the mock analysis of the
    image details: without the package a report of mode "yolo_analysis"
    with [mock_data] false carries mock data. *)
Theorem X5_report_provenance w p out gv mock mp rt results file vis :
  fst (analyze_image w p out gv mock mp rt) = AnalyzeOk results file vis ->
  let meta := res_metadata results in
  let debug := res_debug_info results in
  meta_image_path meta = p
  /\ meta_mode meta = (if mock then "mock_analysis" else "yolo_analysis")
  /\ mock_data debug = mock
  /\ model_used debug
     = (if mock then None
        else Some (if YOLO_AVAILABLE w then "yolov8" else "mock (YOLO unavailable)"))
  /\ (mock = true \/ YOLO_AVAILABLE w = false ->
      generate_mock_analysis_results p (res_image_details results)
      = inr (analysis results)).
Proof.
  unfold analyze_image. rewrite bind_tick.
  destruct (ensure_output_dir w out); [discriminate|].
  destruct (get_image_details w p) as [e|details]; [discriminate|].
  unfold bind at 1.
  destruct (run_analysis w p mock mp details _) as [[e|[a used]] rt1] eqn:Hrun;
    [discriminate|].
  rewrite !bind_tick. destruct (open_write w _); [discriminate|].
  rewrite bind_emit. destruct (json_dump w _ _); [discriminate|].
  rewrite bind_emit.
  assert (Hres : forall r : full_results,
    r = {| res_metadata :=
             {| version := "1.0.0";
                meta_mode := if mock then "mock_analysis" else "yolo_analysis";
                meta_image_path := p |};
           res_image_details := details;
           analysis := a;
           res_debug_info := make_debug_info mock used details;
           res_performance := res_performance r;
           timestamp := timestamp r |} ->
    meta_image_path (res_metadata r) = p
    /\ meta_mode (res_metadata r) = (if mock then "mock_analysis" else "yolo_analysis")
    /\ mock_data (res_debug_info r) = mock
    /\ model_used (res_debug_info r)
       = (if mock then None
          else Some (if YOLO_AVAILABLE w then "yolov8" else "mock (YOLO unavailable)"))
    /\ (mock = true \/ YOLO_AVAILABLE w = false ->
        generate_mock_analysis_results p (res_image_details r) = inr (analysis r))).
  { intros r ->. cbn [res_metadata meta_image_path meta_mode res_debug_info
                      res_image_details analysis make_debug_info mock_data model_used].
    split; [reflexivity|]. split; [reflexivity|]. split; [reflexivity|].
    unfold run_analysis in Hrun. destruct mock.
    - split; [reflexivity|]. intros _.
      destruct (generate_mock_analysis_results p details); [discriminate|].
      injection Hrun as <- _ _. reflexivity.
    - destruct (YOLO_AVAILABLE w).
      + unfold bind in Hrun. destruct (YOLOModel_detect w _ p _) as [[dr self] rt2].
        injection Hrun as _ <- _. split; [reflexivity|]. intros [?|?]; discriminate.
      + destruct (generate_mock_analysis_results p details); [discriminate|].
        injection Hrun as <- <- _. split; [reflexivity|]. reflexivity. }
  destruct gv.
  - unfold bind at 1.
    destruct (generate_visual_feedback w p _ _ _) as [[e|png] rt3]; [discriminate|].
    cbn [fst ret]. intros [= <- _ _]. apply Hres. reflexivity.
  - cbn [fst ret]. intros [= <- _ _]. apply Hres. reflexivity.
Qed.

(** Real mode without the YOLO package. *)
Lemma X5_report_provenance_witness :
  exists results file vis,
    fst (analyze_image (installed true true false) "shot.png" "out" false false None start)
    = AnalyzeOk results file vis
    /\ meta_mode (res_metadata results) = "yolo_analysis"
    /\ mock_data (res_debug_info results) = false
    /\ model_used (res_debug_info results) = Some "mock (YOLO unavailable)".
Proof.
  eexists _, _, _. split; [vm_compute; reflexivity|].
  destruct (X5_report_provenance (installed true true false) "shot.png" "out" false false
              None start _ _ _ ltac:(vm_compute; reflexivity))
    as (_ & Hmode & Hmock & Hused & _).
  split; [exact Hmode|]. split; [exact Hmock|exact Hused].
Defined.

(** ** The description of the detected objects *)

Lemma count_label_keys counts l :
  map fst (count_label counts l)
  = if bool_decide (l ∈ map fst counts) then map fst counts else map fst counts ++ [l].
Proof.
  induction counts as [|[l' n] rest IH]; simpl.
  - reflexivity.
  - destruct (String.eqb_spec l' l) as [->|Hne]; simpl.
    + rewrite bool_decide_eq_true_2 by (apply elem_of_cons; now left). reflexivity.
    + rewrite IH. destruct (bool_decide (l ∈ map fst rest)) eqn:Hin.
      * apply bool_decide_eq_true in Hin.
        rewrite bool_decide_eq_true_2 by (apply elem_of_cons; now right). reflexivity.
      * apply bool_decide_eq_false in Hin.
        rewrite bool_decide_eq_false_2; [reflexivity|].
        intros [H|H]%elem_of_cons; [congruence|contradiction].
Qed.

Lemma count_label_elem counts x l n :
  NoDup (map fst counts) ->
  (l, n) ∈ count_label counts x
  <-> (l <> x /\ (l, n) ∈ counts)
      \/ (l = x /\ ((exists m, (x, m) ∈ counts /\ n = m + 1)
                    \/ ((x ∉ map fst counts) /\ n = 1))).
Proof.
  induction counts as [|[l' k] rest IH]; simpl; intros Hnd.
  - rewrite list_elem_of_singleton. split.
    + intros [= Hl Hn]. subst. right. split; [reflexivity|]. right.
      split; [apply not_elem_of_nil|reflexivity].
    + intros [[_ H]|[Hl [(m & H & _)|[_ Hn]]]]; try (now apply elem_of_nil in H).
      subst. reflexivity.
  - apply NoDup_cons in Hnd as [Hnotin Hnd]. specialize (IH Hnd).
    assert (Hkey : forall m, (l', m) ∈ rest -> False).
    { intros m Hin. apply Hnotin. apply list_elem_of_fmap. exists (l', m). split; [reflexivity|exact Hin]. }
    destruct (String.eqb_spec l' x) as [Heq|Hne].
    + subst l'. rewrite !elem_of_cons. split.
      * intros [Hhd|Hin].
        -- injection Hhd as Hl Hn. subst. right. split; [reflexivity|]. left. exists k.
           split; [apply elem_of_cons; now left|reflexivity].
        -- destruct (decide (l = x)) as [Hlx|Hlx].
           ++ subst. exfalso. eapply Hkey, Hin.
           ++ left. split; [exact Hlx|now right].
      * intros [[Hlx [Hhd|Hin]]|[Hl [(m & Hm & Hn)|[Hno _]]]].
        -- injection Hhd as Hl Hn. congruence.
        -- now right.
        -- apply elem_of_cons in Hm as [Hhd|Hin].
           ++ injection Hhd as Hm. subst. now left.
           ++ exfalso. eapply Hkey, Hin.
        -- exfalso. apply Hno. rewrite ?elem_of_cons. now left.
    + rewrite !elem_of_cons, IH. split.
      * intros [Hhd|[[Hlx Hin]|[Hl [(m & Hin & Hn)|[Hno Hn]]]]].
        -- injection Hhd as Hl Hn. subst. left. split; [exact Hne|now left].
        -- left. split; [exact Hlx|now right].
        -- right. split; [exact Hl|]. left. exists m. split; [apply elem_of_cons; now right|exact Hn].
        -- right. split; [exact Hl|]. right. split; [|exact Hn].
           intros H. rewrite ?elem_of_cons in H. destruct H as [H|H]; [congruence|contradiction].
      * intros [[Hlx [Hhd|Hin]]|[Hl [(m & Hm & Hn)|[Hno Hn]]]].
        -- now left.
        -- right. left. split; assumption.
        -- apply elem_of_cons in Hm as [Hhd|Hin].
           ++ injection Hhd as Hx Hm. congruence.
           ++ right. right. split; [exact Hl|]. left. exists m. split; [exact Hin|exact Hn].
        -- right. right. split; [exact Hl|]. right. split; [|exact Hn].
           intros H. apply Hno. rewrite ?elem_of_cons. now right.
Qed.

Lemma occurrences_snoc l objs obj :
  occurrences l (objs ++ [obj])
  = occurrences l objs + (if decide (label obj = l) then 1 else 0).
Proof.
  unfold occurrences. rewrite filter_app, length_app. simpl.
  rewrite filter_cons, filter_nil. destruct (decide (label obj = l)); simpl; lia.
Qed.

Lemma occurrences_pos l objs : 1 <= occurrences l objs <-> l ∈ map label objs.
Proof.
  unfold occurrences. induction objs as [|obj objs IH].
  - simpl. split; [lia|intros H; now apply elem_of_nil in H].
  - rewrite filter_cons. change (map label (obj :: objs)) with (label obj :: map label objs).
    rewrite elem_of_cons. destruct (decide (label obj = l)) as [Heq|Hne].
    + split; [now left|]. intros _. simpl length. lia.
    + rewrite IH. split; [now right|]. intros [H|H]; [congruence|exact H].
Qed.

Lemma elem_of_first_appearances l labels :
  l ∈ first_appearances labels <-> l ∈ labels.
Proof.
  unfold first_appearances.
  rewrite elem_of_reverse, elem_of_remove_dups, elem_of_reverse. reflexivity.
Qed.

Lemma first_appearances_snoc labels l :
  first_appearances (labels ++ [l])
  = if bool_decide (l ∈ first_appearances labels) then first_appearances labels
    else first_appearances labels ++ [l].
Proof.
  pose proof (elem_of_first_appearances l labels) as Hiff.
  unfold first_appearances in *. rewrite reverse_snoc. simpl.
  destruct (decide_rel elem_of l (reverse labels)) as [Hin|Hnin].
  - rewrite bool_decide_eq_true_2; [reflexivity|].
    apply Hiff, elem_of_reverse, Hin.
  - rewrite bool_decide_eq_false_2; [apply reverse_cons|].
    intros H. apply Hnin, elem_of_reverse, Hiff, H.
Qed.

Lemma NoDup_first_appearances labels : NoDup (first_appearances labels).
Proof.
  unfold first_appearances. rewrite reverse_Permutation. apply NoDup_remove_dups.
Qed.

Lemma object_counts_spec objs :
  map fst (object_counts objs) = first_appearances (map label objs)
  /\ forall l n, (l, n) ∈ object_counts objs <-> 1 <= n /\ n = occurrences l objs.
Proof.
  unfold object_counts. induction objs as [|obj objs [IHk IHc]] using rev_ind.
  - simpl. split; [reflexivity|]. intros l n. split.
    + intros H. now apply elem_of_nil in H.
    + unfold occurrences. rewrite filter_nil. simpl. lia.
  - rewrite fold_left_app. simpl.
    set (counts := fold_left _ objs []) in *.
    assert (Hnd : NoDup (map fst counts)) by (rewrite IHk; apply NoDup_first_appearances).
    split.
    + rewrite count_label_keys, map_app. change (map label [obj]) with [label obj].
      rewrite first_appearances_snoc, IHk. reflexivity.
    + intros l n. rewrite count_label_elem by exact Hnd.
      rewrite occurrences_snoc, !IHc.
      assert (Hkeys : label obj ∈ map fst counts <-> 1 <= occurrences (label obj) objs).
      { rewrite IHk, elem_of_first_appearances. symmetry. apply occurrences_pos. }
      destruct (decide (label obj = l)) as [<-|Hne].
      * split.
        -- intros [[Hl _]|[_ [(m & Hm & ->)|[Hno ->]]]]; [congruence| |].
           ++ apply IHc in Hm. lia.
           ++ rewrite Hkeys in Hno. pose proof (Nat2Z.is_nonneg (length (filter (fun o => label o = label obj) objs))).
              unfold occurrences in *. lia.
        -- intros [Hn ->]. right. split; [reflexivity|].
           destruct (Z.le_gt_cases 1 (occurrences (label obj) objs)) as [Hpos|Hzero].
           ++ left. exists (occurrences (label obj) objs). split; [|reflexivity].
              apply IHc. split; [exact Hpos|reflexivity].
           ++ right. rewrite Hkeys. split; [lia|].
              unfold occurrences in *. lia.
      * split.
        -- intros [[_ Hin]|[Hl _]]; [|congruence]. rewrite Z.add_0_r. exact Hin.
        -- rewrite Z.add_0_r. intros H. left. split; [congruence|exact H].
Qed.

Lemma object_counts_eq objs :
  object_counts objs
  = map (fun l => (l, occurrences l objs)) (first_appearances (map label objs)).
Proof.
  destruct (object_counts_spec objs) as [Hkeys Hcounts].
  rewrite <- Hkeys, map_map.
  assert (Hall : Forall (fun e => e = (fst e, occurrences (fst e) objs)) (object_counts objs)).
  { apply Forall_forall. intros [l n] Hin. apply Hcounts in Hin as [_ ->]. reflexivity. }
  clear Hkeys Hcounts.
  induction Hall as [|e rest He _ IH]; [reflexivity|].
  cbn [map]. f_equal; [exact He|exact IH].
Qed.

(** X6. The description [build_analysis_results] writes. It names every
    label of the detected objects once, in the order in which the labels
    first appear among the objects, each with the number of objects that
    carry it, which is at least one; the tags are these labels, in some
    order; the objects are those of the detection. *)
Theorem X6_description_counts_each_label p details detection :
  let r := build_analysis_results p details detection in
  let objs := default [] (det_objects detection) in
  let named := first_appearances (map label objs) in
  description r = describe (map (fun l => (l, occurrences l objs)) named)
  /\ (forall l, l ∈ named -> 1 <= occurrences l objs)
  /\ tags r ≡ₚ named
  /\ objects r = objs.
Proof.
  intros r objs named. subst r named. split; [|split; [|split]].
  - rewrite <- object_counts_eq. unfold build_analysis_results, describe, object_counts.
    cbn [description]. fold objs.
    destruct (fold_left _ objs []) as [|entry rest]; reflexivity.
  - intros l Hin. apply occurrences_pos, elem_of_first_appearances, Hin.
  - unfold build_analysis_results. cbn [tags]. fold objs. unfold Py.list_of_set.
    apply NoDup_Permutation.
    + apply NoDup_remove_dups.
    + apply NoDup_first_appearances.
    + intros l. rewrite elem_of_remove_dups, elem_of_first_appearances. reflexivity.
  - reflexivity.
Qed.

(** ** The mock boxes and the edges of the image *)

Lemma pow2_split a b : 0 <= a -> 0 <= b -> 2 ^ (a + b) = 2 ^ a * 2 ^ b.
Proof. intros. apply Z.pow_add_r; assumption. Qed.

(** Rounding to nearest adds at most one part in [2^52] to a number that
    is not in the subnormal range, and does not lower the exponent. *)
Lemma binary_round_aux_le M E m e :
  0 < M -> -1074 <= Zdigits2 M + E - 53 ->
  binary_round_aux prec emax false M E loc_Exact = S754_finite false m e ->
  E <= e
  /\ forall S, 0 <= E + S ->
       Z.pos m * 2 ^ (e + S) * 2 ^ 52 <= M * 2 ^ (E + S) * (2 ^ 52 + 1).
Proof.
  intros HM Hnormal. unfold binary_round_aux.
  destruct (shr_fexp prec emax M E loc_Exact) as [mrs1 e1] eqn:Hs1.
  destruct (shr_fexp_spec M E loc_Exact mrs1 e1 (Z.lt_le_incl _ _ HM) Hs1) as [He1 Hm1].
  set (m' := round_nearest_even (shr_m mrs1) (loc_of_shr_record mrs1)).
  assert (Hfexp : fexp prec emax (Zdigits2 M + E) = Zdigits2 M + E - 53).
  { unfold fexp, SpecFloat.emin, prec, emax. lia. }
  rewrite Hfexp in He1.
  assert (Hpow : 0 < 2 ^ (e1 - E)) by (apply Z.pow_pos_nonneg; lia).
  assert (Hm1' : 0 <= shr_m mrs1) by (rewrite Hm1; apply Z.div_pos; lia).
  pose proof (round_nearest_even_bounds (shr_m mrs1) (loc_of_shr_record mrs1) Hm1') as Hr.
  fold m' in Hr.
  assert (Hround : m' * 2 ^ (e1 - E) * 2 ^ 52 <= M * (2 ^ 52 + 1)).
  { destruct (Z.le_gt_cases (Zdigits2 M) 53) as [Hsmall|Hlarge].
    - (* no shift: the rounding is exact *)
      assert (Hexact : m' = M).
      { unfold m'. unfold shr_fexp, shr in Hs1. rewrite Hfexp in Hs1.
        destruct (Zdigits2 M + E - 53 - E) as [|q|q] eqn:Hq; try lia;
          injection Hs1 as <- _; reflexivity. }
      rewrite Hexact. replace (e1 - E) with 0 by lia. change (2 ^ 0) with 1. lia.
    - assert (He : e1 - E = Zdigits2 M - 53) by lia. rewrite He in *.
      set (k := Zdigits2 M - 53) in *.
      assert (Hd : Zdigits2 M = Z.log2 M + 1) by (apply Zdigits2_log2; lia).
      assert (Hbig : 2 ^ (k + 52) <= M).
      { replace (k + 52) with (Z.log2 M) by (subst k; lia).
        destruct (Z.log2_spec M HM) as [Hlo _]. exact Hlo. }
      rewrite pow2_split in Hbig by lia.
      pose proof (Z.mul_div_le M (2 ^ k) Hpow) as Hdiv.
      rewrite <- Hm1 in Hdiv. nia. }
  assert (Hm'0 : 0 <= m') by lia.
  destruct (shr_fexp prec emax m' e1 loc_Exact) as [mrs2 e2] eqn:Hs2.
  destruct (shr_fexp_spec m' e1 loc_Exact mrs2 e2 Hm'0 Hs2) as [He2 Hm2].
  assert (Hpow2 : 0 < 2 ^ (e2 - e1)) by (apply Z.pow_pos_nonneg; lia).
  destruct (shr_m mrs2) as [|p|p] eqn:Hp; try discriminate.
  destruct (e2 <=? emax - prec); [|discriminate].
  intros [= <- <-]. split; [lia|]. intros S HS.
  pose proof (Z.mul_div_le m' (2 ^ (e2 - e1)) Hpow2) as Hdiv. rewrite <- Hm2 in Hdiv.
  replace (e2 + S) with ((e2 - e1) + ((e1 - E) + (E + S))) by lia.
  rewrite !pow2_split by lia.
  assert (0 < 2 ^ (E + S)) by (apply Z.pow_pos_nonneg; lia).
  assert (0 < 2 ^ 52) by reflexivity.
  assert (Hstep : Z.pos p * 2 ^ (e2 - e1) * 2 ^ (e1 - E) * 2 ^ 52
                  <= M * (2 ^ 52 + 1)) by nia.
  nia.
Qed.

(** [float(w)] is at most one part in [2^52] above [w]. *)
Lemma binary_normalize_le w m e :
  0 <= w < 2 ^ 63 ->
  binary_normalize prec emax w 0 false = S754_finite false m e ->
  -52 <= e
  /\ forall S, 52 <= S ->
       Z.pos m * 2 ^ (e + S) * 2 ^ 52 <= w * 2 ^ S * (2 ^ 52 + 1).
Proof.
  intros [Hw0 Hw]. destruct w as [|p|p]; try lia; [discriminate|].
  simpl binary_normalize. unfold binary_round.
  pose proof (shl_align_spec p 0 (fexp prec emax (Z.pos (digits2_pos p) + 0))) as Hal.
  destruct (shl_align p 0 _) as [mz ez]. destruct Hal as [Hez Hmz].
  assert (Hd : 1 <= Z.pos (digits2_pos p)) by lia.
  assert (Hez' : -52 <= ez <= 0).
  { unfold fexp, SpecFloat.emin, prec, emax in Hez. lia. }
  assert (HK : Zdigits2 (Z.pos mz) + ez = Z.pos (digits2_pos p)).
  { rewrite Hmz, Zdigits2_mul_pow2 by lia. simpl. lia. }
  intros Hround.
  destruct (binary_round_aux_le (Z.pos mz) ez m e ltac:(lia) ltac:(lia) Hround)
    as [Hle Hval].
  split; [lia|]. intros S HS. specialize (Hval S ltac:(lia)).
  rewrite Hmz in Hval.
  replace (Z.pos p * 2 ^ (0 - ez) * 2 ^ (ez + S)) with (Z.pos p * 2 ^ S) in Hval.
  - exact Hval.
  - rewrite <- Z.mul_assoc, <- pow2_split by lia. do 2 f_equal. lia.
Qed.

(** [int(w * c)] for a proportion [c] of at most [k] per mille is at most
    [k + 1] per mille of [w]. *)
Lemma int_of_product_le w c k z :
  0 <= w < 2 ^ 63 -> at_most c k = true -> 0 <= k <= 1000 ->
  Py.int_of_product w c = inr z ->
  0 <= z /\ 1000 * z <= (k + 1) * w.
Proof.
  intros Hw Hc Hk. unfold Py.int_of_product.
  destruct (Prim2SF_float_of_int w Hw) as (f & -> & Hf). simpl.
  unfold Py.int_of_float. rewrite mul_spec, Hf. unfold SF64mul.
  pose proof (binary_normalize_finite w Hw) as Hfin.
  pose proof (binary_normalize_le w) as Hle.
  unfold at_most in Hc.
  destruct (Prim2SF c) as [| | |[] mc ec]; try discriminate.
  apply andb_prop in Hc as [Hc Hc3]. apply andb_prop in Hc as [Hc1 Hc2].
  apply Z.leb_le in Hc1, Hc2, Hc3.
  destruct (binary_normalize prec emax w 0 false) as [sw| | |sw mw ew];
    simpl in Hfin; try contradiction.
  { intros [= <-]. split; lia. }
  destruct Hfin as (-> & Hkw & Hew).
  destruct (Hle mw ew Hw eq_refl) as [Hew0 Hwv]. clear Hle.
  assert (Hmc : Z.pos (digits2_pos mc) + ec <= 1).
  { assert (Hpow : 0 < 2 ^ (- ec)) by (apply Z.pow_pos_nonneg; lia).
    assert (Hle : 0 <= Z.pos mc <= 2 ^ (- ec)) by nia.
    apply Zdigits2_le in Hle. rewrite (Zdigits2_log2 (2 ^ (- ec)) Hpow) in Hle.
    rewrite Z.log2_pow2 in Hle by lia. simpl Zdigits2 in Hle. lia. }
  pose proof (SFmul_finite false mw ew false mc ec ltac:(lia) ltac:(lia)) as Hm.
  destruct (SFmul prec emax _ _) as [s| | |s mp ep] eqn:Hmul; simpl in Hm;
    try contradiction.
  { intros [= <-]. split; lia. }
  destruct Hm as (-> & _). simpl cond_Zopp. intros [= <-].
  assert (Hz0 : 0 <= Z.shiftl (Z.pos mp) ep) by (apply Z.shiftl_nonneg; lia).
  split; [exact Hz0|].
  simpl SFmul in Hmul.
  assert (Hdig : 1 <= Zdigits2 (Z.pos (mw * mc))) by (simpl; lia).
  destruct (binary_round_aux_le (Z.pos (mw * mc)) (ew + ec) mp ep
              ltac:(lia) ltac:(lia) Hmul) as [Hep Hpv].
  specialize (Hpv 200 ltac:(lia)). specialize (Hwv 100 ltac:(lia)).
  (* the integer part is below the product *)
  assert (Hint : Z.shiftl (Z.pos mp) ep * 2 ^ 200 <= Z.pos mp * 2 ^ (ep + 200)).
  { destruct (Z.le_gt_cases 0 ep) as [Hpos|Hneg].
    - rewrite Z.shiftl_mul_pow2 by lia. rewrite pow2_split by lia. lia.
    - rewrite Z.shiftl_div_pow2 by lia.
      replace 200 with (- ep + (ep + 200)) at 1 by lia.
      rewrite (pow2_split (- ep) (ep + 200)) by lia.
      assert (0 < 2 ^ (- ep)) by (apply Z.pow_pos_nonneg; lia).
      assert (0 < 2 ^ (ep + 200)) by (apply Z.pow_pos_nonneg; lia).
      pose proof (Z.mul_div_le (Z.pos mp) (2 ^ (- ep)) ltac:(lia)). nia. }
  replace (ew + ec + 200) with ((ew + 100) + (ec + 100)) in Hpv by lia.
  rewrite (pow2_split (ew + 100) (ec + 100)) in Hpv by lia.
  rewrite Pos2Z.inj_mul in Hpv.
  assert (Hcv : Z.pos mc * 2 ^ (ec + 100) * 1000 <= k * 2 ^ 100).
  { replace 100 with (- ec + (ec + 100)) at 2 by lia.
    rewrite (pow2_split (- ec) (ec + 100)) by lia.
    assert (0 < 2 ^ (ec + 100)) by (apply Z.pow_pos_nonneg; lia). nia. }
  set (z := Z.shiftl (Z.pos mp) ep) in *.
  set (P := Z.pos mp * 2 ^ (ep + 200)) in *.
  set (A := Z.pos mw * 2 ^ (ew + 100)) in *.
  set (B := Z.pos mc * 2 ^ (ec + 100)) in *.
  assert (HA : 0 <= A) by (subst A; apply Z.mul_nonneg_nonneg; [lia|apply Z.pow_nonneg; lia]).
  assert (HB : 0 <= B) by (subst B; apply Z.mul_nonneg_nonneg; [lia|apply Z.pow_nonneg; lia]).
  replace (Z.pos mw * Z.pos mc * (2 ^ (ew + 100) * 2 ^ (ec + 100))) with (A * B) in Hpv
    by (subst A B; ring).
  (* z * 2^200 * 2^52 <= A * B * (2^52 + 1) *)
  assert (H1 : z * 2 ^ 200 * 2 ^ 52 <= A * B * (2 ^ 52 + 1)) by nia.
  assert (H2 : z * 2 ^ 200 * 2 ^ 52 * 2 ^ 52 * 1000
               <= (w * 2 ^ 100 * (2 ^ 52 + 1)) * (k * 2 ^ 100) * (2 ^ 52 + 1)).
  { transitivity (A * 2 ^ 52 * (B * 1000) * (2 ^ 52 + 1)); [nia|].
    apply Z.mul_le_mono_nonneg_r; [lia|].
    apply Z.mul_le_mono_nonneg; try nia. }
  clear - H2 Hz0 Hk Hw. 
  assert (H3 : 1000 * z * 2 ^ 304 <= (k + 1) * w * 2 ^ 304).
  { change (2 ^ 304) with (2 ^ 200 * 2 ^ 52 * 2 ^ 52) at 1.
    transitivity (w * 2 ^ 100 * (2 ^ 52 + 1) * (k * 2 ^ 100) * (2 ^ 52 + 1)); [lia|].
    change (2 ^ 304) with (2 ^ 100 * 2 ^ 100 * 2 ^ 104).
    assert (k * ((2 ^ 52 + 1) * (2 ^ 52 + 1)) <= (k + 1) * 2 ^ 104) by lia.
    nia. }
  apply Z.mul_le_mono_pos_r in H3; [exact H3|reflexivity].
Qed.

Lemma scaled_box_inside w h cx cy cw ch kx ky kw kh b :
  0 <= w < 2 ^ 63 -> 0 <= h < 2 ^ 63 ->
  at_most cx kx = true -> at_most cy ky = true ->
  at_most cw kw = true -> at_most ch kh = true ->
  0 <= kx -> 0 <= ky -> 0 <= kw -> 0 <= kh ->
  kx + kw + 2 <= 1000 -> ky + kh + 2 <= 1000 ->
  scaled_box w h cx cy cw ch = inr b -> inside w h b.
Proof.
  intros Hw Hh Hcx Hcy Hcw Hch Hkx Hky Hkw Hkh Hx Hy. unfold scaled_box.
  destruct (Py.int_of_product w cx) as [e|x] eqn:Ex; [discriminate|].
  destruct (Py.int_of_product h cy) as [e|y] eqn:Ey; [discriminate|].
  destruct (Py.int_of_product w cw) as [e|bw] eqn:Ew; [discriminate|].
  destruct (Py.int_of_product h ch) as [e|bh] eqn:Eh; [discriminate|].
  simpl. intros [= <-].
  apply (int_of_product_le w cx kx) in Ex; [|assumption|assumption|lia].
  apply (int_of_product_le h cy ky) in Ey; [|assumption|assumption|lia].
  apply (int_of_product_le w cw kw) in Ew; [|assumption|assumption|lia].
  apply (int_of_product_le h ch kh) in Eh; [|assumption|assumption|lia].
  unfold inside. simpl. repeat split; try lia; nia.
Qed.

(** The proportions of the mock boxes leave room on both axes. *)
Lemma mock_box_inside w h cx cy cw ch kx ky kw kh b :
  0 <= w < 2 ^ 63 -> 0 <= h < 2 ^ 63 ->
  at_most cx kx && at_most cy ky && at_most cw kw && at_most ch kh
  && (0 <=? kx) && (0 <=? ky) && (0 <=? kw) && (0 <=? kh)
  && (kx + kw + 2 <=? 1000) && (ky + kh + 2 <=? 1000) = true ->
  inr b = scaled_box w h cx cy cw ch -> inside w h b.
Proof.
  intros Hw Hh Hk Hb.
  repeat (apply andb_prop in Hk as [Hk ?]).
  repeat match goal with H : (_ <=? _) = true |- _ => apply Z.leb_le in H end.
  eapply (scaled_box_inside w h cx cy cw ch kx ky kw kh); eauto.
Qed.

Lemma mock_objects_inside path d a :
  0 <= width (details_image d) < 2 ^ 63 ->
  0 <= height (details_image d) < 2 ^ 63 ->
  generate_mock_analysis_results path d = inr a ->
  Forall (fun o => inside (width (details_image d)) (height (details_image d))
                     (obj_bbox o)) (objects a).
Proof.
  intros Hw Hh Ha.
  destruct (mock_results_inv path d a Ha) as (_ & Hobjects & _).
  cbv zeta in Hobjects.
  destruct (objects a) as [|o1 [|o2 [|o3 [|o4 rest]]]]; try discriminate.
  injection Hobjects as H1 H2 H3.
  constructor;
    [refine (mock_box_inside _ _ _ _ _ _ 101 101 801 701 _ Hw Hh _ H1);
     vm_compute; reflexivity|].
  constructor;
    [refine (mock_box_inside _ _ _ _ _ _ 51 101 51 68 _ Hw Hh _ H2);
     vm_compute; reflexivity|].
  constructor;
    [refine (mock_box_inside _ _ _ _ _ _ 201 151 601 51 _ Hw Hh _ H3);
     vm_compute; reflexivity|].
  constructor.
Qed.

Lemma mock_regions_inside path d a :
  0 <= width (details_image d) < 2 ^ 63 ->
  0 <= height (details_image d) < 2 ^ 63 ->
  generate_mock_analysis_results path d = inr a ->
  Forall (fun r => inside (width (details_image d)) (height (details_image d))
                     (region_bbox r)) (regions (ocr a)).
Proof.
  intros Hw Hh Ha.
  destruct (mock_results_inv path d a Ha) as (_ & _ & _ & _ & Hregions).
  cbv zeta in Hregions.
  destruct (regions (ocr a)) as [|r1 [|r2 [|r3 rest]]]; try discriminate.
  injection Hregions as H1 H2.
  constructor;
    [refine (mock_box_inside _ _ _ _ _ _ 201 151 301 51 _ Hw Hh _ H1);
     vm_compute; reflexivity|].
  constructor;
    [refine (mock_box_inside _ _ _ _ _ _ 201 201 401 51 _ Hw Hh _ H2);
     vm_compute; reflexivity|].
  constructor.
Qed.

(** X7. The mock boxes lie in the image. For an image whose width and
    height are from 0 to below 2^63, the box of each of the three mock
    objects and of each of the two mock text regions has a corner and
    sides that are not negative, and ends within the width and the height
    of the image: neither the rounding of the products in binary64 nor
    their truncation carries a box over an edge. *)
Theorem X7_mock_boxes_inside path d a :
  let w := width (details_image d) in
  let h := height (details_image d) in
  0 <= w < 2 ^ 63 -> 0 <= h < 2 ^ 63 ->
  generate_mock_analysis_results path d = inr a ->
  Forall (fun o => inside w h (obj_bbox o)) (objects a)
  /\ Forall (fun r => inside w h (region_bbox r)) (regions (ocr a)).
Proof.
  intros w h Hw Hh Ha. split.
  - exact (mock_objects_inside path d a Hw Hh Ha).
  - exact (mock_regions_inside path d a Hw Hh Ha).
Qed.

(** A 640 by 480 image. *)
Lemma X7_mock_boxes_inside_witness :
  exists a,
    generate_mock_analysis_results "shot.png"
      (sample_details "shot.png" 640 480 sample_colors) = inr a
    /\ Forall (fun o => inside 640 480 (obj_bbox o)) (objects a).
Proof.
  eexists. split; [vm_compute; reflexivity|].
  apply (X7_mock_boxes_inside "shot.png" (sample_details "shot.png" 640 480 sample_colors));
    [simpl; lia|simpl; lia|vm_compute; reflexivity].
Defined.

(** ** The boxes of the visual feedback *)

(** The drawing a successful run with visual feedback saved. *)
Lemma analyze_image_feedback w p out mock mp rt results file png :
  fst (analyze_image w p out true mock mp rt) = AnalyzeOk results file (Some png) ->
  exists details a used rt1 img stamp rest,
    get_image_details w p = inr details
    /\ fst (run_analysis w p mock mp details rt1) = inr (a, used)
    /\ res_image_details results = details
    /\ analysis results = a
    /\ image_open w p = inr img
    /\ trace (snd (analyze_image w p out true mock mp rt))
       = EvImageSave png
           (draw_objects a ++ draw_ocr a
            ++ draw_info stamp (path_name w p) img results
            ++ draw_summary img results) :: rest.
Proof.
  destruct (analyze_image w p out true mock mp rt) as [outcome rt'] eqn:Hrun.
  cbn [fst snd]. intros ->.
  unfold analyze_image in Hrun. rewrite bind_tick in Hrun.
  destruct (ensure_output_dir w out); [discriminate|].
  destruct (get_image_details w p) as [e|details] eqn:Hdetails; [discriminate|].
  unfold bind at 1 in Hrun.
  destruct (run_analysis w p mock mp details _) as [[e|[a used]] rt1] eqn:Hchosen;
    [discriminate|].
  rewrite !bind_tick in Hrun.
  destruct (open_write w _); [discriminate|].
  rewrite bind_emit in Hrun.
  destruct (json_dump w _ _); [discriminate|].
  rewrite bind_emit in Hrun. unfold bind at 1 in Hrun.
  unfold generate_visual_feedback in Hrun.
  destruct (PIL_AVAILABLE w); cbn [negb] in Hrun; [|discriminate].
  destruct (image_open w p) as [e|img] eqn:Himg; [discriminate|].
  rewrite bind_tick in Hrun.
  destruct (image_save w _); [discriminate|].
  rewrite bind_emit in Hrun. unfold ret in Hrun.
  injection Hrun as <- <- <- <-. cbn [trace].
  eexists details, a, used, _, img, _, _.
  split; [reflexivity|]. split; [rewrite Hchosen; reflexivity|].
  split; [reflexivity|]. split; [reflexivity|]. split; [reflexivity|]. reflexivity.
Qed.

Lemma draw_lines_no_rectangle x y lines : forall i title x0 y0 x1 y1 outline fill lw,
  Rectangle x0 y0 x1 y1 outline fill lw ∉ draw_lines x y i title lines.
Proof.
  induction lines as [|text rest IH]; intros i title x0 y0 x1 y1 outline fill lw;
    cbn [draw_lines].
  - apply not_elem_of_nil.
  - intros H. apply elem_of_cons in H as [H|H]; [|exact (IH _ _ _ _ _ _ _ _ _ H)].
    destruct (title && (i =? 0)); discriminate H.
Qed.

(** The rectangles with an outline are the boxes of the objects and of the
    text regions. *)
Lemma outlined_rectangles stamp name img results x0 y0 x1 y1 colour fill lw :
  Rectangle x0 y0 x1 y1 (Some colour) fill lw
  ∈ draw_objects (analysis results) ++ draw_ocr (analysis results)
    ++ draw_info stamp name img results ++ draw_summary img results ->
  exists b,
    ((exists o, o ∈ objects (analysis results) /\ b = obj_bbox o)
     \/ (exists r, r ∈ regions (ocr (analysis results)) /\ b = region_bbox r))
    /\ x0 = bbox_x b /\ y0 = bbox_y b
    /\ x1 = bbox_x b + bbox_width b /\ y1 = bbox_y b + bbox_height b.
Proof.
  rewrite !elem_of_app. intros [H|[H|[H|H]]].
  - unfold draw_objects in H.
    apply list_elem_of_In, in_concat in H as (cmds & Hcmds & Hin).
    apply in_map_iff in Hcmds as (o & <- & Ho). apply list_elem_of_In in Ho.
    exists (obj_bbox o). split; [left; exists o; split; [exact Ho|reflexivity]|].
    unfold draw_object in Hin. destruct (obj_bbox o) as [x y bw bh].
    destruct Hin as [Hin|[Hin|[Hin|[]]]]; try discriminate Hin.
    inversion Hin; subst. cbn. repeat split.
  - unfold draw_ocr in H. destruct (detected (ocr (analysis results)));
      [|now apply elem_of_nil in H].
    apply list_elem_of_In, in_concat in H as (cmds & Hcmds & Hin).
    apply in_map_iff in Hcmds as (r & <- & Hr). apply list_elem_of_In in Hr.
    exists (region_bbox r). split; [right; exists r; split; [exact Hr|reflexivity]|].
    unfold draw_region in Hin. destruct (region_bbox r) as [x y bw bh].
    destruct Hin as [Hin|[Hin|[Hin|[]]]]; try discriminate Hin.
    inversion Hin; subst. cbn. repeat split.
  - unfold draw_info in H. apply elem_of_cons in H as [H|H]; [discriminate H|].
    now apply draw_lines_no_rectangle in H.
  - unfold draw_summary in H. apply elem_of_cons in H as [H|H]; [discriminate H|].
    now apply draw_lines_no_rectangle in H.
Qed.

(** X8. The boxes drawn in mock mode lie in the image. When
    [analyze_image] succeeds in mock mode with the visual feedback, for
    an image whose width and height are from 0 to below 2^63, the last
    effect of the run is the saving of the feedback image, and every
    rectangle with an outline in its drawing, that is every box of an
    object or of a text region, lies within the width and the height of
    the image. *)
Theorem X8_mock_feedback_boxes_inside w p out mp rt results file png :
  fst (analyze_image w p out true true mp rt) = AnalyzeOk results file (Some png) ->
  let info := details_image (res_image_details results) in
  0 <= width info < 2 ^ 63 -> 0 <= height info < 2 ^ 63 ->
  exists drawing rest,
    trace (snd (analyze_image w p out true true mp rt))
    = EvImageSave png drawing :: rest
    /\ forall x0 y0 x1 y1 colour fill lw,
         Rectangle x0 y0 x1 y1 (Some colour) fill lw ∈ drawing ->
         0 <= x0 <= x1 /\ x1 <= width info /\ 0 <= y0 <= y1 /\ y1 <= height info.
Proof.
  intros Hok info Hw Hh. subst info.
  destruct (analyze_image_feedback _ _ _ _ _ _ _ _ _ Hok)
    as (details & a & used & rt1 & img & stamp & rest
        & Hdetails & Hchosen & Hd & Ha & Himg & Htrace).
  apply run_analysis_mock in Hchosen. rewrite Hd in *.
  pose proof (mock_objects_inside p details a Hw Hh Hchosen) as Hobjects.
  pose proof (mock_regions_inside p details a Hw Hh Hchosen) as Hregions.
  pose proof (proj1 (Forall_forall _ _) Hobjects) as Hobject.
  pose proof (proj1 (Forall_forall _ _) Hregions) as Hregion.
  eexists _, rest. split; [exact Htrace|].
  intros x0 y0 x1 y1 colour fill lw Hin. rewrite <- Ha in Hin.
  apply outlined_rectangles in Hin as (b & Hb & -> & -> & -> & ->).
  rewrite Ha in Hb.
  assert (Hinside : inside (width (details_image details))
                      (height (details_image details)) b).
  { destruct Hb as [(o & Ho & ->)|(r & Hr & ->)]; [apply Hobject|apply Hregion];
      assumption. }
  unfold inside in Hinside. lia.
Qed.

(** The 640 by 480 image of the calm world. *)
Lemma X8_mock_feedback_boxes_inside_witness :
  exists results file png drawing rest,
    fst (analyze_image calm_world "shot.png" "out" true true None start)
    = AnalyzeOk results file (Some png)
    /\ trace (snd (analyze_image calm_world "shot.png" "out" true true None start))
       = EvImageSave png drawing :: rest
    /\ forall x0 y0 x1 y1 colour fill lw,
         Rectangle x0 y0 x1 y1 (Some colour) fill lw ∈ drawing ->
         0 <= x0 <= x1 /\ x1 <= 640 /\ 0 <= y0 <= y1 /\ y1 <= 480.
Proof.
  eexists _, _, _.
  destruct (X8_mock_feedback_boxes_inside calm_world "shot.png" "out" None start _ _ _
              ltac:(vm_compute; reflexivity))
    as (drawing & rest & Htrace & Hinside); [cbn; lia|cbn; lia|].
  exists drawing, rest. split; [vm_compute; reflexivity|].
  split; [exact Htrace|exact Hinside].
Defined.

(** ** The detector *)

(** X9. What [detect] does to the detector and to the libraries. It reads
    no clock; it builds the model exactly when the detector was not
    loaded and the package is there, and asks for a prediction, after
    that, exactly when the detector is loaded afterwards; the path of the
    model and the confidence stay as they were, and a loaded detector is
    returned unchanged. The detector is loaded afterwards exactly when it
    was loaded before or the model could be built; it is not loaded
    afterwards exactly when the result carries the error of the model
    that is not loaded and no image path. *)
Theorem X9_detect_protocol w self p rt :
  let run := YOLOModel_detect w self p rt in
  let d := fst (fst run) in
  let after := snd (fst run) in
  trace (snd run) = detect_calls w self after ++ trace rt
  /\ clock_reads (snd run) = clock_reads rt
  /\ model_path after = model_path self
  /\ yolo_confidence after = yolo_confidence self
  /\ (is_loaded self = true -> after = self)
  /\ (is_loaded after = true
      <-> is_loaded self = true
          \/ (YOLO_AVAILABLE w = true /\ YOLO w (model_path self) = None))
  /\ (is_loaded after = false <-> det_error d = Some "モデルがロードされていません"
                                   /\ det_image_path d = None).
Proof.
  unfold detect_calls, YOLOModel_detect, YOLOModel_load, bind, ret, emit.
  destruct self as [h l c mp]. simpl.
  destruct l; simpl.
  - destruct (detected_objects _); simpl; repeat split; try discriminate; auto.
    all: intros [_ ?]; discriminate.
  - destruct (YOLO_AVAILABLE w); simpl.
    + destruct (YOLO w mp); simpl.
      * repeat split; try discriminate; auto. intros [?|[_ ?]]; discriminate.
      * destruct (detected_objects _); simpl; repeat split; try discriminate; auto.
        all: intros [_ ?]; discriminate.
    + repeat split; try discriminate; auto. intros [?|[? _]]; discriminate.
Qed.

Lemma convert_boxes_inr names bs objs :
  convert_boxes names bs = inr objs ->
  Forall2 (fun box obj => convert_box names box = inr obj) bs objs.
Proof.
  revert objs. induction bs as [|box bs IH]; simpl; intros objs H.
  - injection H as <-. constructor.
  - destruct (convert_box names box) as [e|obj] eqn:Hbox; simpl in H; [discriminate|].
    destruct (convert_boxes names bs) as [e|rest]; simpl in H; [discriminate|].
    injection H as <-. constructor; [exact Hbox|]. apply IH. reflexivity.
Qed.

Lemma convert_boxes_inl names bs e :
  convert_boxes names bs = inl e ->
  exists done box todo,
    bs = done ++ box :: todo
    /\ Forall (fun b => exists obj, convert_box names b = inr obj) done
    /\ convert_box names box = inl e.
Proof.
  induction bs as [|box bs IH]; simpl; intros H; [discriminate|].
  destruct (convert_box names box) as [e'|obj] eqn:Hbox; simpl in H.
  - injection H as <-. exists [], box, bs. repeat split; [constructor|exact Hbox].
  - destruct (convert_boxes names bs) as [e'|rest]; simpl in H; [|discriminate].
    injection H as <-. destruct (IH eq_refl) as (done & b & todo & -> & Hdone & Hb).
    exists (box :: done), b, todo. repeat split; [|exact Hb].
    constructor; [eauto|exact Hdone].
Qed.

Lemma convert_box_inr names box obj :
  convert_box names box = inr obj ->
  exists class_id,
    Py.int_of_float (cls box) = inr class_id
    /\ names !! class_id = Some (label obj)
    /\ obj_confidence obj = conf box
    /\ (let '(x1, y1, x2, y2) := xyxy box in
        Py.int_of_float x1 = inr (bbox_x (obj_bbox obj))
        /\ Py.int_of_float y1 = inr (bbox_y (obj_bbox obj))
        /\ Py.int_of_float (x2 - x1)%float = inr (bbox_width (obj_bbox obj))
        /\ Py.int_of_float (y2 - y1)%float = inr (bbox_height (obj_bbox obj))).
Proof.
  unfold convert_box. destruct (xyxy box) as [[[x1 y1] x2] y2].
  intros H.
  destruct (Py.int_of_float (cls box)) as [e|class_id]; simpl in H; [discriminate|].
  destruct (names !! class_id) as [l|] eqn:Hl; simpl in H; [|discriminate].
  destruct (Py.int_of_float x1) as [e|x]; simpl in H; [discriminate|].
  destruct (Py.int_of_float y1) as [e|y]; simpl in H; [discriminate|].
  destruct (Py.int_of_float (x2 - x1)) as [e|bw]; simpl in H; [discriminate|].
  destruct (Py.int_of_float (y2 - y1)) as [e|bh]; simpl in H; [discriminate|].
  injection H as <-. exists class_id. simpl. repeat split. exact Hl.
Qed.

(** X10. [detect] returns all the boxes or none. For a loaded detector
    whose backend answers with at least one result, either every box of
    the first result was converted, then the objects are the conversions
    of the boxes in their order and the count is the number of boxes; or
    one box could not be converted, then the objects are empty and there
    is no count, whatever the boxes before it gave, and the error is the
    text of the exception of the first box that fails. *)
Theorem X10_detect_all_or_nothing w self p rt result others :
  is_loaded self = true ->
  yolo_predict w p (yolo_confidence self) = inr (result :: others) ->
  let d := fst (fst (YOLOModel_detect w self p rt)) in
  match det_error d with
  | None =>
      det_count d = Some (Z.of_nat (length (boxes result)))
      /\ exists objs,
           det_objects d = Some objs
           /\ Forall2 (fun box obj => convert_box (names result) box = inr obj)
                (boxes result) objs
  | Some text =>
      det_objects d = Some [] /\ det_count d = None
      /\ exists done box todo e,
           boxes result = done ++ box :: todo
           /\ Forall (fun b => ~ bad_box (names result) b) done
           /\ convert_box (names result) box = inl e
           /\ text = str e
  end.
Proof.
  intros Hloaded Hanswer.
  unfold YOLOModel_detect, bind, ret, emit. rewrite Hloaded. cbn [negb fst snd].
  rewrite Hanswer. unfold detected_objects. cbn [mbind raises_bind].
  destruct (convert_boxes (names result) (boxes result)) as [e|objs] eqn:Hboxes;
    cbn [fst snd det_error det_objects det_count].
  - split; [reflexivity|]. split; [reflexivity|].
    destruct (convert_boxes_inl _ _ _ Hboxes) as (done & box & todo & Hsplit & Hdone & Hbox).
    exists done, box, todo, e. split; [exact Hsplit|]. split; [|split; [exact Hbox|reflexivity]].
    eapply Forall_impl; [exact Hdone|]. intros b [obj Hobj] [e' He']. congruence.
  - pose proof (convert_boxes_inr _ _ _ Hboxes) as Hall.
    split.
    + rewrite (Forall2_length _ _ _ Hall). reflexivity.
    + exists objs. split; [reflexivity|exact Hall].
Qed.

(** A person and a box of a class that has no name. *)
Lemma X10_detect_all_or_nothing_witness :
  yolo_predict (sample_world white_pixels None (inr [unnamed_class]) seconds)
    "shot.png" (yolo_confidence ready_yolo) = inr [unnamed_class]
  /\ det_objects
       (fst (fst (YOLOModel_detect
                    (sample_world white_pixels None (inr [unnamed_class]) seconds)
                    ready_yolo "shot.png" start)))
     = Some [].
Proof.
  split; [reflexivity|].
  exact (proj1 (X10_detect_all_or_nothing
                  (sample_world white_pixels None (inr [unnamed_class]) seconds)
                  ready_yolo "shot.png" start unnamed_class [] eq_refl eq_refl)).
Defined.

(** ** The loader and its registry *)

Lemma load_succeeded_recorded w self name model t0 ver langs rt :
  recorded self (snd (fst (load_succeeded w self name model t0 ver langs rt))) name
    (fst (fst (load_succeeded w self name model t0 ver langs rt)))
  /\ clock_reads (snd (load_succeeded w self name model t0 ver langs rt))
     = S (clock_reads rt)
  /\ trace (snd (load_succeeded w self name model t0 ver langs rt)) = trace rt.
Proof.
  unfold load_succeeded, bind, tick, ret. simpl. split; [|split; reflexivity].
  split; [reflexivity|]. eexists. split; [reflexivity|]. left.
  split; [reflexivity|]. split; [reflexivity|]. eexists. reflexivity.
Qed.

Lemma load_failed_recorded w self name e t0 rt :
  recorded self (snd (fst (load_failed w self name e t0 rt))) name
    (fst (fst (load_failed w self name e t0 rt)))
  /\ clock_reads (snd (load_failed w self name e t0 rt)) = S (clock_reads rt)
  /\ trace (snd (load_failed w self name e t0 rt)) = trace rt.
Proof.
  unfold load_failed, bind, tick, ret. simpl. split; [|split; reflexivity].
  split; [reflexivity|]. eexists. split; [reflexivity|]. right.
  split; [reflexivity|]. split; [reflexivity|]. eexists. split; reflexivity.
Qed.

Ltac load_done calls :=
  let Hr := fresh "Hr" in
  let Hc := fresh "Hc" in
  let Ht := fresh "Ht" in
  match goal with
  | |- context [load_failed ?w ?s ?n ?e ?t ?r] =>
      destruct (load_failed_recorded w s n e t r) as (Hr & Hc & Ht)
  | |- context [load_succeeded ?w ?s ?n ?m ?t ?v ?l ?r] =>
      destruct (load_succeeded_recorded w s n m t v l r) as (Hr & Hc & Ht)
  end;
  split; [exact Hr|]; split; [reflexivity|];
  split; [rewrite Hc; reflexivity|];
  rewrite Ht; exists calls; split; [reflexivity|repeat constructor].

Lemma load_mobilenet_model_cases w self rt :
  if default true (enabled (model_config_of self "mobilenet"))
  then ran self "mobilenet" rt (load_mobilenet_model w self rt)
  else load_mobilenet_model w self rt = (disabled_result, self, rt).
Proof.
  unfold load_mobilenet_model, ran.
  destruct (default true _); cbn [negb]; [|reflexivity].
  rewrite bind_tick.
  destruct (TF_AVAILABLE w); cbn [negb]; [|load_done (@nil event)].
  rewrite bind_emit.
  destruct (import_module w _) as [e|]; [load_done [EvImportModule "tensorflow.keras.applications.mobilenet_v2"]|].
  rewrite bind_emit.
  destruct (MobileNetV2 w) as [e|];
    [load_done [EvBackend "MobileNetV2"; EvImportModule "tensorflow.keras.applications.mobilenet_v2"]|].
  rewrite bind_emit.
  destruct (mobilenet_self_test w) as [e|];
    load_done [EvBackend "mobilenet self-test"; EvBackend "MobileNetV2";
               EvImportModule "tensorflow.keras.applications.mobilenet_v2"].
Qed.

Lemma load_cocossd_model_cases w self rt :
  if default true (enabled (model_config_of self "cocossd"))
  then ran self "cocossd" rt (load_cocossd_model w self rt)
  else load_cocossd_model w self rt = (disabled_result, self, rt).
Proof.
  unfold load_cocossd_model, ran.
  destruct (default true _); cbn [negb]; [|reflexivity].
  rewrite bind_tick.
  destruct (TF_AVAILABLE w); cbn [negb]; [|load_done (@nil event)].
  rewrite bind_emit.
  destruct (import_module w _) as [e|];
    load_done [EvImportModule "object_detection.utils.visualization_utils"].
Qed.

Lemma load_tesseract_model_cases w self rt :
  if default true (enabled (model_config_of self "tesseract"))
  then ran self "tesseract" rt (load_tesseract_model w self rt)
  else load_tesseract_model w self rt = (disabled_result, self, rt).
Proof.
  unfold load_tesseract_model, ran.
  destruct (default true _); cbn [negb]; [|reflexivity].
  rewrite bind_tick.
  destruct (TESSERACT_AVAILABLE w); cbn [negb]; [|load_done (@nil event)].
  rewrite bind_emit.
  destruct (get_tesseract_version w) as [e|v];
    [load_done [EvBackend "pytesseract.get_tesseract_version"]|].
  rewrite bind_emit.
  destruct (get_languages w) as [e|l];
    load_done [EvBackend "pytesseract.get_languages";
               EvBackend "pytesseract.get_tesseract_version"].
Qed.

(** What one turn of the loop of [load_models] does, by the name. *)
Lemma load_by_name_cases w self name rt :
  ((name ∉ backends)
   /\ load_by_name w self name rt = (unknown_model_result name, self, rt))
  \/ (name ∈ backends
      /\ if default true (enabled (model_config_of self name))
         then ran self name rt (load_by_name w self name rt)
         else load_by_name w self name rt = (disabled_result, self, rt)).
Proof.
  unfold load_by_name, backends.
  destruct (String.eqb_spec name "mobilenet") as [->|H1].
  { right. split; [apply list_elem_of_In; simpl; tauto|apply load_mobilenet_model_cases]. }
  destruct (String.eqb_spec name "cocossd") as [->|H2].
  { right. split; [apply list_elem_of_In; simpl; tauto|apply load_cocossd_model_cases]. }
  destruct (String.eqb_spec name "tesseract") as [->|H3].
  { right. split; [apply list_elem_of_In; simpl; tauto|apply load_tesseract_model_cases]. }
  left. split; [|reflexivity].
  rewrite list_elem_of_In. simpl. intros [H|[H|[H|[]]]]; congruence.
Qed.

Lemma recorded_consistent self self' name r :
  name ∈ backends ->
  recorded self self' name r ->
  registry_consistent self -> registry_consistent self'.
Proof.
  intros Hname (Hcfg & el & Hel & Hcase) [Hdom Hst].
  assert (Hin : name ∈ dom (model_status self)).
  { rewrite Hdom. apply elem_of_list_to_set. exact Hname. }
  destruct Hcase as [(Hs & Hstatus & model & Hmodels)|(Hs & Hmodels & text & Herr & Hstatus)].
  - split.
    + rewrite Hstatus, dom_insert_L, <- Hdom.
      apply subseteq_union_1_L, singleton_subseteq_l, Hin.
    + intros n st. rewrite Hstatus, Hmodels.
      destruct (decide (name = n)) as [->|Hne].
      * rewrite !lookup_insert_eq. intros [= <-]. simpl. split.
        -- intros _. repeat split; eauto.
        -- intros [x Hx]. discriminate.
      * rewrite !lookup_insert_ne by exact Hne. apply Hst.
  - split.
    + rewrite Hstatus, dom_insert_L, <- Hdom.
      apply subseteq_union_1_L, singleton_subseteq_l, Hin.
    + intros n st. rewrite Hstatus, Hmodels.
      destruct (decide (name = n)) as [->|Hne].
      * rewrite !lookup_insert_eq. intros [= <-]. simpl. split.
        -- discriminate.
        -- intros _. split; eauto.
      * rewrite !lookup_insert_ne by exact Hne. apply Hst.
Qed.

Lemma load_by_name_consistent w self name rt :
  registry_consistent self ->
  registry_consistent (snd (fst (load_by_name w self name rt)))
  /\ loader_config (snd (fst (load_by_name w self name rt))) = loader_config self.
Proof.
  intros Hc. destruct (load_by_name_cases w self name rt) as [[_ ->]|[Hname Hcase]].
  - split; [exact Hc|reflexivity].
  - destruct (default true _).
    + destruct Hcase as (Hr & _). split.
      * eapply recorded_consistent; eassumption.
      * apply Hr.
    + rewrite Hcase. split; [exact Hc|reflexivity].
Qed.

Lemma load_each_consistent w names : forall self results rt,
  registry_consistent self ->
  registry_consistent (snd (fst (load_each w self names results rt)))
  /\ loader_config (snd (fst (load_each w self names results rt))) = loader_config self.
Proof.
  induction names as [|name names IH]; intros self results rt Hc; simpl.
  - split; [exact Hc|reflexivity].
  - unfold bind.
    pose proof (load_by_name_consistent w self name rt Hc) as [Hc1 Hcfg1].
    destruct (load_by_name w self name rt) as [[r self1] rt1]. simpl in Hc1, Hcfg1.
    destruct (IH self1 (<[name := r]> results) rt1 Hc1) as [Hc2 Hcfg2].
    split; [exact Hc2|]. rewrite Hcfg2. exact Hcfg1.
Qed.

Lemma ModelLoader_init_consistent w cfg rt :
  registry_consistent (fst (ModelLoader_init w cfg rt)).
Proof.
  unfold ModelLoader_init, bind, emit, ret. simpl. split.
  - simpl. rewrite !dom_insert_L, dom_empty_L. reflexivity.
  - simpl. intros name st.
    destruct (decide ("mobilenet" = name)) as [<-|H1].
    { rewrite lookup_insert_eq. intros [= <-]. simpl. split; [discriminate|].
      intros [x Hx]. discriminate. }
    rewrite lookup_insert_ne by exact H1.
    destruct (decide ("cocossd" = name)) as [<-|H2].
    { rewrite lookup_insert_eq. intros [= <-]. simpl. split; [discriminate|].
      intros [x Hx]. discriminate. }
    rewrite lookup_insert_ne by exact H2.
    destruct (decide ("tesseract" = name)) as [<-|H3].
    { rewrite lookup_insert_eq. intros [= <-]. simpl. split; [discriminate|].
      intros [x Hx]. discriminate. }
    rewrite lookup_insert_ne by exact H3. rewrite lookup_empty. discriminate.
Qed.

(** X11. The registry of a loader is consistent, and stays so. In a new
    loader, and after every call of [load_models] on a loader whose
    registry is consistent, there is one status for each of the three
    backends and for nothing else; a backend marked loaded has no error,
    a load time and a stored model; a status with an error is not marked
    loaded and has a load time. A new loader has the configuration it was
    given, the empty one when none was given, and [load_models] keeps the
    configuration. *)
Theorem X11_registry_stays_consistent w :
  (forall cfg rt,
     registry_consistent (fst (ModelLoader_init w cfg rt))
     /\ loader_config (fst (ModelLoader_init w cfg rt)) = default empty_config cfg)
  /\ (forall self names rt,
        registry_consistent self ->
        registry_consistent (snd (fst (load_models w self names rt)))
        /\ loader_config (snd (fst (load_models w self names rt)))
           = loader_config self).
Proof.
  split.
  - intros cfg rt. split; [apply ModelLoader_init_consistent|reflexivity].
  - intros self names rt Hc. unfold load_models. apply load_each_consistent, Hc.
Qed.

Lemma load_each_dom w names : forall self results rt,
  dom (fst (fst (load_each w self names results rt)))
  = list_to_set names ∪ dom results.
Proof.
  induction names as [|name names IH]; intros self results rt; simpl.
  - rewrite union_empty_l_L. reflexivity.
  - unfold bind. destruct (load_by_name w self name rt) as [[r self1] rt1].
    rewrite IH, dom_insert_L. 
    rewrite (assoc_L (∪)). f_equal. apply (comm_L (∪)).
Qed.

Lemma load_each_unknown w names : forall self results rt name,
  name ∉ backends ->
  fst (fst (load_each w self names results rt)) !! name
  = if bool_decide (name ∈ names) then Some (unknown_model_result name)
    else results !! name.
Proof.
  induction names as [|n names IH]; intros self results rt name Hname; cbn [load_each].
  - rewrite bool_decide_eq_false_2 by apply not_elem_of_nil. reflexivity.
  - unfold bind.
    pose proof (load_by_name_cases w self n rt) as Hcases.
    destruct (load_by_name w self n rt) as [[r self1] rt1].
    rewrite IH by exact Hname.
    destruct (decide (name ∈ names)) as [Hin|Hnin].
    + rewrite !bool_decide_eq_true_2; [reflexivity| |exact Hin].
      apply elem_of_cons. now right.
    + rewrite (bool_decide_eq_false_2 _ Hnin).
      destruct (decide (name = n)) as [->|Hne].
      * rewrite bool_decide_eq_true_2 by (apply elem_of_cons; now left).
        rewrite lookup_insert_eq.
        destruct Hcases as [[_ [= -> _ _]]|[Hin _]]; [reflexivity|contradiction].
      * rewrite bool_decide_eq_false_2.
        -- apply lookup_insert_ne. congruence.
        -- intros [H|H]%elem_of_cons; contradiction.
Qed.

Lemma load_each_all_unknown w names : forall self results rt,
  Forall (fun name => name ∉ backends) names ->
  snd (fst (load_each w self names results rt)) = self
  /\ snd (load_each w self names results rt) = rt.
Proof.
  induction names as [|n names IH]; intros self results rt Hall; simpl.
  - split; reflexivity.
  - apply Forall_cons in Hall as [Hn Hall]. unfold bind.
    destruct (load_by_name_cases w self n rt) as [[_ ->]|[Hin _]]; [|contradiction].
    apply IH, Hall.
Qed.

Lemma load_by_name_config w self name rt :
  loader_config (snd (fst (load_by_name w self name rt))) = loader_config self.
Proof.
  destruct (load_by_name_cases w self name rt) as [[_ ->]|[_ Hcase]]; [reflexivity|].
  destruct (default true _); [apply Hcase|rewrite Hcase; reflexivity].
Qed.

Lemma load_each_config w names : forall self results rt,
  loader_config (snd (fst (load_each w self names results rt))) = loader_config self.
Proof.
  induction names as [|name names IH]; intros self results rt; cbn [load_each].
  - reflexivity.
  - unfold bind. pose proof (load_by_name_config w self name rt) as Hcfg.
    destruct (load_by_name w self name rt) as [[r self1] rt1]. simpl in Hcfg.
    rewrite IH. exact Hcfg.
Qed.

Lemma load_each_other w names : forall self results rt name,
  name ∉ names ->
  fst (fst (load_each w self names results rt)) !! name = results !! name.
Proof.
  induction names as [|n names IH]; intros self results rt name Hname; cbn [load_each].
  - reflexivity.
  - unfold bind. destruct (load_by_name w self n rt) as [[r self1] rt1].
    apply not_elem_of_cons in Hname as [Hne Hname].
    rewrite IH by exact Hname. apply lookup_insert_ne. congruence.
Qed.

(** X12. The results of [load_models] for a list of names. There is one
    result for each name asked for and for nothing else; the
    configuration of the loader is kept; a name that is no backend gets
    the result of an unknown model; and when no name is a backend, the
    loader is unchanged, no library is called and no clock is read. *)
Theorem X12_load_models_results w self names rt :
  let run := load_models w self (Some names) rt in
  let results := fst (fst run) in
  dom results = list_to_set names
  /\ loader_config (snd (fst run)) = loader_config self
  /\ (forall name, name ∈ names -> name ∉ backends ->
        results !! name = Some (unknown_model_result name))
  /\ (Forall (fun name => name ∉ backends) names ->
      snd (fst run) = self /\ snd run = rt).
Proof.
  intros run results. subst results run. unfold load_models. cbn [default].
  split; [|split; [|split]].
  - rewrite load_each_dom, dom_empty_L, union_empty_r_L. reflexivity.
  - apply load_each_config.
  - intros name Hin Hname. rewrite load_each_unknown by exact Hname.
    rewrite bool_decide_eq_true_2 by exact Hin. reflexivity.
  - apply load_each_all_unknown.
Qed.

Lemma disabled_not_enabled self name :
  disabled (loader_config self) name ->
  default true (enabled (model_config_of self name)) = false.
Proof.
  intros (all_models & model_cfg & Hall & Hcfg & Hen).
  unfold model_config_of. rewrite Hall. simpl. rewrite Hcfg. simpl. rewrite Hen. reflexivity.
Qed.

Lemma load_each_disabled w names : forall self results rt name,
  name ∈ names -> name ∈ backends ->
  disabled (loader_config self) name ->
  fst (fst (load_each w self names results rt)) !! name = Some disabled_result.
Proof.
  induction names as [|n names IH]; intros self results rt name Hin Hb Hoff;
    cbn [load_each].
  - now apply elem_of_nil in Hin.
  - unfold bind.
    pose proof (load_by_name_config w self n rt) as Hcfg.
    pose proof (load_by_name_cases w self n rt) as Hcases.
    destruct (load_by_name w self n rt) as [[r self1] rt1]. simpl in Hcfg.
    destruct (decide (name ∈ names)) as [Hlater|Hlast].
    + apply IH; try assumption. rewrite Hcfg. exact Hoff.
    + apply elem_of_cons in Hin as [->|Hin]; [|contradiction].
      rewrite load_each_other by exact Hlast. rewrite lookup_insert_eq.
      destruct Hcases as [[Hno _]|[_ Hcase]]; [contradiction|].
      rewrite (disabled_not_enabled self n Hoff) in Hcase.
      injection Hcase as -> _ _. reflexivity.
Qed.

(** X13. A backend the configuration switches off is not loaded. Its load
    returns the fixed result that says it is disabled, changes nothing in
    the loader, calls no library and reads no clock; and every call of
    [load_models] that covers it, by its name or because it loads all the
    backends, has this result as its entry, whatever was loaded before it
    in the same call. *)
Theorem X13_disabled_backend_untouched w self name rt :
  name ∈ backends ->
  disabled (loader_config self) name ->
  load_by_name w self name rt = (disabled_result, self, rt)
  /\ forall names rt1,
       name ∈ default backends names ->
       fst (fst (load_models w self names rt1)) !! name = Some disabled_result.
Proof.
  intros Hb Hoff. split.
  - destruct (load_by_name_cases w self name rt) as [[Hno _]|[_ Hcase]]; [contradiction|].
    rewrite (disabled_not_enabled self name Hoff) in Hcase. exact Hcase.
  - intros names rt1 Hin. unfold load_models. apply load_each_disabled; assumption.
Qed.

(** The COCO-SSD backend is switched off. *)
Lemma X13_disabled_backend_untouched_witness :
  load_by_name calm_world (fst (ModelLoader_init calm_world (Some without_cocossd) start))
    "cocossd" start
  = (disabled_result, fst (ModelLoader_init calm_world (Some without_cocossd) start), start).
Proof.
  apply (X13_disabled_backend_untouched calm_world
           (fst (ModelLoader_init calm_world (Some without_cocossd) start))
           "cocossd" start).
  - unfold backends. rewrite !elem_of_cons. right. left. reflexivity.
  - exists {[ "cocossd" := ModelConfig (Some false) None None ]},
      (ModelConfig (Some false) None None).
    split; [reflexivity|]. split; [vm_compute; reflexivity|reflexivity].
Defined.

Lemma skipped_spec force cfg :
  (match cfg with
   | Some c => default false (headless_mode (default (AppConfig None) (cfg_app c)))
   | None => false
   end
   && match cfg with
      | Some c =>
          default true (mock_in_headless (default (AnalysisConfig None) (cfg_analysis c)))
      | None => false
      end
   && negb force) = true <-> skipped force cfg.
Proof.
  unfold skipped. split.
  - intros H. apply andb_prop in H as [H Hf]. apply andb_prop in H as [Hh Hm].
    destruct force; [discriminate|]. split; [reflexivity|].
    destruct cfg as [c|]; [|discriminate].
    destruct (cfg_app c) as [app|] eqn:Happ; [|discriminate]. simpl in Hh.
    destruct (headless_mode app) as [[]|] eqn:Hhead; try discriminate.
    exists c, app. repeat split; try assumption.
    intros a Ha Hno. rewrite Ha in Hm. simpl in Hm. rewrite Hno in Hm. discriminate.
  - intros [-> (c & app & -> & Happ & Hhead & Hmock)].
    rewrite Happ. simpl. rewrite Hhead. simpl.
    destruct (cfg_analysis c) as [a|]; [|reflexivity]. simpl.
    specialize (Hmock a eq_refl). destruct (mock_in_headless a) as [[]|]; try reflexivity.
    contradiction.
Qed.

Lemma load_by_name_calls w self name rt :
  exists calls,
    trace (snd (load_by_name w self name rt)) = calls ++ trace rt
    /\ Forall is_call calls.
Proof.
  destruct (load_by_name_cases w self name rt) as [[_ ->]|[_ Hcase]].
  - exists []. split; [reflexivity|constructor].
  - destruct (default true _).
    + apply Hcase.
    + rewrite Hcase. exists []. split; [reflexivity|constructor].
Qed.

Lemma load_each_calls w names : forall self results rt,
  exists calls,
    trace (snd (load_each w self names results rt)) = calls ++ trace rt
    /\ Forall is_call calls.
Proof.
  induction names as [|name names IH]; intros self results rt; cbn [load_each].
  - exists []. split; [reflexivity|constructor].
  - unfold bind. destruct (load_by_name_calls w self name rt) as (c1 & Ht1 & Hc1).
    destruct (load_by_name w self name rt) as [[r self1] rt1]. simpl in Ht1.
    destruct (IH self1 (<[name := r]> results) rt1) as (c2 & Ht2 & Hc2).
    exists (c2 ++ c1). split.
    + rewrite Ht2, Ht1, app_assoc. reflexivity.
    + apply Forall_app. split; assumption.
Qed.

Lemma testable_spec name :
  existsb (String.eqb name) ["mobilenet"; "cocossd"; "tesseract"; "all"] = true
  <-> name ∈ testable.
Proof.
  unfold testable. rewrite existsb_exists. split.
  - intros (x & Hin & Heq). apply String.eqb_eq in Heq. subst x.
    apply list_elem_of_In. exact Hin.
  - intros Hin. exists name. split; [apply list_elem_of_In; exact Hin|apply String.eqb_refl].
Qed.

(** X14. The effects of [test_model_loading]. For a name that is neither
    a backend nor "all" it returns the result of an unknown model and
    does nothing else. For a known name, when the headless configuration
    skips the test, no loader is built and no library is called, and the
    clock is read once; when the test is not skipped, a loader is built
    first and all that follows are calls of libraries. *)
Theorem X14_test_model_loading_effects w name force cfg rt :
  let run := test_model_loading w name force cfg rt in
  ((name ∉ testable) -> run = (TestOne (unknown_model_result name), rt))
  /\ (name ∈ testable -> skipped force cfg ->
      trace (snd run) = trace rt /\ clock_reads (snd run) = S (clock_reads rt))
  /\ (name ∈ testable -> ~ skipped force cfg ->
      exists calls,
        trace (snd run) = calls ++ EvModelLoader :: trace rt
        /\ Forall is_call calls).
Proof.
  intros run. subst run. unfold test_model_loading.
  pose proof (testable_spec name) as Hname.
  pose proof (skipped_spec force cfg) as Hskip.
  destruct (existsb _ _); cbn [negb].
  2:{ split; [reflexivity|]. split; intros Hin; apply Hname in Hin; discriminate. }
  split; [intros Hno; exfalso; apply Hno, Hname; reflexivity|].
  destruct (_ && _ && _).
  - split; [|intros _ Hns; exfalso; apply Hns, Hskip; reflexivity].
    intros _ _. rewrite bind_tick. destruct (String.eqb name "all"); split; reflexivity.
  - split; [intros _ Hs; apply Hskip in Hs; discriminate|].
    intros _ _. unfold bind at 1. unfold ModelLoader_init at 1. rewrite bind_emit.
    unfold ret at 1. cbv beta iota.
    destruct (String.eqb name "all").
    + unfold bind at 1. unfold load_models.
      match goal with |- context [load_each w ?s ?n ?r ?t] =>
        destruct (load_each_calls w n s r t) as (calls & Ht & Hc);
        destruct (load_each w s n r t) as [[results self1] rt1] end.
      simpl in Ht. rewrite bind_tick. exists calls. simpl. split; assumption.
    + unfold bind at 1.
      match goal with |- context [load_by_name w ?s ?n ?t] =>
        destruct (load_by_name_calls w s n t) as (calls & Ht & Hc);
        destruct (load_by_name w s n t) as [[r self1] rt1] end.
      simpl in Ht. exists calls. simpl. split; assumption.
Qed.

Lemma forallb_map_to_list_false (results : gmap string load_result) name r :
  results !! name = Some r -> success r = false ->
  forallb (fun entry => success (snd entry)) (map_to_list results) = false.
Proof.
  intros Hr Hs. apply not_true_is_false. intros Hall.
  rewrite forallb_forall in Hall.
  specialize (Hall (name, r)). cbn [snd] in Hall. rewrite Hs in Hall.
  assert (false = true); [|discriminate]. apply Hall.
  apply list_elem_of_In, elem_of_map_to_list. exact Hr.
Qed.

(** X15. A backend that is switched off makes the test of all backends
    fail. When the test is not skipped and the configuration disables one
    backend, [test_model_loading] of "all" reports failure, and the entry
    of that backend is the disabled result, which is no success and names
    no model. *)
Theorem X15_disabled_backend_fails_test w c name force rt :
  name ∈ backends ->
  disabled c name ->
  ~ skipped force (Some c) ->
  exists results text stamp,
    fst (test_model_loading w "all" force (Some c) rt)
    = TestAll false results text stamp
    /\ results !! name = Some disabled_result
    /\ success disabled_result = false
    /\ res_model disabled_result = None.
Proof.
  intros Hb Hoff Hns. unfold test_model_loading.
  pose proof (skipped_spec force (Some c)) as Hskip.
  cbn [existsb String.eqb Ascii.eqb Bool.eqb orb negb].
  destruct (_ && _ && _); [exfalso; apply Hns, Hskip; reflexivity|].
  unfold bind at 1. unfold ModelLoader_init at 1. rewrite bind_emit.
  unfold ret at 1. cbv beta iota. 
  unfold bind at 1. unfold load_models. cbn [default].
  match goal with |- context [load_each w ?s ?n ?r ?t] =>
    pose proof (load_each_disabled w n s r t name) as Hres;
    destruct (load_each w s n r t) as [[results self1] rt1] end.
  simpl in Hres. rewrite bind_tick. 
  assert (Hlook : results !! name = Some disabled_result).
  { apply Hres; [exact Hb|exact Hb|exact Hoff]. }
  rewrite (forallb_map_to_list_false results name disabled_result Hlook eq_refl).
  eexists _, _, _. split; [reflexivity|]. repeat split. exact Hlook.
Qed.

(** The COCO-SSD backend is switched off and the load is forced. *)
Lemma X15_disabled_backend_fails_test_witness :
  exists results text stamp,
    fst (test_model_loading calm_world "all" true (Some without_cocossd) start)
    = TestAll false results text stamp
    /\ results !! "cocossd" = Some disabled_result.
Proof.
  destruct (X15_disabled_backend_fails_test calm_world without_cocossd "cocossd" true start)
    as (results & text & stamp & Hrun & Hresult & _).
  - unfold backends. rewrite !elem_of_cons. right. left. reflexivity.
  - exists {[ "cocossd" := ModelConfig (Some false) None None ]},
      (ModelConfig (Some false) None None).
    split; [reflexivity|]. split; [vm_compute; reflexivity|reflexivity].
  - intros [Hforce _]. discriminate Hforce.
  - exists results, text, stamp. split; [exact Hrun|exact Hresult].
Defined.

(** ** Screenshots *)

Lemma append_nonempty a b : a <> "" -> a +:+ b <> "".
Proof. destruct a; [contradiction|discriminate]. Qed.

Lemma endswith_refl s : Builtins.endswith s s = true.
Proof. destruct s; simpl; [reflexivity|]. rewrite Ascii.eqb_refl, String.eqb_refl. reflexivity. Qed.

Lemma endswith_app a s suffix :
  Builtins.endswith s suffix = true -> Builtins.endswith (a +:+ s) suffix = true.
Proof.
  intros H. induction a as [|c a IH]; simpl.
  - exact H.
  - rewrite IH. apply orb_true_r.
Qed.

Lemma or_else_nonempty a b : b <> "" -> Builtins.or_else a b <> "".
Proof.
  intros Hb. unfold Builtins.or_else. destruct a as [text|]; [|exact Hb].
  destruct (String.eqb_spec text ""); assumption.
Qed.

Lemma file_name_named w filename fmt rt :
  named filename fmt (fst (Screenshot.file_name w filename fmt rt))
  /\ trace (snd (Screenshot.file_name w filename fmt rt)) = trace rt.
Proof.
  assert (Hstamp : forall stamp,
             Builtins.endswith ("screenshot_" +:+ stamp +:+ "." +:+ fmt) ("." +:+ fmt) = true).
  { intros stamp. apply endswith_app, endswith_app, endswith_refl. }
  unfold Screenshot.file_name, named, Builtins.truthy.
  destruct filename as [given|]; cbn [negb].
  - destruct (String.eqb_spec given "") as [->|Hne]; cbn [negb].
    + rewrite bind_tick. unfold ret. cbn [fst snd trace]. split; [|reflexivity]. split.
      * apply Hstamp.
      * intros g [= <-] Hg. contradiction.
    + change (default "" (Some given)) with given.
      destruct (Builtins.endswith given ("." +:+ fmt)) eqn:Hend; cbn [negb];
        unfold ret; cbn [fst snd]; (split; [|reflexivity]); split.
      * exact Hend.
      * intros g [= <-] _. rewrite Hend. reflexivity.
      * apply endswith_app, endswith_refl.
      * intros g [= <-] _. rewrite Hend. reflexivity.
  - rewrite bind_tick. unfold ret. cbn [fst snd trace]. split; [|reflexivity]. split.
    + apply Hstamp.
    + intros g [=].
Qed.

Lemma get_screenshot_mss_captured w d dir filename monitor fmt rt :
  captured d dir filename fmt rt
    (snd (Screenshot.get_screenshot_mss w d dir filename monitor fmt rt))
    (fst (Screenshot.get_screenshot_mss w d dir filename monitor fmt rt)).
Proof.
  destruct (Screenshot.get_screenshot_mss w d dir filename monitor fmt rt)
    as [r rt'] eqn:Hrun. cbn [fst snd].
  unfold Screenshot.get_screenshot_mss in Hrun.
  destruct (MSS_AVAILABLE d); cbn [negb] in Hrun.
  2:{ injection Hrun as <- <-. split; [discriminate|reflexivity]. }
  unfold bind at 1 in Hrun.
  pose proof (ensure_dir_frame d dir rt) as Hdir.
  destruct (Screenshot.ensure_dir d dir rt) as [[e|path] rt1].
  all: cbn [fst snd] in Hdir; destruct Hdir as [Hf1 Hpath].
  { injection Hrun as <- <-. split; [apply append_nonempty; discriminate|exact Hf1]. }
  subst path. unfold bind at 1 in Hrun.
  pose proof (file_name_named w filename fmt rt1) as [Hnamed Ht2].
  destruct (Screenshot.file_name w filename fmt rt1) as [name rt2].
  cbn [fst snd] in Hnamed, Ht2.
  rewrite bind_tick, bind_emit in Hrun.
  assert (Hf2 : files_written rt2 = files_written rt).
  { unfold files_written. rewrite Ht2. exact Hf1. }
  destruct (mss_monitors d) as [e|monitors].
  { injection Hrun as <- <-. split; [apply append_nonempty; discriminate|exact Hf2]. }
  destruct (Screenshot.chosen_monitor monitors monitor) as [e|m].
  { injection Hrun as <- <-. split; [apply append_nonempty; discriminate|exact Hf2]. }
  rewrite bind_emit in Hrun.
  destruct (grab d m) as [e|img].
  { injection Hrun as <- <-. split; [apply append_nonempty; discriminate|exact Hf2]. }
  destruct (to_png d img _) as [e|].
  { injection Hrun as <- <-. split; [apply append_nonempty; discriminate|exact Hf2]. }
  rewrite bind_emit, bind_tick in Hrun. injection Hrun as <- <-.
  exists name. eexists. split; [reflexivity|]. split; [exact Hnamed|]. split; [reflexivity|].
  unfold files_written. cbn [trace List.filter is_write]. f_equal. exact Hf2.
Qed.

Lemma get_screenshot_pyautogui_captured w d dir filename fmt rt :
  captured d dir filename fmt rt
    (snd (Screenshot.get_screenshot_pyautogui w d dir filename fmt rt))
    (fst (Screenshot.get_screenshot_pyautogui w d dir filename fmt rt)).
Proof.
  destruct (Screenshot.get_screenshot_pyautogui w d dir filename fmt rt)
    as [r rt'] eqn:Hrun. cbn [fst snd].
  unfold Screenshot.get_screenshot_pyautogui in Hrun.
  destruct (PYAUTOGUI_AVAILABLE d); cbn [negb] in Hrun.
  2:{ injection Hrun as <- <-. split; [discriminate|reflexivity]. }
  unfold bind at 1 in Hrun.
  pose proof (ensure_dir_frame d dir rt) as Hdir.
  destruct (Screenshot.ensure_dir d dir rt) as [[e|path] rt1].
  all: cbn [fst snd] in Hdir; destruct Hdir as [Hf1 Hpath].
  { injection Hrun as <- <-. split; [apply append_nonempty; discriminate|exact Hf1]. }
  subst path. unfold bind at 1 in Hrun.
  pose proof (file_name_named w filename fmt rt1) as [Hnamed Ht2].
  destruct (Screenshot.file_name w filename fmt rt1) as [name rt2].
  cbn [fst snd] in Hnamed, Ht2.
  rewrite bind_tick, bind_emit in Hrun.
  assert (Hf2 : files_written rt2 = files_written rt).
  { unfold files_written. rewrite Ht2. exact Hf1. }
  destruct (pyautogui_screenshot d) as [e|img].
  { injection Hrun as <- <-. split; [apply append_nonempty; discriminate|exact Hf2]. }
  destruct (save_screenshot d img _) as [e|].
  { injection Hrun as <- <-. split; [apply append_nonempty; discriminate|exact Hf2]. }
  rewrite bind_emit, bind_tick in Hrun. injection Hrun as <- <-.
  exists name. eexists. split; [reflexivity|]. split; [exact Hnamed|]. split; [reflexivity|].
  unfold files_written. cbn [trace List.filter is_write]. f_equal. exact Hf2.
Qed.

Lemma capture_captured w d dir method filename monitor fmt rt :
  match fst (Screenshot.capture w d dir method filename monitor fmt rt) with
  | inr r =>
      captured d dir filename fmt rt
        (snd (Screenshot.capture w d dir method filename monitor fmt rt)) r
  | inl (Screenshot.ScreenshotError text) =>
      text = "指定されたスクリーンショット方法はサポートされていません: " +:+ method
      /\ snd (Screenshot.capture w d dir method filename monitor fmt rt) = rt
  | inl (Screenshot.Other _) => False
  end.
Proof.
  unfold Screenshot.capture.
  destruct (_ && MSS_AVAILABLE d).
  { unfold bind, ret.
    pose proof (get_screenshot_mss_captured w d dir filename monitor fmt rt) as H.
    destruct (Screenshot.get_screenshot_mss w d dir filename monitor fmt rt). exact H. }
  destruct (_ && PYAUTOGUI_AVAILABLE d).
  { unfold bind, ret.
    pose proof (get_screenshot_pyautogui_captured w d dir filename fmt rt) as H.
    destruct (Screenshot.get_screenshot_pyautogui w d dir filename fmt rt). exact H. }
  split; reflexivity.
Qed.

Lemma selected_method_raises d method text :
  Screenshot.selected_method d method = inl (Screenshot.ScreenshotError text) ->
  text <> "".
Proof.
  unfold Screenshot.selected_method.
  destruct (String.eqb _ "auto"); [|discriminate].
  destruct (MSS_AVAILABLE d); [discriminate|].
  destruct (PYAUTOGUI_AVAILABLE d); [discriminate|].
  intros [= <-]. discriminate.
Qed.

Lemma checked_taken d dir filename fmt rt rt' r :
  captured d dir filename fmt rt rt' r ->
  taken d dir filename fmt rt rt' (Screenshot.checked r).
Proof.
  destruct r as [[[] [path|]] [text|]]; simpl; try contradiction.
  - intros (name & earlier & H). repeat split. exists path, name, earlier.
    split; [reflexivity|exact H].
  - intros [Hne Hf]. split; [|exact Hf].
    apply (or_else_nonempty (Some text)). discriminate.
Qed.

Lemma after_sleep_taken w d dir method filename monitor fmt rt0 :
  let run :=
    match Screenshot.selected_method d method with
    | inl e => ret (inl e)
    | inr method =>
        do got <- Screenshot.capture w d dir method filename monitor fmt;
        match got with
        | inl e => ret (inl e)
        | inr r => ret (Screenshot.checked r)
        end
    end rt0 in
  taken d dir filename fmt rt0 (snd run) (fst run).
Proof.
  intros run. subst run.
  destruct (Screenshot.selected_method d method) as [[text|e]|chosen] eqn:Hsel.
  - unfold ret. cbn [fst snd]. split; [|reflexivity].
    eapply selected_method_raises, Hsel.
  - unfold Screenshot.selected_method in Hsel.
    destruct (String.eqb _ "auto"); [|discriminate].
    destruct (MSS_AVAILABLE d); [discriminate|].
    destruct (PYAUTOGUI_AVAILABLE d); discriminate.
  - unfold bind.
    pose proof (capture_captured w d dir chosen filename monitor fmt rt0) as H.
    destruct (Screenshot.capture w d dir chosen filename monitor fmt rt0)
      as [[[text|e]|r] rt1]; cbn [fst snd] in H |- *.
    + destruct H as [-> ->]. split; [apply append_nonempty; discriminate|reflexivity].
    + contradiction.
    + apply checked_taken, H.
Qed.

(** A run of [take_screenshot] wrote the file it returns, and nothing when
    it raised. *)
Lemma take_screenshot_written w d dir method filename monitor fmt delay rt :
  match Screenshot.take_screenshot w d dir method filename monitor fmt delay rt with
  | (inr (success, filepath, error), rt') =>
      success = true /\ error = None
      /\ exists path name,
           filepath = Some path /\ path = path_join d dir name
           /\ files_written rt' = EvImageSave path [] :: files_written rt
  | (inl _, rt') => files_written rt' = files_written rt
  end.
Proof.
  destruct (Screenshot.take_screenshot w d dir method filename monitor fmt delay rt)
    as [r rt'] eqn:Hrun.
  unfold Screenshot.take_screenshot in Hrun. unfold bind at 1 in Hrun.
  assert (Hdone : forall rt0,
    files_written rt0 = files_written rt ->
    taken d dir filename fmt rt0 rt' r ->
    match r with
    | inr (success, filepath, error) =>
        success = true /\ error = None
        /\ exists path name,
             filepath = Some path /\ path = path_join d dir name
             /\ files_written rt' = EvImageSave path [] :: files_written rt
    | inl _ => files_written rt' = files_written rt
    end).
  { intros rt0 Hsame H.
    destruct r as [[text|e]|[[success filepath] error]]; cbn [taken] in H.
    - rewrite <- Hsame. apply H.
    - contradiction.
    - destruct H as (Hs & He & path & name & earlier & Hp & Hn & _ & _ & Hf).
      split; [exact Hs|]. split; [exact He|]. exists path, name.
      split; [exact Hp|]. split; [exact Hn|]. rewrite <- Hsame. exact Hf. }
  destruct (Builtins.positive delay).
  - rewrite bind_emit in Hrun. unfold ret at 1 in Hrun.
    destruct (sleep d delay) as [e|]; [injection Hrun as <- <-; reflexivity|].
    pose proof (after_sleep_taken w d dir method filename monitor fmt
                  (Runtime (clock_reads rt) (EvBackend "time.sleep" :: trace rt))) as H.
    cbv zeta in H. rewrite Hrun in H. cbn [fst snd] in H.
    eapply Hdone; [|exact H]. reflexivity.
  - unfold ret at 1 in Hrun.
    pose proof (after_sleep_taken w d dir method filename monitor fmt rt) as H.
    cbv zeta in H. rewrite Hrun in H. cbn [fst snd] in H.
    eapply Hdone; [|exact H]. reflexivity.
Qed.

(** X16. The outcomes of [take_screenshot]. What it returns is always the
    success tuple: the flag true, no error, and the path of a file in the
    output directory whose name ends with the extension of the format and
    is the name that was given, with the extension added when it lacks
    it; the saving of this file is the last effect of the run and the
    only file written. A [ScreenshotError] has a text that is not empty,
    and then no file was written. Any other exception is the one
    [time.sleep] raised for a positive delay, and no file was written
    either. *)
Theorem X16_take_screenshot_outcome w d dir method filename monitor fmt delay rt :
  let run := Screenshot.take_screenshot w d dir method filename monitor fmt delay rt in
  match fst run with
  | inr (success, filepath, error) =>
      success = true /\ error = None
      /\ exists path name earlier,
           filepath = Some path
           /\ path = path_join d dir name
           /\ named filename fmt name
           /\ trace (snd run) = EvImageSave path [] :: earlier
           /\ files_written (snd run) = EvImageSave path [] :: files_written rt
  | inl (Screenshot.ScreenshotError text) =>
      text <> "" /\ files_written (snd run) = files_written rt
  | inl (Screenshot.Other e) =>
      Builtins.positive delay = true /\ sleep d delay = Some e
      /\ files_written (snd run) = files_written rt
  end.
Proof.
  intros run. subst run.
  destruct (Screenshot.take_screenshot w d dir method filename monitor fmt delay rt)
    as [r rt'] eqn:Hrun. cbn [fst snd].
  unfold Screenshot.take_screenshot in Hrun. unfold bind at 1 in Hrun.
  destruct (Builtins.positive delay) eqn:Hpos.
  - rewrite bind_emit in Hrun. unfold ret at 1 in Hrun.
    destruct (sleep d delay) as [e|] eqn:Hs; [injection Hrun as <- <-; repeat split|].
    pose proof (after_sleep_taken w d dir method filename monitor fmt
                  (Runtime (clock_reads rt) (EvBackend "time.sleep" :: trace rt))) as H.
    cbv zeta in H. rewrite Hrun in H. cbn [fst snd] in H.
    destruct r as [[text|e]|[[success filepath] error]]; [exact H|contradiction|exact H].
  - unfold ret at 1 in Hrun.
    pose proof (after_sleep_taken w d dir method filename monitor fmt rt) as H.
    cbv zeta in H. rewrite Hrun in H. cbn [fst snd] in H.
    destruct r as [[text|e]|[[success filepath] error]]; [exact H|contradiction|exact H].
Qed.

(** X17. A method that is not supported. When the method, in lower case,
    is not "auto", and is neither "mss" with the MSS library installed
    nor "pyautogui" with PyAutoGUI installed, [take_screenshot] raises
    the [ScreenshotError] that names the method as it was given; before
    that it only slept, if the delay is positive; it made no directory
    and read no clock. *)
Theorem X17_unsupported_method_raises w d dir method filename monitor fmt delay rt :
  let asked := Builtins.lower (unicode_lower d) method in
  (Builtins.positive delay = true -> sleep d delay = None) ->
  asked <> "auto" ->
  (asked = "mss" -> MSS_AVAILABLE d = false) ->
  (asked = "pyautogui" -> PYAUTOGUI_AVAILABLE d = false) ->
  let run := Screenshot.take_screenshot w d dir method filename monitor fmt delay rt in
  fst run
  = inl (Screenshot.ScreenshotError
           ("指定されたスクリーンショット方法はサポートされていません: " +:+ method))
  /\ trace (snd run)
     = (if Builtins.positive delay then [EvBackend "time.sleep"] else []) ++ trace rt
  /\ clock_reads (snd run) = clock_reads rt.
Proof.
  intros asked Hsleep Hauto Hmss Hpy run. subst run asked.
  unfold Screenshot.take_screenshot, Screenshot.selected_method, Screenshot.capture.
  destruct (String.eqb_spec (Builtins.lower (unicode_lower d) method) "auto");
    [contradiction|].
  assert (Hno_mss :
    String.eqb (Builtins.lower (unicode_lower d) method) "mss" && MSS_AVAILABLE d = false).
  { destruct (String.eqb_spec (Builtins.lower (unicode_lower d) method) "mss") as [H|H];
      [rewrite (Hmss H)|]; reflexivity. }
  assert (Hno_py :
    String.eqb (Builtins.lower (unicode_lower d) method) "pyautogui"
    && PYAUTOGUI_AVAILABLE d = false).
  { destruct (String.eqb_spec (Builtins.lower (unicode_lower d) method) "pyautogui")
      as [H|H]; [rewrite (Hpy H)|]; reflexivity. }
  rewrite Hno_mss, Hno_py.
  destruct (Builtins.positive delay).
  - unfold bind, emit, ret. rewrite (Hsleep eq_refl). cbn [fst snd]. repeat split.
  - unfold bind, ret. cbn [fst snd]. repeat split.
Qed.

(** The method "scrot", without delay. *)
Lemma X17_unsupported_method_raises_witness :
  fst (Screenshot.take_screenshot calm_world sample_desktop "shots" "scrot" None 0
         "png" (Builtins.Int 0) start)
  = inl (Screenshot.ScreenshotError
           "指定されたスクリーンショット方法はサポートされていません: scrot").
Proof.
  apply (X17_unsupported_method_raises calm_world sample_desktop "shots" "scrot" None 0
           "png" (Builtins.Int 0) start).
  - intros _. reflexivity.
  - vm_compute. discriminate.
  - vm_compute. discriminate.
  - vm_compute. discriminate.
Defined.

Lemma chosen_monitor_inr monitors monitor m :
  Screenshot.chosen_monitor monitors monitor = inr m ->
  monitors
  !! Z.to_nat (if (0 <=? monitor) && (monitor <? Screenshot.len monitors)
               then monitor else 0)
  = Some m.
Proof.
  unfold Screenshot.chosen_monitor.
  replace ((monitor <? 0) || (monitor >=? Screenshot.len monitors))
    with (negb ((0 <=? monitor) && (monitor <? Screenshot.len monitors))).
  2:{ rewrite negb_andb. f_equal.
      - destruct (Z.leb_spec 0 monitor), (Z.ltb_spec monitor 0); simpl; try reflexivity; lia.
      - destruct (Z.ltb_spec monitor (Screenshot.len monitors)),
                 (Z.geb_spec monitor (Screenshot.len monitors)); simpl; try reflexivity; lia. }
  destruct (_ && _); cbn [negb].
  - destruct (monitors !! _); [intros [= <-]; reflexivity|discriminate].
  - destruct (monitors !! _); [intros [= <-]; reflexivity|discriminate].
Qed.

(** X18. The monitor [get_screenshot_mss] captures. When it succeeds, the
    pixels written to the file it returns were grabbed from the entry of
    [sct.monitors] with the number asked for, and from entry 0 when the
    number is negative or not below the number of entries. *)
Theorem X18_mss_monitor_choice w d dir filename monitor fmt rt path :
  fst (Screenshot.get_screenshot_mss w d dir filename monitor fmt rt)
  = (true, Some path, None) ->
  exists monitors m img,
    mss_monitors d = inr monitors
    /\ monitors
       !! Z.to_nat (if (0 <=? monitor) && (monitor <? Screenshot.len monitors)
                    then monitor else 0)
       = Some m
    /\ grab d m = inr img
    /\ to_png d img path = None.
Proof.
  destruct (Screenshot.get_screenshot_mss w d dir filename monitor fmt rt)
    as [r rt'] eqn:Hrun. cbn [fst]. intros ->.
  unfold Screenshot.get_screenshot_mss in Hrun.
  destruct (MSS_AVAILABLE d); cbn [negb] in Hrun; [|discriminate].
  unfold bind at 1 in Hrun.
  destruct (Screenshot.ensure_dir d dir rt) as [[e|out] rt1]; [discriminate|].
  unfold bind at 1 in Hrun.
  destruct (Screenshot.file_name w filename fmt rt1) as [name rt2].
  rewrite bind_tick, bind_emit in Hrun.
  destruct (mss_monitors d) as [e|monitors]; [discriminate|].
  destruct (Screenshot.chosen_monitor monitors monitor) as [e|m] eqn:Hm; [discriminate|].
  rewrite bind_emit in Hrun.
  destruct (grab d m) as [e|img] eqn:Hg; [discriminate|].
  destruct (to_png d img _) as [e|] eqn:Hp; [discriminate|].
  rewrite bind_emit, bind_tick in Hrun. injection Hrun as <- _.
  exists monitors, m, img. split; [reflexivity|]. split; [|split; assumption].
  apply chosen_monitor_inr, Hm.
Qed.

(** Monitor 5 of a desktop with one entry. *)
Lemma X18_mss_monitor_choice_witness :
  exists path,
    fst (Screenshot.get_screenshot_mss calm_world sample_desktop "shots" None 5 "png"
           start)
    = (true, Some path, None)
    /\ exists img,
         grab sample_desktop (Monitor 0 0 1920 1080) = inr img
         /\ to_png sample_desktop img path = None.
Proof.
  eexists. split; [vm_compute; reflexivity|].
  destruct (X18_mss_monitor_choice calm_world sample_desktop "shots" None 5 "png" start _
              ltac:(vm_compute; reflexivity))
    as (monitors & m & img & Hmonitors & Hm & Hgrab & Hpng).
  injection Hmonitors as <-. vm_compute in Hm. injection Hm as <-.
  exists img. split; [exact Hgrab|exact Hpng].
Defined.

(** ** Annotations on an image *)

Lemma mapM_inr {A B} (f : A -> exn + B) xs ys :
  mapM f xs = inr ys <-> Forall2 (fun x y => f x = inr y) xs ys.
Proof.
  revert ys. induction xs as [|x xs IH]; intros ys; simpl.
  - split.
    + intros [= <-]. constructor.
    + intros H. inversion H. reflexivity.
  - split.
    + intros H. destruct (f x) as [e|y] eqn:Hx; simpl in H; [discriminate|].
      destruct (mapM f xs) as [e|rest]; simpl in H; [discriminate|].
      injection H as <-. constructor; [exact Hx|]. apply IH. reflexivity.
    + intros H. inversion H as [|? y ? rest Hx Hrest]; subst.
      rewrite Hx. simpl. apply IH in Hrest. rewrite Hrest. reflexivity.
Qed.

Lemma generate_colors_length n colors :
  ImageProcessing.generate_colors n = inr colors -> length colors = Z.to_nat n.
Proof.
  unfold ImageProcessing.generate_colors. intros H. apply mapM_inr in H.
  apply Forall2_length in H. rewrite <- H. apply length_seqZ.
Qed.

Lemma class_id_of_enumerate order : forall offset l,
  l ∈ order ->
  exists k,
    order !! k = Some l
    /\ ImageProcessing.class_id_of
         (imap (fun i name => (Z.of_nat (offset + i), name)) order) l
       = Z.of_nat (offset + k).
Proof.
  unfold ImageProcessing.class_id_of.
  induction order as [|name order IH]; intros offset l Hin.
  - now apply elem_of_nil in Hin.
  - simpl. destruct (String.eqb_spec name l) as [->|Hne].
    + exists 0%nat. split; reflexivity.
    + apply elem_of_cons in Hin as [Heq|Hin]; [congruence|].
      destruct (IH (S offset) l Hin) as (k & Hk & Hid).
      exists (S k). split; [exact Hk|].
      replace (offset + S k)%nat with (S offset + k)%nat by lia. rewrite <- Hid.
      rewrite (imap_ext _ (fun i name => (Z.of_nat (S offset + i), name)) order);
        [reflexivity|].
      intros i x _. simpl. f_equal. f_equal. lia.
Qed.

Lemma pick_color_in_range colors k color :
  colors !! k = Some color ->
  ImageProcessing.pick_color colors (Z.of_nat k) = inr color.
Proof.
  intros Hk. unfold ImageProcessing.pick_color.
  pose proof (lookup_lt_Some _ _ _ Hk) as Hlt.
  destruct (Z.eqb_spec (Z.of_nat (length colors)) 0) as [H0|_]; [lia|].
  rewrite Z.mod_small by lia. rewrite Nat2Z.id, Hk. reflexivity.
Qed.

Lemma annotate_all d names (order : list string) colors thickness font_scale show objs :
  (forall obj, obj ∈ objs ->
     exists k color,
       order !! k = Some (label obj) /\ colors !! k = Some color
       /\ ImageProcessing.annotate d names colors thickness font_scale show obj
          = inr (annotation d color thickness font_scale show obj)) ->
  exists drawn,
    Forall2 (fun obj calls =>
               ImageProcessing.annotate d names colors thickness font_scale show obj
               = inr calls) objs drawn
    /\ Forall2 (fun obj calls =>
                  exists k color,
                    order !! k = Some (label obj)
                    /\ colors !! k = Some color
                    /\ calls = annotation d color thickness font_scale show obj)
         objs drawn.
Proof.
  induction objs as [|obj objs IH]; intros Heach.
  - exists []. split; constructor.
  - destruct (Heach obj) as (k & color & Hk & Hc & Ha); [apply elem_of_cons; now left|].
    destruct IH as (drawn & H1 & H2).
    { intros o Ho. apply Heach. apply elem_of_cons. now right. }
    exists (annotation d color thickness font_scale show obj :: drawn).
    split; constructor; eauto.
Qed.

(** X19. The drawing of [visualize_annotations] with its own colours.
    When the set of the labels is iterated in some order of the distinct
    labels and the colours for them can be generated, the call succeeds,
    and it draws for every object, in the order of the objects, the box,
    the background of the tag and the tag, in the colour whose index is
    the position of the label of the object in that order: objects with
    the same label get the same colour. *)
Theorem X19_visualize_annotations_colors d objects thickness font_scale show colors :
  set_order d (map label objects) ≡ₚ remove_dups (map label objects) ->
  ImageProcessing.generate_colors
    (Z.of_nat (length (remove_dups (map label objects)))) = inr colors ->
  exists drawn,
    ImageProcessing.visualize_annotations d objects None None thickness font_scale show
    = inr (concat drawn)
    /\ Forall2 (fun obj calls =>
                  exists k color,
                    set_order d (map label objects) !! k = Some (label obj)
                    /\ colors !! k = Some color
                    /\ calls = annotation d color thickness font_scale show obj)
         objects drawn.
Proof.
  intros Horder Hcolors. unfold ImageProcessing.visualize_annotations.
  set (order := set_order d (map label objects)) in *.
  assert (Hlen : length (ImageProcessing.enumerate order)
                 = length (remove_dups (map label objects))).
  { unfold ImageProcessing.enumerate. rewrite length_imap. apply Permutation_length, Horder. }
  rewrite Hlen, Hcolors. simpl.
  pose proof (generate_colors_length _ _ Hcolors) as Hn. rewrite Nat2Z.id in Hn.
  assert (Heach : forall obj, obj ∈ objects ->
            exists k color,
              order !! k = Some (label obj) /\ colors !! k = Some color
              /\ ImageProcessing.annotate d (ImageProcessing.enumerate order) colors
                   thickness font_scale show obj
                 = inr (annotation d color thickness font_scale show obj)).
  { intros obj Hobj.
    assert (Hin : label obj ∈ order).
    { rewrite Horder, elem_of_remove_dups. apply list_elem_of_fmap. eauto. }
    destruct (class_id_of_enumerate order 0 (label obj) Hin) as (k & Hk & Hid).
    assert (Hk' : (k < length colors)%nat).
    { rewrite Hn, <- (Permutation_length Horder). eapply lookup_lt_Some, Hk. }
    destruct (lookup_lt_is_Some_2 colors k Hk') as [color Hcolor].
    exists k, color. split; [exact Hk|]. split; [exact Hcolor|].
    unfold ImageProcessing.annotate, ImageProcessing.enumerate.
    destruct (obj_bbox obj) as [x y bw bh] eqn:Hbox.
    cbn [Nat.add] in Hid. rewrite Hid. rewrite (pick_color_in_range colors k color Hcolor).
    simpl. unfold annotation. rewrite Hbox. reflexivity. }
  destruct (annotate_all d _ order colors thickness font_scale show objects Heach)
    as (drawn & H1 & H2).
  exists drawn. split; [|exact H2].
  apply mapM_inr in H1. rewrite H1. reflexivity.
Qed.

(** Two people and a dog. *)
Lemma X19_visualize_annotations_colors_witness :
  exists colors drawn,
    ImageProcessing.generate_colors 2 = inr colors
    /\ ImageProcessing.visualize_annotations sample_desktop people_and_dog None None
         2 0.6 true
       = inr (concat drawn)
    /\ length drawn = 3%nat.
Proof.
  eexists. 
  destruct (X19_visualize_annotations_colors sample_desktop people_and_dog 2 0.6 true
              _ ltac:(reflexivity) ltac:(vm_compute; reflexivity))
    as (drawn & Hdrawn & Hall).
  exists drawn. split; [vm_compute; reflexivity|]. split; [exact Hdrawn|].
  symmetry. apply (Forall2_length _ _ _ Hall).
Defined.

(** X20. [visualize_annotations] at its edges. With an empty list of
    colours and at least one object it raises a [ZeroDivisionError],
    whatever the class names; so it does with an empty dict of class
    names and no colours, because no colour is generated then. Without
    objects it draws nothing: with colours given, whatever they and the
    class names are; and with its own colours, whenever the colours for
    the class names can be generated, as they are for an empty dict of
    class names and, in the default call, when the empty set of labels is
    iterated as empty. *)
Theorem X20_visualize_annotations_without_colors d obj objs thickness font_scale show :
  (forall names,
     exists e,
       ImageProcessing.visualize_annotations d (obj :: objs) (Some []) names
         thickness font_scale show = inl e
       /\ exn_class_of e = ZeroDivisionError)
  /\ (exists e,
        ImageProcessing.visualize_annotations d (obj :: objs) None (Some [])
          thickness font_scale show = inl e
        /\ exn_class_of e = ZeroDivisionError)
  /\ (forall colors names,
        ImageProcessing.visualize_annotations d [] (Some colors) names
          thickness font_scale show = inr [])
  /\ (forall names generated,
        ImageProcessing.generate_colors
          (Z.of_nat (length (default (ImageProcessing.enumerate (set_order d []))
                               names)))
        = inr generated ->
        ImageProcessing.visualize_annotations d [] None names
          thickness font_scale show = inr [])
  /\ ImageProcessing.visualize_annotations d [] None (Some [])
       thickness font_scale show = inr []
  /\ (set_order d [] = [] ->
      ImageProcessing.visualize_annotations d [] None None
        thickness font_scale show = inr []).
Proof.
  unfold ImageProcessing.visualize_annotations.
  split; [|split; [|split; [|split; [|split]]]].
  - intros names. simpl. unfold ImageProcessing.annotate.
    destruct (obj_bbox obj). simpl. eexists. split; reflexivity.
  - simpl. unfold ImageProcessing.annotate.
    destruct (obj_bbox obj). simpl. eexists. split; reflexivity.
  - intros colors names. reflexivity.
  - intros names generated Hcolors.
    destruct names as [given|]; cbn [from_option id] in Hcolors; cbn [map];
      rewrite Hcolors; reflexivity.
  - reflexivity.
  - intros Hempty. cbn [map]. rewrite Hempty. reflexivity.
Qed.

Lemma detect_error_no_objects w self p rt :
  let d := fst (fst (YOLOModel_detect w self p rt)) in
  is_Some (det_error d) -> det_objects d = Some [].
Proof.
  unfold YOLOModel_detect, YOLOModel_load, bind, ret, emit.
  destruct (is_loaded self); simpl.
  - destruct (detected_objects _); simpl; [reflexivity|]. intros [x Hx]. discriminate.
  - destruct (YOLO_AVAILABLE w); simpl; [|reflexivity].
    destruct (YOLO w (model_path self)); simpl; [reflexivity|].
    destruct (detected_objects _); simpl; [reflexivity|]. intros [x Hx]. discriminate.
Qed.

(** X21. The files of [save_detection_results]. When it returns, the JSON
    file it reports is the output path, which it opened and wrote in
    full, and this is all it did to the files besides the calls of
    OpenCV; an image is reported only when the annotated image was asked
    for and the results have an image path that is not empty, at least
    one object, and an image that can be read, and its path is the one
    given, or the output path with its extension replaced by ".png"; for
    results without objects no image is reported and OpenCV is not
    called. When it raises, it is one of three: the output file could not
    be opened, and nothing happened; or the file was opened, which
    creates it or empties it, and the dump raised, so that the file stays
    behind with what was written of it; or the JSON file was written in
    full before the failure. *)
Theorem X21_save_detection_results_files d results out flag target rt :
  let run := ImageProcessing.save_detection_results d results out flag target rt in
  match fst run with
  | inr files =>
      ImageProcessing.json files = out
      /\ open_output d out = None
      /\ dump_detection d out results = None
      /\ files_touched (snd run) = EvJsonDump out :: EvOpen out :: files_touched rt
      /\ (forall png, ImageProcessing.image files = Some png ->
            flag = true
            /\ png = default (os_path_splitext d out +:+ ".png") target
            /\ exists image_path obj objs image,
                 det_image_path results = Some image_path /\ image_path <> ""
                 /\ det_objects results = Some (obj :: objs)
                 /\ imread d image_path = inr (Some image))
      /\ (det_objects results = Some [] \/ det_objects results = None ->
          ImageProcessing.image files = None
          /\ trace (snd run) = EvJsonDump out :: EvOpen out :: trace rt)
  | inl e =>
      (open_output d out = Some e /\ snd run = rt)
      \/ (open_output d out = None
          /\ dump_detection d out results = Some e
          /\ snd run = Runtime (clock_reads rt) (EvOpen out :: trace rt))
      \/ (open_output d out = None
          /\ dump_detection d out results = None
          /\ files_touched (snd run)
             = EvJsonDump out :: EvOpen out :: files_touched rt)
  end.
Proof.
  intros run. subst run.
  destruct (ImageProcessing.save_detection_results d results out flag target rt)
    as [r rt'] eqn:Hrun. cbn [fst snd].
  unfold ImageProcessing.save_detection_results in Hrun.
  destruct (open_output d out) as [e|] eqn:Hopen.
  { injection Hrun as <- <-. left. split; reflexivity. }
  rewrite bind_emit in Hrun.
  destruct (dump_detection d out results) as [e|] eqn:Hdump.
  { injection Hrun as <- <-. right. left. repeat split. }
  rewrite bind_emit in Hrun.
  destruct flag; cbn [andb] in Hrun.
  2:{ injection Hrun as <- <-.
      split; [reflexivity|]. split; [reflexivity|]. split; [reflexivity|].
      split; [reflexivity|]. split.
      - intros png Hpng. discriminate.
      - intros _. split; reflexivity. }
  destruct (det_image_path results) as [image_path|] eqn:Hpath; cbn [Builtins.truthy andb] in Hrun.
  2:{ injection Hrun as <- <-.
      split; [reflexivity|]. split; [reflexivity|]. split; [reflexivity|].
      split; [reflexivity|]. split.
      - intros png Hpng. discriminate.
      - intros _. split; reflexivity. }
  destruct (String.eqb_spec image_path "") as [->|Hne]; cbn [negb andb] in Hrun.
  { injection Hrun as <- <-.
    split; [reflexivity|]. split; [reflexivity|]. split; [reflexivity|].
    split; [reflexivity|]. split.
    - intros png Hpng. discriminate.
    - intros _. split; reflexivity. }
  destruct (det_objects results) as [[|obj objs]|] eqn:Hobjs;
    cbn [default from_option length Nat.eqb negb id] in Hrun.
  1,3: injection Hrun as <- <-;
    (split; [reflexivity|]); (split; [reflexivity|]); (split; [reflexivity|]);
    (split; [reflexivity|]);
    (split; [intros png Hpng; discriminate|intros _; split; reflexivity]).
  rewrite bind_emit in Hrun.
  destruct (imread d image_path) as [e|[image|]] eqn:Hread.
  - injection Hrun as <- <-. right. right. repeat split.
  - destruct (ImageProcessing.visualize_annotations d _ None None 2 0.6 true) as [e|drawing].
    { injection Hrun as <- <-. right. right. repeat split. }
    rewrite bind_emit in Hrun.
    destruct (imwrite d _ image drawing) as [e|written].
    { injection Hrun as <- <-. right. right. repeat split. }
    injection Hrun as <- <-.
    split; [reflexivity|]. split; [reflexivity|]. split; [reflexivity|].
    split; [reflexivity|]. split.
    + intros png Hpng. injection Hpng as <-. split; [reflexivity|]. split.
      * destruct target; reflexivity.
      * exists image_path, obj, objs, image. repeat split; assumption.
    + intros [H|H]; discriminate.
  - injection Hrun as <- <-.
    split; [reflexivity|]. split; [reflexivity|]. split; [reflexivity|].
    split; [reflexivity|]. split.
    + intros png Hpng. discriminate.
    + intros [H|H]; discriminate.
Qed.

(** ** The analysis of a screenshot *)

Lemma analyzer_take_screenshot_outcome w d dir prefix rt :
  match fst (ScreenshotAnalyzer.take_screenshot w d dir prefix rt) with
  | Some path =>
      path = os_path_join d dir
               (prefix +:+ "-" +:+ strftime w "%Y-%m-%dT%H-%M-%S" (clock_reads rt)
                +:+ ".png")
      /\ trace (snd (ScreenshotAnalyzer.take_screenshot w d dir prefix rt))
         = screenshot_taken path ++ trace rt
  | None =>
      files_written (snd (ScreenshotAnalyzer.take_screenshot w d dir prefix rt))
      = files_written rt
  end.
Proof.
  unfold ScreenshotAnalyzer.take_screenshot. rewrite bind_emit.
  destruct (mkdir d dir); [reflexivity|].
  rewrite bind_tick, bind_emit.
  destruct (pyautogui_screenshot d) as [e|shot]; [reflexivity|].
  destruct (save_screenshot d shot _); [reflexivity|].
  rewrite bind_emit. unfold ret. cbn [fst snd]. split; reflexivity.
Qed.

(** X22. The effects of [analyze_screenshot]. No JSON file is written,
    although the path of one is computed: besides the calls of OpenCV,
    the only file the run writes is the screenshot the function takes
    itself. After a success, the screenshot was the one given, or a new
    one when none was given or a new one was asked for; then the output
    directory was made, the model built, the prediction asked for and the
    image read, in this order; the count is the number of objects; and
    there is a visual feedback, written with OpenCV last of all, to the
    output directory under the name of the screenshot with "-visual.png",
    exactly when there is at least one object. *)
Theorem X22_analyze_screenshot_effects w d given out mp conf fresh prefix rt :
  let run :=
    ScreenshotAnalyzer.analyze_screenshot w d given out mp conf fresh prefix rt in
  (files_written (snd run) = files_written rt
   \/ exists shot, files_written (snd run) = EvImageSave shot [] :: files_written rt)
  /\ match fst run with
     | ScreenshotAnalyzer.Analyzed shot visual detection count elapsed =>
         exists objs before,
           det_error detection = None
           /\ det_objects detection = Some objs
           /\ count = Z.of_nat (length objs)
           /\ ((before = trace rt /\ given = Some shot /\ fresh = false)
               \/ (before = screenshot_taken shot ++ trace rt
                   /\ (given = None \/ fresh = true)))
           /\ match visual with
              | Some png =>
                  objs <> []
                  /\ png = os_path_join d out
                             (os_path_splitext d (os_path_basename d shot)
                              +:+ "-visual.png")
                  /\ trace (snd run)
                     = [ EvBackend "cv2.imwrite"; EvBackend "cv2.imread";
                         EvBackend "predict"; EvBackend "YOLO";
                         EvBackend "os.makedirs" ] ++ before
              | None =>
                  objs = []
                  /\ trace (snd run)
                     = [ EvBackend "cv2.imread"; EvBackend "predict";
                         EvBackend "YOLO"; EvBackend "os.makedirs" ] ++ before
              end
     | ScreenshotAnalyzer.Failed error shot elapsed => True
     end.
Proof.
  intros run. subst run.
  destruct (ScreenshotAnalyzer.analyze_screenshot w d given out mp conf fresh prefix rt)
    as [r rt'] eqn:Hrun. cbn [fst snd].
  unfold ScreenshotAnalyzer.analyze_screenshot in Hrun.
  rewrite bind_tick in Hrun. unfold bind at 1 in Hrun.
  set (rt0 := Runtime (S (clock_reads rt)) (trace rt)) in Hrun.
  assert (Hshot : exists got rt1,
    match given with
    | Some path =>
        if fresh then ScreenshotAnalyzer.take_screenshot w d "screenshots" prefix
        else ret (Some path)
    | None => ScreenshotAnalyzer.take_screenshot w d "screenshots" prefix
    end rt0 = (got, rt1)
    /\ match got with
       | Some shot =>
           (trace rt1 = trace rt /\ given = Some shot /\ fresh = false)
           \/ (trace rt1 = screenshot_taken shot ++ trace rt
               /\ (given = None \/ fresh = true))
       | None => files_written rt1 = files_written rt
       end).
  { assert (Htake : exists got rt1,
      ScreenshotAnalyzer.take_screenshot w d "screenshots" prefix rt0 = (got, rt1)
      /\ match got with
         | Some shot => trace rt1 = screenshot_taken shot ++ trace rt
         | None => files_written rt1 = files_written rt
         end).
    { pose proof (analyzer_take_screenshot_outcome w d "screenshots" prefix rt0) as H.
      destruct (ScreenshotAnalyzer.take_screenshot w d "screenshots" prefix rt0)
        as [[shot|] rt1]; cbn [fst snd] in H; eexists _, _; (split; [reflexivity|]).
      - apply H.
      - exact H. }
    destruct given as [path|]; [destruct fresh|].
    - destruct Htake as (got & rt1 & -> & H). exists got, rt1. split; [reflexivity|].
      destruct got; [right; split; [exact H|now right]|exact H].
    - exists (Some path), rt0. split; [reflexivity|]. left. repeat split.
    - destruct Htake as (got & rt1 & -> & H). exists got, rt1. split; [reflexivity|].
      destruct got; [right; split; [exact H|now left]|exact H]. }
  destruct Hshot as (got & rt1 & Htaken & Hgot). rewrite Htaken in Hrun. clear Htaken.
  destruct got as [shot|].
  2:{ unfold ScreenshotAnalyzer.time_taken in Hrun. unfold bind at 1 in Hrun.
      rewrite bind_tick in Hrun. unfold ret in Hrun. injection Hrun as <- <-.
      split; [|exact I]. left. exact Hgot. }
  assert (Hwritten : files_written rt1 = files_written rt
                     \/ files_written rt1 = EvImageSave shot [] :: files_written rt).
  { unfold files_written.
    destruct Hgot as [(-> & _)|(-> & _)]; [left|right]; reflexivity. }
  assert (Hexit : forall n evs,
            Forall (fun ev => is_write ev = false) evs ->
            files_written (Runtime n (evs ++ trace rt1)) = files_written rt
            \/ exists s, files_written (Runtime n (evs ++ trace rt1))
                         = EvImageSave s [] :: files_written rt).
  { intros n evs Hevs.
    assert (Heq : files_written (Runtime n (evs ++ trace rt1)) = files_written rt1).
    { unfold files_written. cbn [trace]. induction Hevs as [|ev evs Hev _ IH]; [reflexivity|].
      simpl. rewrite Hev. exact IH. }
    rewrite Heq. destruct Hwritten as [->| ->]; [now left|right; eauto]. }
  unfold ScreenshotAnalyzer.time_taken in Hrun.
  rewrite bind_emit in Hrun.
  destruct (mkdir d out) as [e|].
  { unfold bind at 1 in Hrun. rewrite bind_tick in Hrun. unfold ret in Hrun.
    injection Hrun as <- <-. split; [|exact I].
    apply (Hexit _ [EvBackend "os.makedirs"]). repeat constructor. }
  unfold bind at 1 in Hrun. unfold YOLOModel_load, YOLOModel_init in Hrun.
  cbn [model_path] in Hrun.
  destruct (YOLO_AVAILABLE w); cbn [negb] in Hrun.
  2:{ unfold ret at 1 in Hrun. cbn [negb] in Hrun.
      unfold bind at 1 in Hrun. rewrite bind_tick in Hrun. unfold ret in Hrun.
      injection Hrun as <- <-. split; [|exact I].
      apply (Hexit _ [EvBackend "os.makedirs"]). repeat constructor. }
  rewrite bind_emit in Hrun.
  destruct (YOLO w _) as [e|]; unfold ret at 1 in Hrun; cbn [negb] in Hrun.
  { unfold bind at 1 in Hrun. rewrite bind_tick in Hrun. unfold ret in Hrun.
    injection Hrun as <- <-. split; [|exact I].
    apply (Hexit _ [EvBackend "YOLO"; EvBackend "os.makedirs"]). repeat constructor. }
  unfold bind at 1 in Hrun. unfold YOLOModel_detect in Hrun.
  cbn [is_loaded yolo_confidence] in Hrun.
  unfold bind at 1 in Hrun. unfold ret at 1 in Hrun. cbn [negb] in Hrun.
  rewrite bind_emit in Hrun.
  destruct (detected_objects _) as [e|objs]; unfold ret at 1 in Hrun;
    cbn [det_error det_objects default from_option id] in Hrun.
  { unfold bind at 1 in Hrun. rewrite bind_tick in Hrun. unfold ret in Hrun.
    injection Hrun as <- <-. split; [|exact I].
    apply (Hexit _ [EvBackend "predict"; EvBackend "YOLO"; EvBackend "os.makedirs"]).
    repeat constructor. }
  rewrite bind_emit in Hrun.
  destruct (imread d shot) as [e|[image|]].
  { unfold bind at 1 in Hrun. rewrite bind_tick in Hrun. unfold ret in Hrun.
    injection Hrun as <- <-. split; [|exact I].
    apply (Hexit _ [EvBackend "cv2.imread"; EvBackend "predict"; EvBackend "YOLO";
                    EvBackend "os.makedirs"]). repeat constructor. }
  2:{ unfold bind at 1 in Hrun. rewrite bind_tick in Hrun. unfold ret in Hrun.
      injection Hrun as <- <-. split; [|exact I].
      apply (Hexit _ [EvBackend "cv2.imread"; EvBackend "predict"; EvBackend "YOLO";
                      EvBackend "os.makedirs"]). repeat constructor. }
  destruct objs as [|obj objs].
  { unfold bind at 1 in Hrun. rewrite bind_tick in Hrun. unfold ret in Hrun.
    injection Hrun as <- <-. split.
    - apply (Hexit _ [EvBackend "cv2.imread"; EvBackend "predict"; EvBackend "YOLO";
                      EvBackend "os.makedirs"]). repeat constructor.
    - exists [], (trace rt1). repeat split.
      destruct Hgot as [(-> & H)|(-> & H)]; [left|right]; split; try reflexivity; exact H. }
  destruct (ImageProcessing.visualize_annotations d _ None None 2 0.6 true)
    as [e|drawing].
  { unfold bind at 1 in Hrun. rewrite bind_tick in Hrun. unfold ret in Hrun.
    injection Hrun as <- <-. split; [|exact I].
    apply (Hexit _ [EvBackend "cv2.imread"; EvBackend "predict"; EvBackend "YOLO";
                    EvBackend "os.makedirs"]). repeat constructor. }
  rewrite bind_emit in Hrun.
  destruct (imwrite d _ image drawing) as [e|written].
  { unfold bind at 1 in Hrun. rewrite bind_tick in Hrun. unfold ret in Hrun.
    injection Hrun as <- <-. split; [|exact I].
    apply (Hexit _ [EvBackend "cv2.imwrite"; EvBackend "cv2.imread"; EvBackend "predict";
                    EvBackend "YOLO"; EvBackend "os.makedirs"]). repeat constructor. }
  unfold bind at 1 in Hrun. rewrite bind_tick in Hrun. unfold ret in Hrun.
  injection Hrun as <- <-. split.
  - apply (Hexit _ [EvBackend "cv2.imwrite"; EvBackend "cv2.imread"; EvBackend "predict";
                    EvBackend "YOLO"; EvBackend "os.makedirs"]). repeat constructor.
  - exists (obj :: objs), (trace rt1). split; [reflexivity|]. split; [reflexivity|].
    split; [reflexivity|]. split.
    + destruct Hgot as [(-> & H)|(-> & H)]; [left|right]; split; try reflexivity; exact H.
    + split; [discriminate|]. split; reflexivity.
Qed.

Lemma replace_length old new s :
  String.length (Builtins.replace old new s) = String.length s.
Proof.
  induction s as [|c rest IH]; simpl; [reflexivity|]. rewrite IH. reflexivity.
Qed.

Lemma replace_get old new s n :
  old <> new -> String.get n (Builtins.replace old new s) <> Some old.
Proof.
  intros Hne. revert n. induction s as [|c rest IH]; intros n; simpl; [discriminate|].
  destruct n as [|n]; [|apply IH].
  destruct (Ascii.eqb_spec c old) as [->|Hc]; intros [= H]; congruence.
Qed.

(** X23. The screenshot of a debug run. [debug_with_screenshot_analysis]
    is [analyze_screenshot] with no screenshot given and a new one asked
    for, under a prefix that contains no space: "debug" for an empty
    description, and "debug-" followed by as many characters as the
    description has otherwise. *)
Theorem X23_debug_prefix_has_no_space w d action out mp conf rt :
  exists prefix,
    ScreenshotAnalyzer.debug_with_screenshot_analysis w d action out mp conf rt
    = ScreenshotAnalyzer.analyze_screenshot w d None out mp conf true prefix rt
    /\ (forall n, String.get n prefix <> Some Builtins.space)
    /\ String.length prefix
       = (if String.eqb action "" then 5 else 6 + String.length action)%nat.
Proof.
  unfold ScreenshotAnalyzer.debug_with_screenshot_analysis.
  destruct (String.eqb action "").
  - exists "debug". split; [reflexivity|]. split; [|reflexivity].
    intros n. do 5 (destruct n as [|n]; [discriminate|]). discriminate.
  - eexists. split; [reflexivity|]. split.
    + intros n. do 6 (destruct n as [|n]; [discriminate|]).
      apply replace_get. discriminate.
    + change (S (S (S (S (S (S (String.length
                (Builtins.replace Builtins.space Builtins.underscore action)))))))
              = (6 + String.length action)%nat).
      rewrite replace_length. reflexivity.
Qed.

(** ** The two commands of the application *)

(** X24. What [process_screenshot] reports. A success means that the
    screenshot it names was written, and says nothing more: with
    [analyze_only] set the screenshot is taken and no analysis runs;
    without it [analyze_image] runs on the screenshot, with the visual
    feedback unless [no_visual] is set, and its outcome, success or
    failure, is only the entry "analysis" of a result that is a success.
    A failure means that no file was written, or that the screenshot
    library returned an empty path. *)
Theorem X24_process_screenshot_reports w d a cfg rt :
  let run := App.process_screenshot w d a cfg rt in
  let shots := App.directory a (App.screenshots_dir cfg) "screenshots" in
  let out := App.directory a (App.analysis_dir cfg) "analysis_results" in
  match fst run with
  | App.ScreenshotOk shot analysis =>
      exists rt1,
        files_written rt1 = EvImageSave shot [] :: files_written rt
        /\ match analysis with
           | None => App.analyze_only a = true /\ snd run = rt1
           | Some summary =>
               App.analyze_only a = false
               /\ (summary, snd run)
                  = (summary_of
                       (fst (analyze_image w shot out (negb (App.no_visual a))
                               (App.mock a) None rt1)),
                     snd (analyze_image w shot out (negb (App.no_visual a))
                            (App.mock a) None rt1))
           end
  | App.ScreenshotFailed error =>
      files_written (snd run) = files_written rt
      \/ (error = None /\ exists name, path_join d shots name = "")
  end.
Proof.
  intros run shots out. subst run shots out.
  destruct (App.process_screenshot w d a cfg rt) as [r rt'] eqn:Hrun. cbn [fst snd].
  unfold App.process_screenshot in Hrun. unfold bind at 1 in Hrun.
  match type of Hrun with context [Screenshot.take_screenshot w d ?dir ?m ?f ?mon ?fmt ?dl rt] =>
    pose proof (take_screenshot_written w d dir m f mon fmt dl rt) as Hshot;
    destruct (Screenshot.take_screenshot w d dir m f mon fmt dl rt)
      as [[e|[[success filepath] error]] rt1] end.
  - injection Hrun as <- <-. left. exact Hshot.
  - destruct Hshot as (-> & -> & path & name & -> & Hpath & Hf).
    cbn [negb orb Builtins.truthy] in Hrun.
    destruct (String.eqb_spec path "") as [Hempty|Hne]; cbn [negb] in Hrun.
    { injection Hrun as <- <-. right. split; [reflexivity|]. exists name. congruence. }
    change (default "" (Some path)) with path in Hrun.
    destruct (App.analyze_only a); cbn [negb] in Hrun.
    + injection Hrun as <- <-. exists rt1. split; [exact Hf|]. split; reflexivity.
    + unfold bind at 1 in Hrun.
      destruct (analyze_image w path _ _ _ None rt1)
        as [[results file visual|err] rt2] eqn:Hout;
        injection Hrun as <- <-; exists rt1; (split; [exact Hf|]);
        (split; [reflexivity|]); rewrite Hout; reflexivity.
Qed.

(** X25. What [process_image_analysis] reports. A success names the image
    of the command line, which exists, and the report and the visual
    feedback of a successful [analyze_image] on it. A failure is one of
    these: no image was given, or an empty path, and nothing happened;
    the image does not exist, and nothing happened; [analyze_image]
    failed, with its error; or [analyze_image] succeeded and wrote its
    files, and printing the summary raised. *)
Theorem X25_process_image_analysis_reports w d a cfg rt :
  let run := App.process_image_analysis w d a cfg rt in
  let out := App.directory a (App.analysis_dir cfg) "analysis_results" in
  let analyzed image :=
    analyze_image w image out (negb (App.no_visual a)) (App.mock a) None rt in
  match fst run with
  | App.ImageOk image file visual =>
      App.image a = Some image /\ image <> "" /\ path_exists d image = true
      /\ exists results, analyzed image = (AnalyzeOk results file visual, snd run)
  | App.ImageFailed error =>
      (snd run = rt
       /\ ((error = "解析する画像が指定されていません"
            /\ (App.image a = None \/ App.image a = Some ""))
           \/ exists image,
                App.image a = Some image /\ path_exists d image = false
                /\ error = "指定された画像が存在しません: " +:+ image))
      \/ exists image,
           App.image a = Some image /\ path_exists d image = true
           /\ (analyzed image = (AnalyzeFailed error, snd run)
               \/ exists results file visual e,
                    analyzed image = (AnalyzeOk results file visual, snd run)
                    /\ error = str e)
  end.
Proof.
  intros run out analyzed. subst run out analyzed.
  destruct (App.process_image_analysis w d a cfg rt) as [r rt'] eqn:Hrun. cbn [fst snd].
  unfold App.process_image_analysis in Hrun. unfold Builtins.truthy in Hrun.
  destruct (App.image a) as [image|] eqn:Himage; cbn [negb] in Hrun.
  2:{ injection Hrun as <- <-. left. split; [reflexivity|]. left. split; [reflexivity|now left]. }
  destruct (String.eqb_spec image "") as [->|Hne]; cbn [negb] in Hrun.
  { injection Hrun as <- <-. left. split; [reflexivity|]. left. split; [reflexivity|now right]. }
  change (default "" (Some image)) with image in Hrun.
  destruct (path_exists d image) eqn:Hexists; cbn [negb] in Hrun.
  2:{ injection Hrun as <- <-. left. split; [reflexivity|]. right. exists image.
      split; [reflexivity|]. split; [exact Hexists|reflexivity]. }
  unfold bind at 1 in Hrun.
  destruct (analyze_image w image _ _ _ None rt)
    as [[results file visual|err] rt1] eqn:Hout.
  - destruct (App.print_all d _) as [e|]; injection Hrun as <- <-.
    + right. exists image. split; [reflexivity|]. split; [exact Hexists|].
      right. exists results, file, visual, e. split; [exact Hout|reflexivity].
    + split; [reflexivity|]. split; [exact Hne|]. split; [exact Hexists|].
      exists results. exact Hout.
  - injection Hrun as <- <-. right. exists image. split; [reflexivity|].
    split; [exact Hexists|]. left. exact Hout.
Qed.
